(** * dicom2bmp: a shallow embedding of [utils.py]

    The development follows the source file top to bottom:
    [_is_unsupported], [_pixel_process], [_get_LUT_value_LINEAR_EXACT],
    [_ds_to_file], [_dicom_convertor], [_get_root_get_dicom_file_list],
    [_get_export_file_path] and [_get_metadata].

    - numpy [float64] samples are IEEE 754 binary64 values, taken from the
      standard library's [SpecFloat] (precision 53, maximal exponent 1024);
    - an [ndarray] is a shape together with its row-major buffer;
    - Python exceptions are an error monad ([result]); the effects of a
      conversion task on the file system are threaded as an explicit state;
    - the collaborators the source only calls (pydicom's decoder and LUT
      helpers, OpenCV's writer, the file system) are parameters. *)

From Stdlib Require Import ZArith List String Ascii Bool Lia Permutation Sorted.
From Stdlib Require Import SpecFloat.
Import ListNotations.

Local Open Scope string_scope.
Local Open Scope Z_scope.

(* ================================================================== *)
(** ** Exceptions and the error monad *)

Inductive exn : Type :=
| OSError (msg : string)
| Exception_ (msg : string)
| IndexError
| TypeError
| KeyError
| AttributeError
| ValueError
| ExternalError (msg : string).

Inductive result (A : Type) : Type :=
| Ok (a : A)
| Raise (e : exn).

Arguments Ok {A} a.
Arguments Raise {A} e.

Definition rbind {A B : Type} (r : result A) (k : A -> result B) : result B :=
  match r with
  | Ok a => k a
  | Raise e => Raise e
  end.

Declare Scope result_scope.
Delimit Scope result_scope with result.
Notation "x <- c ;; k" := (rbind c (fun x => k))
  (at level 61, c at next level, right associativity) : result_scope.
Local Open Scope result_scope.

(* ================================================================== *)
(** ** numpy [float64] as IEEE 754 binary64 *)

Module F64.

Definition prec : Z := 53.
Definition emax : Z := 1024.

Definition float : Type := spec_float.

Definition nan : float := S754_nan.

Definition add : float -> float -> float := SFadd prec emax.
Definition sub : float -> float -> float := SFsub prec emax.
Definition mul : float -> float -> float := SFmul prec emax.
Definition div : float -> float -> float := SFdiv prec emax.

Definition leb : float -> float -> bool := SFleb.
Definition ltb : float -> float -> bool := SFltb.

Definition is_nan (x : float) : bool :=
  match x with S754_nan => true | _ => false end.

(** The float nearest to an integer (exact for |z| < 2^53). *)
Definition of_Z (z : Z) : float := binary_normalize prec emax z 0 false.

(** [m / 2^k] for a dyadic literal such as [127.5 = 255 / 2^1]. *)
Definition of_dyadic (m : Z) (k : Z) : float :=
  binary_normalize prec emax m (- k) false.

(** Integral part, rounding toward zero; [None] on infinities and NaN. *)
Definition trunc (x : float) : option Z :=
  match x with
  | S754_zero _ => Some 0
  | S754_finite s m e =>
      let mag := if 0 <=? e then Z.shiftl (Zpos m) e
                 else Z.shiftr (Zpos m) (- e) in
      Some (if s then - mag else mag)
  | S754_infinity _ => None
  | S754_nan => None
  end.

(** [x > y] as numpy evaluates it: [y < x], false when unordered. *)
Definition gtb (x y : float) : bool := ltb y x.

(** The reduction step of [ndarray.min]: NaN propagates.  Of two samples
    that compare equal (zeros of opposite sign) the earlier is kept;
    numpy's vectorized loops may keep the other, which changes the sign of
    a zero minimum and no output byte. *)
Definition fmin (acc x : float) : float :=
  if leb acc x || is_nan acc then acc else x.

(** The reduction step of [ndarray.max]. *)
Definition fmax (acc x : float) : float :=
  if leb x acc || is_nan acc then acc else x.

End F64.

(** An 8-bit sample produced by [astype('uint8')].  A value whose integral
    part fits the target type is truncated.  For NaN the C conversion
    behind the cast leaves the result open (recent versions of numpy warn
    of an invalid value in the cast); what numpy stores is the byte 0, on
    x86-64 as on AArch64, and that is the value taken here.  For the
    infinities and for values outside [0, 255] the stored byte differs
    between platforms: that case is [Unspecified]. *)
Inductive sample8 : Type :=
| U8 (z : Z)
| Unspecified.

Definition astype_uint8 (x : F64.float) : sample8 :=
  match F64.trunc x with
  | Some t => if (0 <=? t) && (t <=? 255) then U8 t else Unspecified
  | None => if F64.is_nan x then U8 0 else Unspecified
  end.

(* ================================================================== *)
(** ** ndarray: shape and row-major buffer *)

Record ndarray (A : Type) : Type := mk_ndarray {
  shape : list nat;
  data : list A
}.

Arguments mk_ndarray {A} shape data.
Arguments shape {A} n.
Arguments data {A} n.

Definition size_of (sh : list nat) : nat := fold_right Nat.mul 1%nat sh.

(** Element-wise broadcast of a scalar function. *)
Definition nd_map {A B : Type} (f : A -> B) (a : ndarray A) : ndarray B :=
  mk_ndarray (shape a) (map f (data a)).

(** [a.min()]: raises [ValueError] on a zero-size array. *)
Definition amin (a : ndarray F64.float) : result F64.float :=
  match data a with
  | [] => Raise ValueError
  | x :: l => Ok (fold_left F64.fmin l x)
  end.

Definition amax (a : ndarray F64.float) : result F64.float :=
  match data a with
  | [] => Raise ValueError
  | x :: l => Ok (fold_left F64.fmax l x)
  end.

(* ================================================================== *)
(** ** Datasets

    The tags of a decoded pydicom dataset that the source reads.  [None]
    is an absent tag.  Window center and width are either one number or a
    [MultiValue]; [pixel_array] is the decoded sample array after
    [.astype(float)], or the exception raised when it is accessed. *)

Inductive element_value : Type :=
| Scalar (x : F64.float)
| MultiValue (l : list F64.float).

Record Dataset : Type := mk_Dataset {
  SOPClassUID : option string;
  RescaleSlope : option F64.float;
  RescaleIntercept : option F64.float;
  VOILUTFunction : option string;
  WindowCenter : option element_value;
  WindowWidth : option element_value;
  PhotometricInterpretation : option string;
  SeriesNumber : option string;
  InstanceNumber : option string;
  pixel_array : result (ndarray F64.float)
}.

(** ['Tag' in ds and ds.Tag == s] *)
Definition tag_is (t : option string) (s : string) : bool :=
  match t with
  | Some v => String.eqb v s
  | None => false
  end.

(* ================================================================== *)
(** ** [_is_unsupported] *)

Definition uid_encapsulated_pdf : string := "1.2.840.10008.5.1.4.1.1.104.1".
Definition uid_key_object_selection : string := "1.2.840.10008.5.1.4.1.1.88.59".

(** Returns the SOP class name when the class is rejected, [None] for the
    source's [False]; reading [ds.SOPClassUID] raises when the tag is absent. *)
Definition _is_unsupported (ds : Dataset) : result (option string) :=
  match SOPClassUID ds with
  | None => Raise AttributeError
  | Some uid =>
      if String.eqb uid uid_encapsulated_pdf then
        Ok (Some "Encapsulated PDF Storage")
      else if String.eqb uid uid_key_object_selection then
        Ok (Some "Key Object Selection Document")
      else Ok None
  end.

(* ================================================================== *)
(** ** [_get_LUT_value_LINEAR_EXACT] *)

(** One element of [np.piecewise(data, [c0, c1], [v0, v1, f])]: the output
    starts at zero, an "otherwise" condition is added for the third entry,
    and the three assignments are made in list order, so that a later
    condition overwrites an earlier one. *)
Definition piecewise3 (c0 c1 : bool) (v0 v1 : F64.float)
    (f : F64.float -> F64.float) (x : F64.float) : F64.float :=
  let celse := negb (c0 || c1) in
  let y := F64.of_Z 0 in
  let y := if c0 then v0 else y in
  let y := if c1 then v1 else y in
  let y := if celse then f x else y in
  y.

Definition two : F64.float := F64.of_Z 2.

Definition LINEAR_EXACT_sample (window level data_min data_max x : F64.float)
    : F64.float :=
  let data_range := F64.sub data_max data_min in
  piecewise3
    (F64.leb x (F64.sub level (F64.div window two)))
    (F64.gtb x (F64.add level (F64.div window two)))
    data_min data_max
    (fun d =>
       F64.add
         (F64.mul
            (F64.div (F64.add (F64.sub d level) (F64.div window two)) window)
            data_range)
         data_min)
    x.

Definition _get_LUT_value_LINEAR_EXACT (a : ndarray F64.float)
    (window level : F64.float) : result (ndarray F64.float) :=
  data_min <- amin a ;;
  data_max <- amax a ;;
  Ok (nd_map (LINEAR_EXACT_sample window level data_min data_max) a).

(* ================================================================== *)
(** ** [_pixel_process] *)

(** [float(v[0])] for a [MultiValue], [float(v)] otherwise. *)
Definition first_float (v : element_value) : result F64.float :=
  match v with
  | Scalar x => Ok x
  | MultiValue [] => Raise IndexError
  | MultiValue (x :: _) => Ok x
  end.

Definition c255 : F64.float := F64.of_Z 255.

(** Line 70: [((a - a.min()) / (a.max() - a.min())) * 255.0]. *)
Definition presentation_normalize (a : ndarray F64.float)
    : result (ndarray F64.float) :=
  lo <- amin a ;;
  hi <- amax a ;;
  lo' <- amin a ;;
  Ok (nd_map (fun x => F64.mul (F64.div (F64.sub x lo) (F64.sub hi lo')) c255) a).

(** Lines 72-74: [np.max(a) - a] when the image is MONOCHROME1. *)
Definition photometric_invert (ds : Dataset) (a : ndarray F64.float)
    : result (ndarray F64.float) :=
  if tag_is (PhotometricInterpretation ds) "MONOCHROME1" then
    m <- amax a ;;
    Ok (nd_map (fun x => F64.sub m x) a)
  else Ok a.

Section PixelPipeline.

(** pydicom's [apply_modality_lut] and [apply_voi_lut]. *)
Variable apply_modality_lut :
  ndarray F64.float -> Dataset -> result (ndarray F64.float).
Variable apply_voi_lut :
  ndarray F64.float -> Dataset -> result (ndarray F64.float).

(** Lines 37-45. *)
Definition modality_step (ds : Dataset) (a : ndarray F64.float)
    : result (ndarray F64.float) :=
  match RescaleSlope ds, RescaleIntercept ds with
  | Some rescale_slope, Some rescale_intercept =>
      Ok (nd_map (fun x => F64.add (F64.mul x rescale_slope) rescale_intercept) a)
  | _, _ => apply_modality_lut a ds
  end.

(** Lines 49-66. *)
Definition voi_step (ds : Dataset) (a : ndarray F64.float)
    : result (ndarray F64.float) :=
  if tag_is (VOILUTFunction ds) "SIGMOID" then apply_voi_lut a ds
  else
    match WindowCenter ds, WindowWidth ds with
    | Some wc, Some ww =>
        window_center <- first_float wc ;;
        window_width <- first_float ww ;;
        _get_LUT_value_LINEAR_EXACT a window_width window_center
    | _, _ => apply_voi_lut a ds
    end.

Definition _pixel_process (ds : Dataset) (a : ndarray F64.float)
    : result (ndarray sample8) :=
  a <- modality_step ds a ;;
  a <- voi_step ds a ;;
  a <- presentation_normalize a ;;
  a <- photometric_invert ds a ;;
  Ok (nd_map astype_uint8 a).

End PixelPipeline.

(* ================================================================== *)
(** ** Strings and paths

    Strings are byte strings.  [lower] maps the ASCII capitals and leaves
    every other byte alone; Python lowers no non-ASCII character to one of
    the letters tested below, so membership in the ASCII tables agrees. *)

Definition lower_ascii (c : ascii) : ascii :=
  let n := nat_of_ascii c in
  if ((65 <=? n) && (n <=? 90))%nat then ascii_of_nat (n + 32) else c.

Fixpoint lower (s : string) : string :=
  match s with
  | EmptyString => EmptyString
  | String c s' => String (lower_ascii c) (lower s')
  end.

(** [s.endswith(suf)] *)
Definition endswith (s suf : string) : bool :=
  let n := String.length s in
  let k := String.length suf in
  (k <=? n)%nat && String.eqb (substring (n - k) k s) suf.

(** [s.rfind('.')]: the index of the last dot. *)
Fixpoint rfind_dot_from (i : nat) (s : string) (last : option nat) : option nat :=
  match s with
  | EmptyString => last
  | String c s' =>
      rfind_dot_from (S i) s' (if Ascii.eqb c "."%char then Some i else last)
  end.

Definition rfind_dot (s : string) : option nat := rfind_dot_from 0 s None.

(** [s.split(c)] *)
Fixpoint split_on (c : ascii) (s : string) : list string :=
  match s with
  | EmptyString => [EmptyString]
  | String a s' =>
      if Ascii.eqb a c then EmptyString :: split_on c s'
      else match split_on c s' with
           | [] => [String a EmptyString]
           | w :: ws => String a w :: ws
           end
  end.

(** A pure POSIX path is the tuple of its parts; an absolute path starts
    with the root part ["/"] (or ["//"]), as [PurePosixPath.parts] does. *)
Definition Path : Type := list string.

Definition is_root_part (r : string) : bool :=
  String.eqb r "/" || String.eqb r "//".

Definition is_absolute (p : Path) : bool :=
  match p with
  | r :: _ => is_root_part r
  | [] => false
  end.

(** [Path(s)]: the root is kept, empty and ["."] components are dropped. *)
Definition Path_of_string (s : string) : Path :=
  let root :=
    if String.prefix "///" s then ["/"]
    else if String.prefix "//" s then ["//"]
    else if String.prefix "/" s then ["/"]
    else [] in
  (root ++ filter (fun c => negb (String.eqb c "") && negb (String.eqb c "."))
                  (split_on "/"%char s))%list.

(** [a / b] *)
Definition Path_join (a b : Path) : Path :=
  if is_absolute b then b else (a ++ b)%list.

(** [p.parent] *)
Definition Path_parent (p : Path) : Path :=
  match p with
  | [] => []
  | [r] => if is_root_part r then [r] else []
  | _ => removelast p
  end.

(** [p.name] *)
Definition Path_name (p : Path) : string :=
  match p with
  | [] => ""
  | [r] => if is_root_part r then "" else r
  | _ => last p ""
  end.

(** [p.suffix]: the part of the name from its last dot on, unless that dot
    opens or closes the name. *)
Definition Path_suffix (p : Path) : string :=
  let name := Path_name p in
  match rfind_dot name with
  | Some i =>
      if ((0 <? i) && (i <? String.length name - 1))%nat
      then substring i (String.length name - i) name
      else ""
  | None => ""
  end.

(** [str(p)] *)
Definition Path_str (p : Path) : string :=
  match p with
  | [] => "."
  | r :: rest =>
      if is_root_part r then r ++ String.concat "/" rest
      else String.concat "/" p
  end.

(** Paths compare as their tuples of parts, parts by code point. *)
Fixpoint Path_compare (p q : Path) : comparison :=
  match p, q with
  | [], [] => Eq
  | [], _ :: _ => Lt
  | _ :: _, [] => Gt
  | a :: p', b :: q' =>
      match String.compare a b with
      | Eq => Path_compare p' q'
      | c => c
      end
  end.

Definition Path_leb (p q : Path) : bool :=
  match Path_compare p q with
  | Gt => false
  | _ => true
  end.

Fixpoint Path_eqb (p q : Path) : bool :=
  match p, q with
  | [], [] => true
  | a :: p', b :: q' => String.eqb a b && Path_eqb p' q'
  | _, _ => false
  end.

(** [list.sort()] on paths: the stable sort by [<]. *)
Fixpoint insert_sorted (p : Path) (l : list Path) : list Path :=
  match l with
  | [] => [p]
  | q :: l' => if Path_leb p q then p :: l else q :: insert_sorted p l'
  end.

Definition sort_paths (l : list Path) : list Path :=
  fold_right insert_sorted [] l.

(* ================================================================== *)
(** ** The file system seen by discovery *)

#[local] Set Warnings "-register-all".

Inductive fs_node : Type :=
| FsFile
| FsDir (entries : list (string * fs_node))
| FsOther.

(** Induction on a tree together with the trees of its entries. *)
Fixpoint fs_node_nested_ind (P : fs_node -> Prop)
    (Hfile : P FsFile) (Hother : P FsOther)
    (Hdir : forall entries,
        Forall (fun e => P (snd e)) entries -> P (FsDir entries))
    (n : fs_node) {struct n} : P n :=
  match n with
  | FsFile => Hfile
  | FsOther => Hother
  | FsDir entries =>
      Hdir entries
        ((fix all (l : list (string * fs_node)) : Forall (fun e => P (snd e)) l :=
            match l with
            | [] => Forall_nil _
            | e :: l' =>
                Forall_cons e (fs_node_nested_ind P Hfile Hother Hdir (snd e)) (all l')
            end) entries)
  end.

Definition is_dir_node (n : fs_node) : bool :=
  match n with FsDir _ => true | _ => false end.

(** [os.walk(top)]: the triples (root, dirs, files), top-down.  Every entry
    that is not a directory is listed among the files. *)
Fixpoint os_walk (top : Path) (n : fs_node) {struct n}
    : list (Path * list string * list string) :=
  match n with
  | FsDir entries =>
      (top,
       map fst (filter (fun e => is_dir_node (snd e)) entries),
       map fst (filter (fun e => negb (is_dir_node (snd e))) entries))
      :: (fix walk_entries (l : list (string * fs_node)) :=
            match l with
            | [] => []
            | (name, child) :: l' =>
                ((if is_dir_node child then os_walk (top ++ [name])%list child else [])
                 ++ walk_entries l')%list
            end) entries
  | _ => []
  end.

(* ================================================================== *)
(** ** [_get_root_get_dicom_file_list] *)

Inductive origin_arg : Type :=
| OneOrigin (s : string)
| ManyOrigins (l : list string).

Section Discovery.

(** What [Path.exists], [is_file], [is_dir] and [os.walk] observe. *)
Variable fs : Path -> option fs_node.

(** Lines 250-256: the files of one directory tree whose lowered name
    ends with [.dcm]. *)
Definition walk_dcm (origin : Path) (n : fs_node) : list Path :=
  flat_map
    (fun t : Path * list string * list string =>
       let '(root, _, file) := t in
       map (fun f => Path_join root (Path_of_string f))
           (filter (fun f => endswith (lower f) ".dcm") file))
    (os_walk origin n).

(** Lines 239-256: one iteration of the loop over [origin_list]; the
    result is what is appended to [dicom_file_list]. *)
Definition visit_origin (origin : Path) : result (list Path) :=
  match fs origin with
  | None =>
      Raise (OSError ("File or folder '" ++ Path_str origin ++ "' does not exist"))
  | Some FsFile =>
      if negb (String.eqb (lower (Path_suffix origin)) ".dcm")
      then Raise (Exception_ "Input file type should be a DICOM file")
      else Ok [origin]
  | Some (FsDir entries) => Ok (walk_dcm origin (FsDir entries))
  | Some FsOther => Ok []
  end.

Fixpoint visit_origins (origin_list : list Path) (dicom_file_list : list Path)
    : result (list Path) :=
  match origin_list with
  | [] => Ok dicom_file_list
  | origin :: rest =>
      found <- visit_origin origin ;;
      visit_origins rest (dicom_file_list ++ found)%list
  end.

Definition origin_list_of (origin_input : origin_arg) : list Path :=
  match origin_input with
  | ManyOrigins l => map Path_of_string l
  | OneOrigin s => [Path_of_string s]
  end.

(** Lines 229-258: the sorted list of dataset files. *)
Definition discover (origin_input : origin_arg) : result (list Path) :=
  dicom_file_list <- visit_origins (origin_list_of origin_input) [] ;;
  Ok (sort_paths dicom_file_list).

(** Lines 260-270. *)
Definition resolve_root (origin_input : origin_arg) (target_root : option string)
    : result Path :=
  match target_root with
  | None =>
      match origin_input with
      | ManyOrigins [] => Raise IndexError
      | ManyOrigins (s :: _) => Ok (Path_parent (Path_of_string s))
      | OneOrigin s => Ok (Path_parent (Path_of_string s))
      end
  | Some t => Ok (Path_of_string t)
  end.

Definition _get_root_get_dicom_file_list (origin_input : origin_arg)
    (target_root : option string) : result (Path * list Path) :=
  dicom_file_list <- discover origin_input ;;
  root_folder <- resolve_root origin_input target_root ;;
  Ok (root_folder, dicom_file_list).

End Discovery.

(* ================================================================== *)
(** ** [_get_metadata] and [_get_export_file_path] *)

(** The two entries of the metadata dictionary; an absent tag raises in
    the source and is replaced by the placeholder. *)
Definition _get_metadata (ds : Dataset) : string * string :=
  (match SeriesNumber ds with Some v => v | None => "Ser" end,
   match InstanceNumber ds with Some v => v | None => "Ins" end).

(** [patient_dict[file_path]] on the dictionary handed to the task. *)
Fixpoint dict_get (d : list (Path * Path)) (k : Path) : result Path :=
  match d with
  | [] => Raise KeyError
  | (k', v) :: d' => if Path_eqb k' k then Ok v else dict_get d' k
  end.

Definition export_file_name (SeriesNumber InstanceNumber filetype : string) : string :=
  SeriesNumber ++ "_" ++ InstanceNumber ++ "." ++ filetype.

Definition _get_export_file_path (ds : Dataset) (file_path target_root : Path)
    (filetype : string) (anonymous : bool)
    (patient_dict : option (list (Path * Path))) : result Path :=
  if anonymous then
    match patient_dict with
    | None => Raise TypeError
    | Some d => dict_get d file_path
    end
  else
    let '(SeriesNumber, InstanceNumber) := _get_metadata ds in
    Ok (Path_join target_root
          (Path_of_string (export_file_name SeriesNumber InstanceNumber filetype))).

(* ================================================================== *)
(** ** Channel reordering, lines 168-171 *)

Definition color_interpretations : list string :=
  ["YBR_RCT"; "RGB"; "YBR_ICT"; "YBR_PARTIAL_420"; "YBR_FULL_422"; "YBR_FULL";
   "PALETTE COLOR"].

Definition tag_in (t : option string) (l : list string) : bool :=
  match t with
  | Some v => existsb (String.eqb v) l
  | None => false
  end.

Section Swap.

Context {A : Type}.

(** Within one run of [d2] blocks of [b] elements, exchange block 0 and
    block 2. *)
Definition swap_blocks_0_2 (b : nat) (chunk : list A) : list A :=
  let b0 := firstn b chunk in
  let r1 := skipn b chunk in
  let b1 := firstn b r1 in
  let r2 := skipn b r1 in
  let b2 := firstn b r2 in
  let r3 := skipn b r2 in
  (b2 ++ b1 ++ b0 ++ r3)%list.

Fixpoint map_chunks (n sz : nat) (f : list A -> list A) (l : list A) : list A :=
  match n with
  | O => l
  | S n' => (f (firstn sz l) ++ map_chunks n' sz f (skipn sz l))%list
  end.

(** [a[:, :, [0, 2]] = a[:, :, [2, 0]]]: indexing the third axis raises
    [IndexError] when the array has fewer than three axes or the axis is
    shorter than three. *)
Definition swap_axis2_0_2 (a : ndarray A) : result (ndarray A) :=
  match shape a with
  | d0 :: d1 :: d2 :: rest =>
      if (3 <=? d2)%nat then
        let b := size_of rest in
        Ok (mk_ndarray (shape a)
              (map_chunks (d0 * d1) (d2 * b) (swap_blocks_0_2 b) (data a)))
      else Raise IndexError
  | _ => Raise IndexError
  end.

End Swap.

Definition channel_fixup (ds : Dataset) (a : ndarray sample8)
    : result (ndarray sample8) :=
  if tag_in (PhotometricInterpretation ds) color_interpretations
  then swap_axis2_0_2 a
  else Ok a.

(* ================================================================== *)
(** ** The world of a conversion task *)

Record World : Type := mk_World {
  (** what the file system answers to discovery *)
  fs_lookup : Path -> option fs_node;
  (** [pydicom.dcmread(file_path, force=True)] *)
  dcmread : Path -> result Dataset;
  apply_modality_lut : ndarray F64.float -> Dataset -> result (ndarray F64.float);
  apply_voi_lut : ndarray F64.float -> Dataset -> result (ndarray F64.float);
  (** [Path.mkdir(p, exist_ok=True, parents=True)] *)
  mkdir : Path -> result unit;
  (** [cv2.imwrite(name, img, params)]: whether the file was written *)
  imwrite : string -> ndarray sample8 -> list Z -> result bool
}.

(** What the tasks have done to the disk so far, in order: the directories
    made and the successful writes.  A write to a name written before
    replaces that file; the entry of the earlier write stays in the list. *)
Record Disk : Type := mk_Disk {
  dirs_made : list Path;
  files_written : list (string * ndarray sample8)
}.

Definition empty_disk : Disk := mk_Disk [] [].

(** A task either returns [True] or the message it was asked to return. *)
Inductive task_rv : Type :=
| RvTrue
| RvMsg (msg : string).

(** State and exceptions together: what was done before an exception
    stays done. *)
Definition task (A : Type) : Type := Disk -> result A * Disk.

Definition tret {A : Type} (a : A) : task A := fun d => (Ok a, d).

Definition tbind {A B : Type} (c : task A) (k : A -> task B) : task B :=
  fun d =>
    match c d with
    | (Ok a, d') => k a d'
    | (Raise e, d') => (Raise e, d')
    end.

Definition lift {A : Type} (r : result A) : task A := fun d => (r, d).

Declare Scope task_scope.
Delimit Scope task_scope with task.
Notation "x <- c ;; k" := (tbind c (fun x => k))
  (at level 61, c at next level, right associativity) : task_scope.

Definition IMWRITE_JPEG_QUALITY : Z := 1.

Definition nl : string := String "010"%char EmptyString.

Section Task.

Variable W : World.

Definition do_mkdir (p : Path) : task unit :=
  fun d =>
    match mkdir W p with
    | Ok u => (Ok u, mk_Disk (dirs_made d ++ [p])%list (files_written d))
    | Raise e => (Raise e, d)
    end.

Definition do_imwrite (name : string) (img : ndarray sample8) (params : list Z)
    : task bool :=
  fun d =>
    match imwrite W name img params with
    | Ok true => (Ok true, mk_Disk (dirs_made d) (files_written d ++ [(name, img)])%list)
    | Ok false => (Ok false, d)
    | Raise e => (Raise e, d)
    end.

(** Line 146. *)
Definition is_multiframe (a : ndarray F64.float) : bool :=
  (List.length (shape a) =? 3)%nat && negb (nth 2 (shape a) O =? 3)%nat.

Definition _ds_to_file (file_path target_root : Path) (filetype : string)
    (anonymous : bool) (patient_dict : option (list (Path * Path)))
    : task task_rv :=
  (ds <- lift (dcmread W file_path) ;;
   is_unsupported <- lift (_is_unsupported ds) ;;
   match is_unsupported with
   | Some sop_name =>
       tret (RvMsg (Path_str file_path ++ " cannot be converted." ++ nl
                      ++ sop_name ++ " is currently not supported"))
   | None =>
       pixel_array <- lift (pixel_array ds) ;;
       if is_multiframe pixel_array then
         tret (RvMsg (Path_str file_path ++ " cannot be converted." ++ nl
                        ++ "Multiframe images are currently not supported"))
       else
         pixel_array <- lift (_pixel_process (apply_modality_lut W)
                                (apply_voi_lut W) ds pixel_array) ;;
         pixel_array <- lift (channel_fixup ds pixel_array) ;;
         full_export_fp_fn <- lift (_get_export_file_path ds file_path target_root
                                      filetype anonymous patient_dict) ;;
         _ <- do_mkdir (Path_parent full_export_fp_fn) ;;
         _ <- (if String.eqb filetype "jpg"
               then do_imwrite (Path_str full_export_fp_fn) pixel_array
                      [IMWRITE_JPEG_QUALITY; 90]
               else do_imwrite (Path_str full_export_fp_fn) pixel_array []) ;;
         tret RvTrue
   end)%task.

(** ** [_dicom_convertor] *)

Definition recognized_filetypes : list string :=
  ["jpg"; "png"; "jpeg"; "bmp"; "img"; "tiff"].

(** Lines 195-198. *)
Definition check_filetype (filetype : option string) : result string :=
  match filetype with
  | None => Ok "bmp"
  | Some ft =>
      if negb (existsb (String.eqb (lower ft)) recognized_filetypes)
      then Raise (Exception_ "Target file type should be jpg, png, or bmp")
      else Ok ft
  end.

(** Lines 212-213: the list comprehension stops at the first task that
    raises. *)
Fixpoint run_sequential (run : Path -> task task_rv) (files : list Path)
    : task (list task_rv) :=
  match files with
  | [] => tret []
  | f :: rest =>
      (rv <- run f ;;
       rvs <- run_sequential run rest ;;
       tret (rv :: rvs))%task
  end.

(** Lines 206-208: every submitted task runs in a worker of its own; the
    executor waits for all of them before the [with] block is left.  The
    tasks read the world only through [W], so each outcome is the one of
    the task run alone; the writes are recorded in submission order. *)
Fixpoint run_submitted (run : Path -> task task_rv) (files : list Path) (d : Disk)
    : list (result task_rv) * Disk :=
  match files with
  | [] => ([], d)
  | f :: rest =>
      let '(r, d1) := run f d in
      let '(rs, d2) := run_submitted run rest d1 in
      (r :: rs, d2)
  end.

(** Line 209: [future.result()] in order re-raises the first exception. *)
Fixpoint collect_results (futures : list (result task_rv)) : result (list task_rv) :=
  match futures with
  | [] => Ok []
  | r :: rest =>
      rv <- r ;;
      rvs <- collect_results rest ;;
      Ok (rv :: rvs)
  end.

Definition _dicom_convertor (origin : origin_arg) (target_root : option string)
    (filetype : option string) (anonymous multiprocessing : bool)
    : task bool :=
  (filetype <- lift (check_filetype filetype) ;;
   rl <- lift (_get_root_get_dicom_file_list (fs_lookup W) origin target_root) ;;
   let '(target_root, dicom_file_list) := rl in
   let full_path_dict : option (list (Path * Path)) := None in
   let run := fun file_path =>
     _ds_to_file file_path target_root filetype anonymous full_path_dict in
   return_message <-
     (if multiprocessing then
        fun d =>
          let '(return_future, d') := run_submitted run dicom_file_list d in
          (collect_results return_future, d')
      else run_sequential run dicom_file_list) ;;
   tret true)%task.

End Task.

(* ================================================================== *)
(** ** The entry point of [dicom2bmp-convertor.py] *)

(** [dicom2bmp(origin, target_root, anonymous, multiprocessing)]: the
    batch with the format fixed to bmp. *)
Definition dicom2bmp (W : World) (origin : origin_arg)
    (target_root : option string) (anonymous multiprocessing : bool)
    : task bool :=
  _dicom_convertor W origin target_root (Some "bmp") anonymous multiprocessing.

(* ================================================================== *)
(** ** The normalized windowing functions

    [_get_LUT_value_LINEAR_normalized] and
    [_get_LUT_value_LINEAR_EXACT_normalized], on a float array with a
    float window and level, as [_pixel_process] calls their sibling. *)

Definition half : F64.float := F64.of_dyadic 1 1.
Definition one : F64.float := F64.of_Z 1.

(** Lines 85-88, one element. *)
Definition LINEAR_normalized_sample (window level x : F64.float) : F64.float :=
  piecewise3
    (F64.leb x (F64.sub (F64.sub level half)
                  (F64.div (F64.sub window one) two)))
    (F64.gtb x (F64.add (F64.sub level half)
                  (F64.div (F64.sub window one) two)))
    (F64.of_Z 0) (F64.of_Z 255)
    (fun d =>
       F64.mul
         (F64.add
            (F64.div (F64.sub d (F64.sub level half)) (F64.sub window one))
            half)
         (F64.of_Z (255 - 0)))
    x.

Definition _get_LUT_value_LINEAR_normalized (a : ndarray F64.float)
    (window level : F64.float) : ndarray F64.float :=
  nd_map (LINEAR_normalized_sample window level) a.

(** [np.clip(x, a_min, a_max)], which numpy defines as
    [np.minimum(a_max, np.maximum(x, a_min))]; [np.maximum] and
    [np.minimum] are the steps of the reductions above. *)
Definition clip (a_min a_max x : F64.float) : F64.float :=
  F64.fmin a_max (F64.fmax x a_min).

(** Lines 100-104, one element. *)
Definition LINEAR_EXACT_normalized_sample (window level x : F64.float)
    : F64.float :=
  clip (F64.of_Z 0) (F64.of_Z 255)
    (piecewise3
       (F64.leb x (F64.sub level (F64.div window two)))
       (F64.gtb x (F64.add level (F64.div window two)))
       (F64.of_Z 0) (F64.of_Z 255)
       (fun d =>
          F64.mul
            (F64.div (F64.add (F64.sub d level) (F64.div window two)) window)
            (F64.of_Z 255))
       x).

Definition _get_LUT_value_LINEAR_EXACT_normalized (a : ndarray F64.float)
    (window level : F64.float) : ndarray F64.float :=
  nd_map (LINEAR_EXACT_normalized_sample window level) a.

(* ================================================================== *)
(** ** The mapping of the specification, for comparison

    The LINEAR_EXACT rule read as the specification lists it: the first
    condition that holds decides. *)

Definition spec_window_sample (w c dmin dmax x : F64.float) : F64.float :=
  if F64.leb x (F64.sub c (F64.div w two)) then dmin
  else if F64.gtb x (F64.add c (F64.div w two)) then dmax
  else F64.add
         (F64.mul (F64.div (F64.add (F64.sub x c) (F64.div w two)) w)
                  (F64.sub dmax dmin))
         dmin.

(** The same three cases in the order in which [np.piecewise] lets them
    win. *)
Definition window_sample_by_priority (w c dmin dmax x : F64.float) : F64.float :=
  if F64.gtb x (F64.add c (F64.div w two)) then dmax
  else if F64.leb x (F64.sub c (F64.div w two)) then dmin
  else F64.add
         (F64.mul (F64.div (F64.add (F64.sub x c) (F64.div w two)) w)
                  (F64.sub dmax dmin))
         dmin.

(** [v] resolves to the single float [x]. *)
Definition resolves_to (v : element_value) (x : F64.float) : Prop :=
  v = Scalar x \/ exists l, v = MultiValue (x :: l).

(** The dataset [ds] with its photometric interpretation replaced. *)
Definition with_photometric (ph : string) (ds : Dataset) : Dataset :=
  mk_Dataset (SOPClassUID ds) (RescaleSlope ds) (RescaleIntercept ds)
    (VOILUTFunction ds) (WindowCenter ds) (WindowWidth ds) (Some ph)
    (SeriesNumber ds) (InstanceNumber ds) (pixel_array ds).

(** Two arrays have the same shape and as many elements. *)
Definition same_extent {A B : Type} (a : ndarray A) (b : ndarray B) : Prop :=
  shape b = shape a /\ List.length (data b) = List.length (data a).

(** The position of the element at a multi-index in the row-major buffer,
    as [np.ravel_multi_index] computes it; no position when the index has
    another number of axes than the shape or leaves the bounds. *)
Fixpoint ravel (sh idx : list nat) (acc : nat) : option nat :=
  match sh, idx with
  | [], [] => Some acc
  | d :: sh', i :: idx' =>
      if (i <? d)%nat then ravel sh' idx' (acc * d + i) else None
  | _, _ => None
  end.

(** [a[idx]] for a full multi-index. *)
Definition nd_get {A : Type} (a : ndarray A) (idx : list nat) : option A :=
  match ravel (shape a) idx 0 with
  | Some p => nth_error (data a) p
  | None => None
  end.

(** The index list [[2, 1, 0, 3, 4, ...]]: 0 and 2 exchanged. *)
Definition swap02 (i : nat) : nat :=
  match i with
  | 0%nat => 2%nat
  | 2%nat => 0%nat
  | _ => i
  end.

Definition sample8_eqb (x y : sample8) : bool :=
  match x, y with
  | U8 a, U8 b => a =? b
  | Unspecified, Unspecified => true
  | _, _ => false
  end.

(** The array just before the cast to 8 bits is taken, without the
    photometric inversion: lines 37-70. *)
Definition normalized_samples
    (apply_modality_lut apply_voi_lut :
       ndarray F64.float -> Dataset -> result (ndarray F64.float))
    (ds : Dataset) (a : ndarray F64.float) : result (ndarray F64.float) :=
  a <- modality_step apply_modality_lut ds a ;;
  a <- voi_step apply_voi_lut ds a ;;
  presentation_normalize a.

(** Whole numbers of the display range survive the cast, and their
    mirror image [255 - k] is computed exactly. *)
Definition whole_sample_ok (k : Z) : bool :=
  sample8_eqb (astype_uint8 (F64.of_Z k)) (U8 k)
  && sample8_eqb (astype_uint8 (F64.sub c255 (F64.of_Z k))) (U8 (255 - k)).

(** ** What discovery is expected to find

    [file_under entries chain name]: below a directory with these entries,
    following the sub-directories [chain], there is an entry [name] that
    is not a directory. *)
Inductive file_under : list (string * fs_node) -> list string -> string -> Prop :=
| file_here (entries : list (string * fs_node)) (name : string) (n : fs_node) :
    In (name, n) entries ->
    is_dir_node n = false ->
    file_under entries [] name
| file_below (entries sub : list (string * fs_node)) (d : string)
    (chain : list string) (name : string) :
    In (d, FsDir sub) entries ->
    file_under sub chain name ->
    file_under entries (d :: chain) name.

(** An input path that stops the run: it does not exist, or it is a file
    whose lowered suffix is not [.dcm]. *)
Definition bad_origin (fs : Path -> option fs_node) (origin : Path) : Prop :=
  fs origin = None \/
  (fs origin = Some FsFile /\ lower (Path_suffix origin) <> ".dcm").

(** [p] is a dataset file contributed by the input path [origin]: the
    path itself when it is a file, any file below it whose lowered name
    ends with [.dcm] when it is a directory. *)
Definition found_under (fs : Path -> option fs_node) (origin p : Path) : Prop :=
  (fs origin = Some FsFile /\ p = origin) \/
  (exists entries chain name,
     fs origin = Some (FsDir entries) /\
     file_under entries chain name /\
     endswith (lower name) ".dcm" = true /\
     p = Path_join (origin ++ chain)%list (Path_of_string name)).

Definition Path_le (p q : Path) : Prop := Path_leb p q = true.

(** Lines 254-256 for one triple of [os.walk]. *)
Definition dcm_of_triple (t : Path * list string * list string) : list Path :=
  let '(root, _, file) := t in
  map (fun f => Path_join root (Path_of_string f))
      (filter (fun f => endswith (lower f) ".dcm") file).

(** The string contains the path separator. *)
Fixpoint has_sep (s : string) : bool :=
  match s with
  | EmptyString => false
  | String c s' => Ascii.eqb c "/"%char || has_sep s'
  end.

(** The tokens of the specification, in its order. *)
Definition spec_filetypes : list string :=
  ["jpg"; "jpeg"; "png"; "bmp"; "tiff"; "img"].

(** The raw sample array is a stack of frames: line 146. *)
Definition multiframe (ds : Dataset) : Prop :=
  exists pa, pixel_array ds = Ok pa /\
             List.length (shape pa) = 3%nat /\ nth 2 (shape pa) O <> 3%nat.

Definition skip_message (file_path : Path) (reason : string) : string :=
  Path_str file_path ++ " cannot be converted." ++ nl ++ reason.

(** A task that returned, with [True] or with a message. *)
Definition returned {A : Type} (r : result A * Disk) : Prop :=
  exists a, fst r = Ok a.

(* ================================================================== *)
(** ** Sample inputs *)

Module Samples.

(** A LUT helper that finds nothing to apply and returns its input. *)
Definition lut_unchanged (a : ndarray F64.float) (ds : Dataset)
    : result (ndarray F64.float) := Ok a.

Definition row (l : list Z) : ndarray F64.float :=
  mk_ndarray [1%nat; List.length l] (map F64.of_Z l).

(** Slope 1, intercept 0, scalar window center and width. *)
Definition gray (ph : string) (center width : Z) (pixels : list Z) : Dataset :=
  mk_Dataset (Some "1.2.840.10008.5.1.4.1.1.2")
    (Some (F64.of_Z 1)) (Some (F64.of_Z 0)) None
    (Some (Scalar (F64.of_Z center))) (Some (Scalar (F64.of_Z width)))
    (Some ph) None (Some "7") (Ok (row pixels)).

(** An RGB image of one row and two pixels, no window tags. *)
Definition rgb_pixels : ndarray F64.float :=
  mk_ndarray [1%nat; 2%nat; 3%nat] (map F64.of_Z [0; 51; 255; 102; 204; 153]).

Definition rgb : Dataset :=
  mk_Dataset (Some "1.2.840.10008.5.1.4.1.1.7")
    (Some (F64.of_Z 1)) (Some (F64.of_Z 0)) None None None
    (Some "RGB") (Some "3") (Some "1") (Ok rgb_pixels).

(** A directory [/d] holding [b.dcm], [a.dcm] and [c.dcm]. *)
Definition fs_abc (p : Path) : option fs_node :=
  if Path_eqb p ["/"; "d"] then
    Some (FsDir [("b.dcm", FsFile); ("a.dcm", FsFile); ("c.dcm", FsFile)])
  else None.

(** A tree with a nested directory, one other file and an upper-case
    suffix, next to a single file. *)
Definition fs_tree (p : Path) : option fs_node :=
  if Path_eqb p ["/"; "d"] then
    Some (FsDir [("b.dcm", FsFile); ("notes.txt", FsFile);
                 ("sub", FsDir [("x.DCM", FsFile)]); ("a.dcm", FsFile)])
  else if Path_eqb p ["/"; "e.dcm"] then Some FsFile
  else if Path_eqb p ["/"; "e.txt"] then Some FsFile
  else None.

(** [/d/a.dcm] cannot be decoded, [/d/b.dcm] and [/d/c.dcm] are plain
    grayscale images; directories can be made and files written. *)
Definition world_a_corrupt : World :=
  mk_World fs_abc
    (fun p => if Path_eqb p ["/"; "d"; "a.dcm"]
              then Raise (ExternalError "InvalidDicomError")
              else Ok (gray "MONOCHROME2" 1 2 [0; 1; 2]))
    lut_unchanged lut_unchanged
    (fun _ => Ok tt) (fun _ _ _ => Ok true).

(** Every file decodes to the same grayscale image. *)
Definition world_ok : World :=
  mk_World fs_abc
    (fun _ => Ok (gray "MONOCHROME2" 1 2 [0; 1; 2]))
    lut_unchanged lut_unchanged
    (fun _ => Ok tt) (fun _ _ _ => Ok true).

(** A stack of five frames of two rows and two columns. *)
Definition frames : Dataset :=
  mk_Dataset (Some "1.2.840.10008.5.1.4.1.1.3.1") None None None None None
    (Some "MONOCHROME2") (Some "1") (Some "1")
    (Ok (mk_ndarray [5%nat; 2%nat; 2%nat] (repeat (F64.of_Z 0) 20))).

(** Every file is an encapsulated PDF. *)
Definition world_pdf : World :=
  mk_World fs_abc
    (fun _ => Ok (mk_Dataset (Some uid_encapsulated_pdf) None None None None None
                    None None None (Raise AttributeError)))
    lut_unchanged lut_unchanged
    (fun _ => Ok tt) (fun _ _ _ => Ok true).

End Samples.

(* ================================================================== *)
(** ** Notions used by the further properties *)

(** Lines 68-77: what [_pixel_process] does to the array left by the VOI
    step. *)
Definition present_and_quantize (ds : Dataset) (a : ndarray F64.float)
    : result (ndarray sample8) :=
  a <- presentation_normalize a ;;
  a <- photometric_invert ds a ;;
  Ok (nd_map astype_uint8 a).

(** A value that is a number: not NaN. *)
Definition is_number (x : F64.float) : Prop := F64.is_nan x = false.

(** [lo <= x <= hi] as floats compare. *)
Definition within (lo hi x : F64.float) : Prop :=
  F64.leb lo x = true /\ F64.leb x hi = true.

(** What an input path that raises nothing adds to the file list. *)
Definition contribution (fs : Path -> option fs_node) (origin : Path) : list Path :=
  match visit_origin fs origin with
  | Ok found => found
  | Raise _ => []
  end.

(** The string contains the character. *)
Fixpoint has_char (c : ascii) (s : string) : bool :=
  match s with
  | EmptyString => false
  | String a s' => Ascii.eqb a c || has_char c s'
  end.

(** The world [W] with another image writer. *)
Definition with_imwrite (W : World)
    (writer : string -> ndarray sample8 -> list Z -> result bool) : World :=
  mk_World (fs_lookup W) (dcmread W) (apply_modality_lut W) (apply_voi_lut W)
    (mkdir W) writer.

(** Lines 132-174 of [_ds_to_file]: everything that comes before the first
    effect on the disk.  The outcome is an exception, the message of a
    skipped file, or the image and the path that lines 176-182 write. *)
Definition prepare (W : World) (file_path target_root : Path) (filetype : string)
    (anonymous : bool) (patient_dict : option (list (Path * Path)))
    : result (string + ndarray sample8 * Path) :=
  ds <- dcmread W file_path ;;
  is_unsupported <- _is_unsupported ds ;;
  match is_unsupported with
  | Some sop_name =>
      Ok (inl (Path_str file_path ++ " cannot be converted." ++ nl
                 ++ sop_name ++ " is currently not supported"))
  | None =>
      pa <- pixel_array ds ;;
      if is_multiframe pa then
        Ok (inl (Path_str file_path ++ " cannot be converted." ++ nl
                   ++ "Multiframe images are currently not supported"))
      else
        img <- _pixel_process (apply_modality_lut W) (apply_voi_lut W) ds pa ;;
        img <- channel_fixup ds img ;;
        path <- _get_export_file_path ds file_path target_root filetype
                  anonymous patient_dict ;;
        Ok (inr (img, path))
  end.

(** The image the file [name] holds after the writes of a list: the one
    of the last write to that name. *)
Fixpoint last_write (name : string) (writes : list (string * ndarray sample8))
    : option (ndarray sample8) :=
  match writes with
  | [] => None
  | (n, img) :: rest =>
      match last_write name rest with
      | Some later => Some later
      | None => if String.eqb n name then Some img else None
      end
  end.

Definition file_on_disk (d : Disk) (name : string) : option (ndarray sample8) :=
  last_write name (files_written d).

(** The names of the files the writes have left, each once. *)
Definition names_on_disk (d : Disk) : list string :=
  nodup string_dec (map fst (files_written d)).

(** The parameters line 178-182 pass to the writer. *)
Definition imwrite_params (filetype : string) : list Z :=
  if String.eqb filetype "jpg" then [IMWRITE_JPEG_QUALITY; 90] else [].

Module MoreSamples.

(** The disk is full: the writer reports failure for every file. *)
Definition world_disk_full : World :=
  with_imwrite Samples.world_ok (fun _ _ _ => Ok false).

(** A writer that fails whenever a quality parameter is passed. *)
Definition world_no_quality : World :=
  with_imwrite Samples.world_ok
    (fun _ _ params => match params with [] => Ok true | _ => Ok false end).

Definition nan_row : ndarray F64.float :=
  mk_ndarray [1%nat; 3%nat] [F64.of_Z 1; F64.nan; F64.of_Z 3].

Definition empty_array : ndarray F64.float := mk_ndarray [0%nat; 4%nat] [].

(** A stack of five frames whose dataset carries no SOP class UID. *)
Definition frames_without_uid : Dataset :=
  mk_Dataset None None None None None None
    (Some "MONOCHROME2") (Some "1") (Some "1")
    (Ok (mk_ndarray [5%nat; 2%nat; 2%nat] (repeat (F64.of_Z 0) 20))).

Definition world_frames_without_uid : World :=
  mk_World Samples.fs_abc (fun _ => Ok frames_without_uid)
    Samples.lut_unchanged Samples.lut_unchanged
    (fun _ => Ok tt) (fun _ _ _ => Ok true).

(** The grayscale row [0, 1, 2] with the given series and instance
    numbers. *)
Definition numbered (ser ins : string) : Dataset :=
  mk_Dataset (Some "1.2.840.10008.5.1.4.1.1.2")
    (Some (F64.of_Z 1)) (Some (F64.of_Z 0)) None
    (Some (Scalar (F64.of_Z 1))) (Some (Scalar (F64.of_Z 2)))
    (Some "MONOCHROME2") (Some ser) (Some ins) (Ok (Samples.row [0; 1; 2])).

Definition world_numbered (ser ins : string) : World :=
  mk_World Samples.fs_abc (fun _ => Ok (numbered ser ins))
    Samples.lut_unchanged Samples.lut_unchanged
    (fun _ => Ok tt) (fun _ _ _ => Ok true).

(** The grayscale row [0, 1, 2] tagged with the interpretation RGB: two
    axes, no channel axis. *)
Definition rgb_row : Dataset := Samples.gray "RGB" 1 2 [0; 1; 2].

Definition world_rgb_row : World :=
  mk_World Samples.fs_abc (fun _ => Ok rgb_row)
    Samples.lut_unchanged Samples.lut_unchanged
    (fun _ => Ok tt) (fun _ _ _ => Ok true).

(** One frame of one row and three RGB pixels: shape (1, 1, 3, 3). *)
Definition rgb_frame : ndarray sample8 :=
  mk_ndarray [1%nat; 1%nat; 3%nat; 3%nat]
    [U8 10; U8 11; U8 12; U8 20; U8 21; U8 22; U8 30; U8 31; U8 32].

End MoreSamples.

(* ================================================================== *)
(** * Properties *)

(** ** The error monad *)

Lemma rbind_Ok_inv {A B : Type} (r : result A) (k : A -> result B) (b : B) :
  rbind r k = Ok b -> exists a, r = Ok a /\ k a = Ok b.
Proof.
  destruct r as [a | e]; simpl; intros H.
  - exists a. split; [reflexivity | exact H].
  - discriminate H.
Qed.

Ltac inv_bind H :=
  let a := fresh "a" in
  let Ha := fresh "Ha" in
  apply rbind_Ok_inv in H; destruct H as [a [Ha H]].

(** ** Floats *)

Lemma fmin_same (v : F64.float) : F64.fmin v v = v.
Proof. unfold F64.fmin. destruct (F64.leb v v || F64.is_nan v); reflexivity. Qed.

Lemma fmax_same (v : F64.float) : F64.fmax v v = v.
Proof. unfold F64.fmax. destruct (F64.leb v v || F64.is_nan v); reflexivity. Qed.

Lemma fold_fmin_repeat (v : F64.float) (n : nat) :
  fold_left F64.fmin (repeat v n) v = v.
Proof. induction n as [| n IH]; simpl; [reflexivity |]. rewrite fmin_same. exact IH. Qed.

Lemma fold_fmax_repeat (v : F64.float) (n : nat) :
  fold_left F64.fmax (repeat v n) v = v.
Proof. induction n as [| n IH]; simpl; [reflexivity |]. rewrite fmax_same. exact IH. Qed.

(** [x - x] is a zero, or NaN when [x] is not finite. *)
Lemma sub_same (v : F64.float) :
  F64.sub v v = S754_zero false \/ F64.sub v v = S754_nan.
Proof.
  destruct v as [s | s | | s m e]; unfold F64.sub; simpl.
  - left. destruct s; reflexivity.
  - right. destruct s; reflexivity.
  - right. reflexivity.
  - left. rewrite Z.sub_diag. reflexivity.
Qed.

(** The degenerate quotient of line 70 is NaN whatever the value. *)
Lemma flat_quotient_nan (v : F64.float) :
  F64.mul (F64.div (F64.sub v v) (F64.sub v v)) c255 = F64.nan.
Proof.
  destruct (sub_same v) as [H | H]; rewrite H; reflexivity.
Qed.


(* ================================================================== *)
(** ** Presentation normalization of a flat array *)


(** The whole pipeline on the flat row [5, 5]: both samples normalize to
    NaN and come out as 0. *)
Example flat_row_gives_zeros :
  let ds := Samples.gray "MONOCHROME2" 1 2 [5; 5] in
  let a := Samples.row [5; 5] in
  presentation_normalize a = Ok (mk_ndarray [1%nat; 2%nat] [F64.nan; F64.nan]) /\
  _pixel_process Samples.lut_unchanged Samples.lut_unchanged ds a
    = Ok (mk_ndarray [1%nat; 2%nat] [U8 0; U8 0]).
Proof. cbv zeta. split; vm_compute; reflexivity. Qed.

(* ================================================================== *)
(** ** Windowing *)

Lemma first_float_resolves (v : element_value) (x : F64.float) :
  resolves_to v x -> first_float v = Ok x.
Proof.
  intros [-> | [l ->]]; reflexivity.
Qed.

(** The assignments of [np.piecewise] amount to a case analysis in which
    the second condition wins over the first. *)
Lemma LINEAR_EXACT_sample_by_priority (w c dmin dmax x : F64.float) :
  LINEAR_EXACT_sample w c dmin dmax x = window_sample_by_priority w c dmin dmax x.
Proof.
  unfold LINEAR_EXACT_sample, window_sample_by_priority, piecewise3.
  destruct (F64.leb x (F64.sub c (F64.div w two)));
    destruct (F64.gtb x (F64.add c (F64.div w two))); reflexivity.
Qed.

Lemma priority_agrees_with_spec (w c dmin dmax x : F64.float) :
  F64.leb x (F64.sub c (F64.div w two))
    && F64.gtb x (F64.add c (F64.div w two)) = false ->
  window_sample_by_priority w c dmin dmax x = spec_window_sample w c dmin dmax x.
Proof.
  unfold window_sample_by_priority, spec_window_sample.
  destruct (F64.leb x (F64.sub c (F64.div w two)));
    destruct (F64.gtb x (F64.add c (F64.div w two)));
    simpl; intros H; try reflexivity; discriminate H.
Qed.

Section Windowing.

Variable apply_modality_lut apply_voi_lut :
  ndarray F64.float -> Dataset -> result (ndarray F64.float).

(** C3, as the code behaves: when the VOI LUT function is not SIGMOID
    and window center and width are present, each is resolved to one
    float (the first element of a sequence, the scalar otherwise) and
    every sample [x] is mapped, with [dmin] and [dmax] the minimum and
    maximum of the array at that step, to [dmax] if [x > c + w/2], else
    to [dmin] if [x <= c - w/2], else to
    [((x - c + w/2) / w) * (dmax - dmin) + dmin].  This is the mapping
    of the specification at every sample for which the two conditions do
    not hold together. *)
Theorem voi_window_mapping (ds : Dataset) (a : ndarray F64.float)
    (wc ww : element_value) (c w dmin dmax : F64.float) :
  tag_is (VOILUTFunction ds) "SIGMOID" = false ->
  WindowCenter ds = Some wc ->
  WindowWidth ds = Some ww ->
  resolves_to wc c ->
  resolves_to ww w ->
  amin a = Ok dmin ->
  amax a = Ok dmax ->
  voi_step apply_voi_lut ds a
    = Ok (nd_map (window_sample_by_priority w c dmin dmax) a)
  /\ forall i x,
       nth_error (data a) i = Some x ->
       F64.leb x (F64.sub c (F64.div w two))
         && F64.gtb x (F64.add c (F64.div w two)) = false ->
       exists a',
         voi_step apply_voi_lut ds a = Ok a' /\
         nth_error (data a') i = Some (spec_window_sample w c dmin dmax x).
Proof.
  intros Hsig Hc Hw Hrc Hrw Hmin Hmax.
  assert (Hv : voi_step apply_voi_lut ds a
               = Ok (nd_map (window_sample_by_priority w c dmin dmax) a)).
  { unfold voi_step. rewrite Hsig, Hc, Hw.
    rewrite (first_float_resolves _ _ Hrc), (first_float_resolves _ _ Hrw).
    cbn [rbind]. unfold _get_LUT_value_LINEAR_EXACT.
    rewrite Hmin, Hmax. cbn [rbind]. unfold nd_map. f_equal. f_equal.
    apply map_ext. intros x. apply LINEAR_EXACT_sample_by_priority. }
  split; [exact Hv |].
  intros i x Hi Hexcl.
  exists (nd_map (window_sample_by_priority w c dmin dmax) a).
  split; [exact Hv |].
  unfold nd_map. cbn [data]. rewrite nth_error_map, Hi. cbn.
  f_equal. apply priority_agrees_with_spec. exact Hexcl.
Qed.

End Windowing.

(** The mapping at the three samples of the specification's own test
    (center 128, width 256, samples 0, 128, 256). *)
Lemma voi_window_mapping_witness :
  let ds := Samples.gray "MONOCHROME2" 128 256 [0; 128; 256] in
  let a := Samples.row [0; 128; 256] in
  voi_step Samples.lut_unchanged ds a
    = Ok (nd_map (window_sample_by_priority (F64.of_Z 256) (F64.of_Z 128)
                    (F64.of_Z 0) (F64.of_Z 256)) a)
  /\ forall i x,
       nth_error (data a) i = Some x ->
       F64.leb x (F64.sub (F64.of_Z 128) (F64.div (F64.of_Z 256) two))
         && F64.gtb x (F64.add (F64.of_Z 128) (F64.div (F64.of_Z 256) two)) = false ->
       exists a',
         voi_step Samples.lut_unchanged ds a = Ok a' /\
         nth_error (data a') i
           = Some (spec_window_sample (F64.of_Z 256) (F64.of_Z 128)
                     (F64.of_Z 0) (F64.of_Z 256) x).
Proof.
  cbv zeta.
  apply (voi_window_mapping Samples.lut_unchanged
           (Samples.gray "MONOCHROME2" 128 256 [0; 128; 256])
           (Samples.row [0; 128; 256])
           (Scalar (F64.of_Z 128)) (Scalar (F64.of_Z 256))).
  - reflexivity.
  - reflexivity.
  - reflexivity.
  - left. reflexivity.
  - left. reflexivity.
  - vm_compute. reflexivity.
  - vm_compute. reflexivity.
Defined.

(** C3 fails as stated: with center 0 and width -2 the sample 0 of the row
    [-5, 0, 5] satisfies [x <= c - w/2] (0 <= 1), for which the
    specification gives [dmin = -5], and also [x > c + w/2] (0 > -1); the
    code returns [dmax = 5]. *)
Lemma negative_width_prefers_dmax :
  let ds := Samples.gray "MONOCHROME2" 0 (-2) [-5; 0; 5] in
  let a := Samples.row [-5; 0; 5] in
  let w := F64.of_Z (-2) in
  let c := F64.of_Z 0 in
  amin a = Ok (F64.of_Z (-5)) /\ amax a = Ok (F64.of_Z 5) /\
  F64.leb (F64.of_Z 0) (F64.sub c (F64.div w two)) = true /\
  spec_window_sample w c (F64.of_Z (-5)) (F64.of_Z 5) (F64.of_Z 0) = F64.of_Z (-5) /\
  voi_step Samples.lut_unchanged ds a
    = Ok (mk_ndarray [1%nat; 3%nat] [F64.of_Z (-5); F64.of_Z 5; F64.of_Z 5]) /\
  voi_step Samples.lut_unchanged ds a
    <> Ok (nd_map (spec_window_sample w c (F64.of_Z (-5)) (F64.of_Z 5)) a).
Proof.
  cbv zeta. repeat split; try (vm_compute; reflexivity).
  vm_compute. intros H. discriminate H.
Qed.

(* ================================================================== *)
(** ** Shapes *)

Lemma amin_Ok_nonempty (a : ndarray F64.float) (m : F64.float) :
  amin a = Ok m -> data a <> [].
Proof. unfold amin. destruct (data a); [discriminate | discriminate]. Qed.

Lemma amax_of_nonempty (a : ndarray F64.float) :
  data a <> [] -> exists m, amax a = Ok m.
Proof.
  unfold amax. destruct (data a) as [| x l]; [congruence |].
  intros _. eexists. reflexivity.
Qed.

Lemma same_extent_map {A B : Type} (f : A -> B) (a : ndarray A) :
  same_extent a (nd_map f a).
Proof. split; [reflexivity | apply length_map]. Qed.

Lemma same_extent_trans {A B C : Type}
    (a : ndarray A) (b : ndarray B) (c : ndarray C) :
  same_extent a b -> same_extent b c -> same_extent a c.
Proof. intros [H1 H2] [H3 H4]. split; congruence. Qed.

Lemma LINEAR_EXACT_extent (a a' : ndarray F64.float) (w c : F64.float) :
  _get_LUT_value_LINEAR_EXACT a w c = Ok a' -> same_extent a a'.
Proof.
  unfold _get_LUT_value_LINEAR_EXACT. intros H.
  inv_bind H. inv_bind H. injection H as <-. apply same_extent_map.
Qed.

Lemma presentation_normalize_extent (a a' : ndarray F64.float) :
  presentation_normalize a = Ok a' -> same_extent a a'.
Proof.
  unfold presentation_normalize. intros H.
  inv_bind H. inv_bind H. inv_bind H. injection H as <-. apply same_extent_map.
Qed.

Lemma photometric_invert_extent (ds : Dataset) (a a' : ndarray F64.float) :
  photometric_invert ds a = Ok a' -> same_extent a a'.
Proof.
  unfold photometric_invert.
  destruct (tag_is (PhotometricInterpretation ds) "MONOCHROME1"); intros H.
  - inv_bind H. injection H as <-. apply same_extent_map.
  - injection H as <-. split; reflexivity.
Qed.

(** ** Channel reordering *)

Section SwapFacts.

Context {A : Type}.

Lemma swap_blocks_0_2_perm (b : nat) (chunk : list A) :
  Permutation chunk (swap_blocks_0_2 b chunk).
Proof.
  unfold swap_blocks_0_2.
  rewrite <- (firstn_skipn b chunk) at 1.
  rewrite <- (firstn_skipn b (skipn b chunk)) at 1.
  rewrite <- (firstn_skipn b (skipn b (skipn b chunk))) at 1.
  set (b0 := firstn b chunk).
  set (b1 := firstn b (skipn b chunk)).
  set (b2 := firstn b (skipn b (skipn b chunk))).
  set (r3 := skipn b (skipn b (skipn b chunk))).
  rewrite !app_assoc. apply Permutation_app_tail.
  rewrite <- !app_assoc.
  transitivity ((b1 ++ b2) ++ b0)%list.
  - apply Permutation_app_comm.
  - rewrite (app_assoc b2 b1 b0). apply Permutation_app_tail.
    apply Permutation_app_comm.
Qed.

Lemma map_chunks_perm (f : list A -> list A) (sz n : nat) (l : list A) :
  (forall c, Permutation c (f c)) ->
  Permutation l (map_chunks n sz f l).
Proof.
  intros Hf. revert l.
  induction n as [| n IH]; intros l; simpl; [reflexivity |].
  rewrite <- (firstn_skipn sz l) at 1.
  apply Permutation_app; [apply Hf | apply IH].
Qed.

Lemma swap_axis2_0_2_perm (a out : ndarray A) :
  swap_axis2_0_2 a = Ok out ->
  shape out = shape a /\ Permutation (data a) (data out).
Proof.
  unfold swap_axis2_0_2.
  destruct (shape a) as [| d0 [| d1 [| d2 rest]]] eqn:Hs; try discriminate.
  destruct (3 <=? d2)%nat; [| discriminate].
  intros H. injection H as <-. cbn [shape data]. split; [reflexivity |].
  apply map_chunks_perm. intros c. apply swap_blocks_0_2_perm.
Qed.

Lemma nth_error_firstn_lt (n : nat) (l : list A) (i : nat) :
  (i < n)%nat -> nth_error (firstn n l) i = nth_error l i.
Proof.
  intros H. rewrite nth_error_firstn.
  destruct (Nat.ltb_spec i n); [reflexivity | lia].
Qed.

Lemma swap_blocks_0_2_length (b : nat) (chunk : list A) :
  List.length (swap_blocks_0_2 b chunk) = List.length chunk.
Proof. symmetry. apply Permutation_length, swap_blocks_0_2_perm. Qed.

(** Within one run, block [i2] is read from block [swap02 i2]. *)
Lemma swap_blocks_0_2_nth (b d2 : nat) (chunk : list A) (i2 k : nat) :
  List.length chunk = (d2 * b)%nat -> (3 <= d2)%nat -> (i2 < d2)%nat -> (k < b)%nat ->
  nth_error (swap_blocks_0_2 b chunk) (i2 * b + k) = nth_error chunk (swap02 i2 * b + k).
Proof.
  intros Hlen Hd Hi Hk. unfold swap_blocks_0_2.
  assert (H3 : (3 * b <= List.length chunk)%nat) by nia.
  assert (L0 : List.length (firstn b chunk) = b).
  { rewrite length_firstn. lia. }
  assert (L1 : List.length (firstn b (skipn b chunk)) = b).
  { rewrite length_firstn, length_skipn. lia. }
  assert (L2 : List.length (firstn b (skipn b (skipn b chunk))) = b).
  { rewrite length_firstn, !length_skipn. lia. }
  destruct i2 as [| [| [| i2]]]; cbn [swap02].
  - rewrite nth_error_app1 by lia.
    rewrite nth_error_firstn_lt by lia. rewrite !nth_error_skipn.
    f_equal. lia.
  - rewrite nth_error_app2 by lia. rewrite L2.
    rewrite nth_error_app1 by lia.
    rewrite nth_error_firstn_lt by lia. rewrite nth_error_skipn.
    f_equal. lia.
  - rewrite nth_error_app2 by lia. rewrite L2.
    rewrite nth_error_app2 by lia. rewrite L1.
    rewrite nth_error_app1 by lia.
    rewrite nth_error_firstn_lt by lia. f_equal. lia.
  - rewrite nth_error_app2 by lia. rewrite L2.
    rewrite nth_error_app2 by lia. rewrite L1.
    rewrite nth_error_app2 by lia. rewrite L0.
    rewrite !nth_error_skipn. f_equal. lia.
Qed.

Lemma map_chunks_nth (n sz : nat) (f : list A -> list A) (l : list A) (j p : nat) :
  List.length l = (n * sz)%nat ->
  (forall c, List.length (f c) = List.length c) ->
  (j < n)%nat -> (p < sz)%nat ->
  nth_error (map_chunks n sz f l) (j * sz + p)
  = nth_error (f (firstn sz (skipn (j * sz) l))) p.
Proof.
  intros Hlen Hf. revert l j Hlen.
  induction n as [| n IH]; intros l j Hlen Hj Hp; [lia |].
  cbn [map_chunks].
  assert (Lc : List.length (f (firstn sz l)) = sz).
  { rewrite Hf, length_firstn, Hlen. apply Nat.min_l. nia. }
  destruct j as [| j].
  - cbn [Nat.mul Nat.add skipn]. rewrite nth_error_app1 by lia. reflexivity.
  - rewrite nth_error_app2 by (rewrite Lc; nia). rewrite Lc.
    replace (S j * sz + p - sz)%nat with (j * sz + p)%nat by nia.
    rewrite IH; [| rewrite length_skipn, Hlen; simpl; lia | lia | exact Hp].
    rewrite skipn_skipn.
    replace (j * sz + sz)%nat with (S j * sz)%nat by (simpl; lia). reflexivity.
Qed.

Lemma swap02_lt (d2 i2 : nat) :
  (3 <= d2)%nat -> (i2 < d2)%nat -> (swap02 i2 < d2)%nat.
Proof. intros H1 H2. destruct i2 as [| [| [| i2]]]; cbn [swap02]; lia. Qed.

Lemma swap02_ltb (d2 i2 : nat) :
  (3 <= d2)%nat -> (swap02 i2 <? d2)%nat = (i2 <? d2)%nat.
Proof.
  intros H. destruct i2 as [| [| [| i2]]]; cbn [swap02]; try reflexivity;
    destruct (Nat.ltb_spec 2 d2); destruct (Nat.ltb_spec 0 d2); try reflexivity; lia.
Qed.

(** The sample at row-major position [(((i0, i1), i2), k)] of the
    reordered buffer is the one at position [(((i0, i1), swap02 i2), k)]
    of the buffer given, [b] being the size of the trailing axes. *)
Lemma map_chunks_swap_nth (d0 d1 d2 b : nat) (l : list A) (i0 i1 i2 k : nat) :
  List.length l = (d0 * (d1 * (d2 * b)))%nat ->
  (3 <= d2)%nat -> (i0 < d0)%nat -> (i1 < d1)%nat -> (i2 < d2)%nat -> (k < b)%nat ->
  nth_error (map_chunks (d0 * d1) (d2 * b) (swap_blocks_0_2 b) l)
    (((i0 * d1 + i1) * d2 + i2) * b + k)
  = nth_error l (((i0 * d1 + i1) * d2 + swap02 i2) * b + k).
Proof.
  intros Hlen Hd H0 H1 H2 Hk.
  set (j := (i0 * d1 + i1)%nat).
  set (sz := (d2 * b)%nat).
  assert (Hj : (j < d0 * d1)%nat) by (unfold j; nia).
  assert (Hs : (swap02 i2 < d2)%nat) by (apply swap02_lt; assumption).
  assert (Hp : (i2 * b + k < sz)%nat) by (unfold sz; nia).
  assert (Hp' : (swap02 i2 * b + k < sz)%nat) by (unfold sz; nia).
  assert (Hl : List.length l = (d0 * d1 * sz)%nat) by (unfold sz; rewrite Hlen; nia).
  replace ((j * d2 + i2) * b + k)%nat with (j * sz + (i2 * b + k))%nat
    by (unfold sz; nia).
  replace ((j * d2 + swap02 i2) * b + k)%nat with (j * sz + (swap02 i2 * b + k))%nat
    by (unfold sz; nia).
  rewrite (map_chunks_nth (d0 * d1) sz (swap_blocks_0_2 b) l j (i2 * b + k) Hl
             (swap_blocks_0_2_length b) Hj Hp).
  assert (Hc : List.length (firstn sz (skipn (j * sz) l)) = (d2 * b)%nat).
  { rewrite length_firstn, length_skipn, Hl. fold sz. apply Nat.min_l.
    assert (H : (S j * sz <= d0 * d1 * sz)%nat) by (apply Nat.mul_le_mono_r; lia).
    simpl in H. lia. }
  rewrite (swap_blocks_0_2_nth b d2 _ i2 k Hc Hd H2 Hk).
  rewrite nth_error_firstn_lt by exact Hp'.
  rewrite nth_error_skipn. reflexivity.
Qed.

Lemma ravel_from (sh idx : list nat) (acc : nat) :
  ravel sh idx acc
  = option_map (fun k => (acc * size_of sh + k)%nat) (ravel sh idx 0).
Proof.
  revert idx acc.
  induction sh as [| d sh IH]; intros [| i idx] acc; cbn [ravel]; try reflexivity.
  - cbn [option_map size_of fold_right]. f_equal. lia.
  - destruct (i <? d)%nat; [| reflexivity].
    rewrite (IH idx (acc * d + i)%nat), (IH idx (0 * d + i)%nat).
    change (size_of (d :: sh)) with (d * size_of sh)%nat.
    destruct (ravel sh idx 0) as [k |]; cbn [option_map]; [| reflexivity].
    f_equal. nia.
Qed.

Lemma ravel_lt (sh idx : list nat) (k : nat) :
  ravel sh idx 0 = Some k -> (k < size_of sh)%nat.
Proof.
  revert idx k.
  induction sh as [| d sh IH]; intros [| i idx] k; cbn [ravel]; try discriminate.
  - intros H. injection H as <-. cbn [size_of fold_right]. lia.
  - destruct (Nat.ltb_spec i d) as [Hi |]; [| discriminate].
    rewrite ravel_from.
    destruct (ravel sh idx 0) as [k' |] eqn:Ek; cbn [option_map]; [| discriminate].
    intros H. injection H as <-.
    specialize (IH idx k' Ek).
    change (size_of (d :: sh)) with (d * size_of sh)%nat. nia.
Qed.

(** Line 171 on an array of any rank with a third axis of three or more:
    element [[i0, i1, i2, ...]] of the result is element
    [[i0, i1, swap02 i2, ...]] of the array given. *)
Lemma swap_axis2_0_2_get (a : ndarray A) (d0 d1 d2 : nat) (rest : list nat) :
  shape a = d0 :: d1 :: d2 :: rest ->
  (3 <= d2)%nat ->
  List.length (data a) = size_of (shape a) ->
  exists out,
    swap_axis2_0_2 a = Ok out /\
    shape out = shape a /\
    forall i0 i1 i2 tl,
      nd_get out (i0 :: i1 :: i2 :: tl) = nd_get a (i0 :: i1 :: swap02 i2 :: tl).
Proof.
  intros Hs Hd Hl. unfold swap_axis2_0_2. rewrite Hs.
  destruct (Nat.leb_spec 3 d2) as [_ |]; [| lia].
  eexists. split; [reflexivity |]. cbn [shape]. split; [reflexivity |].
  intros i0 i1 i2 tl. unfold nd_get. cbn [shape data]. rewrite Hs. cbn [ravel].
  change (0 * d0 + i0)%nat with i0.
  destruct (Nat.ltb_spec i0 d0) as [H0 |]; [| reflexivity].
  destruct (Nat.ltb_spec i1 d1) as [H1 |]; [| reflexivity].
  rewrite (swap02_ltb d2 i2 Hd).
  destruct (Nat.ltb_spec i2 d2) as [H2 |]; [| reflexivity].
  rewrite (ravel_from rest tl ((i0 * d1 + i1) * d2 + i2)%nat).
  rewrite (ravel_from rest tl ((i0 * d1 + i1) * d2 + swap02 i2)%nat).
  destruct (ravel rest tl 0) as [k |] eqn:Ek; cbn [option_map]; [| reflexivity].
  apply ravel_lt in Ek.
  apply map_chunks_swap_nth; try assumption.
  rewrite Hl, Hs. reflexivity.
Qed.

End SwapFacts.

Section PipelineShape.

Variable apply_modality_lut apply_voi_lut :
  ndarray F64.float -> Dataset -> result (ndarray F64.float).

(** pydicom's helpers return an array of the shape they were given. *)
Hypothesis modality_lut_extent :
  forall a ds a', apply_modality_lut a ds = Ok a' -> same_extent a a'.
Hypothesis voi_lut_extent :
  forall a ds a', apply_voi_lut a ds = Ok a' -> same_extent a a'.

Lemma modality_step_extent (ds : Dataset) (a a' : ndarray F64.float) :
  modality_step apply_modality_lut ds a = Ok a' -> same_extent a a'.
Proof.
  unfold modality_step.
  destruct (RescaleSlope ds) as [s |]; [destruct (RescaleIntercept ds) as [i |] |].
  - intros H. injection H as <-. apply same_extent_map.
  - apply modality_lut_extent.
  - apply modality_lut_extent.
Qed.

Lemma voi_step_extent (ds : Dataset) (a a' : ndarray F64.float) :
  voi_step apply_voi_lut ds a = Ok a' -> same_extent a a'.
Proof.
  unfold voi_step.
  destruct (tag_is (VOILUTFunction ds) "SIGMOID"); [apply voi_lut_extent |].
  destruct (WindowCenter ds) as [wc |]; [destruct (WindowWidth ds) as [ww |] |].
  - intros H. inv_bind H. inv_bind H. eapply LINEAR_EXACT_extent. exact H.
  - apply voi_lut_extent.
  - apply voi_lut_extent.
Qed.

Lemma _pixel_process_extent (ds : Dataset) (a : ndarray F64.float)
    (out : ndarray sample8) :
  _pixel_process apply_modality_lut apply_voi_lut ds a = Ok out ->
  same_extent a out.
Proof.
  unfold _pixel_process. intros H.
  apply rbind_Ok_inv in H. destruct H as [a1 [H1 H]].
  apply rbind_Ok_inv in H. destruct H as [a2 [H2 H]].
  apply rbind_Ok_inv in H. destruct H as [a3 [H3 H]].
  apply rbind_Ok_inv in H. destruct H as [a4 [H4 H]].
  injection H as <-.
  apply modality_step_extent in H1. apply voi_step_extent in H2.
  apply presentation_normalize_extent in H3.
  apply photometric_invert_extent in H4.
  eapply same_extent_trans; [exact H1 |].
  eapply same_extent_trans; [exact H2 |].
  eapply same_extent_trans; [exact H3 |].
  eapply same_extent_trans; [exact H4 |].
  apply same_extent_map.
Qed.


End PipelineShape.



(* ================================================================== *)
(** ** Photometric inversion *)

Lemma _pixel_process_unfold
    (apply_modality_lut apply_voi_lut :
       ndarray F64.float -> Dataset -> result (ndarray F64.float))
    (ds : Dataset) (a : ndarray F64.float) :
  _pixel_process apply_modality_lut apply_voi_lut ds a
  = (p <- normalized_samples apply_modality_lut apply_voi_lut ds a ;;
     q <- photometric_invert ds p ;;
     Ok (nd_map astype_uint8 q)).
Proof.
  unfold _pixel_process, normalized_samples.
  destruct (modality_step apply_modality_lut ds a) as [a1 |]; [| reflexivity].
  cbn [rbind].
  destruct (voi_step apply_voi_lut ds a1) as [a2 |]; reflexivity.
Qed.

Lemma presentation_normalize_nonempty (a p : ndarray F64.float) :
  presentation_normalize a = Ok p -> data p <> [].
Proof.
  unfold presentation_normalize. intros H.
  apply rbind_Ok_inv in H. destruct H as [lo [Hlo H]].
  inv_bind H. inv_bind H. injection H as <-.
  apply amin_Ok_nonempty in Hlo. cbn [nd_map data].
  destruct (data a); [congruence | discriminate].
Qed.

Lemma sample8_eqb_eq (x y : sample8) : sample8_eqb x y = true -> x = y.
Proof.
  destruct x as [a |], y as [b |]; simpl; intros H; try discriminate.
  - apply Z.eqb_eq in H. now subst.
  - reflexivity.
Qed.

Lemma whole_samples_checked :
  forallb whole_sample_ok (map Z.of_nat (seq 0 256)) = true.
Proof. vm_compute. reflexivity. Qed.

Lemma whole_sample_mirror (k : Z) :
  0 <= k <= 255 ->
  astype_uint8 (F64.of_Z k) = U8 k /\
  astype_uint8 (F64.sub c255 (F64.of_Z k)) = U8 (255 - k).
Proof.
  intros Hk.
  pose proof whole_samples_checked as H.
  rewrite forallb_forall in H.
  specialize (H k).
  assert (Hin : In k (map Z.of_nat (seq 0 256))).
  { apply in_map_iff. exists (Z.to_nat k). split; [lia |].
    apply in_seq. lia. }
  specialize (H Hin). unfold whole_sample_ok in H.
  apply andb_true_iff in H. destruct H as [H1 H2].
  split; apply sample8_eqb_eq; assumption.
Qed.

Section Inversion.

Variable apply_modality_lut apply_voi_lut :
  ndarray F64.float -> Dataset -> result (ndarray F64.float).

Variable ds : Dataset.

(** pydicom's helpers do not look at the polarity of a grayscale image. *)
Hypothesis modality_lut_ignores_polarity :
  forall a,
    apply_modality_lut a (with_photometric "MONOCHROME1" ds)
    = apply_modality_lut a (with_photometric "MONOCHROME2" ds).
Hypothesis voi_lut_ignores_polarity :
  forall a,
    apply_voi_lut a (with_photometric "MONOCHROME1" ds)
    = apply_voi_lut a (with_photometric "MONOCHROME2" ds).

Lemma normalized_samples_ignore_polarity (a : ndarray F64.float) :
  normalized_samples apply_modality_lut apply_voi_lut
    (with_photometric "MONOCHROME1" ds) a
  = normalized_samples apply_modality_lut apply_voi_lut
      (with_photometric "MONOCHROME2" ds) a.
Proof.
  unfold normalized_samples, modality_step, voi_step, with_photometric.
  cbn [RescaleSlope RescaleIntercept VOILUTFunction WindowCenter WindowWidth].
  fold (with_photometric "MONOCHROME1" ds). fold (with_photometric "MONOCHROME2" ds).
  rewrite modality_lut_ignores_polarity.
  destruct (match RescaleSlope ds with
            | Some rescale_slope =>
                match RescaleIntercept ds with
                | Some rescale_intercept =>
                    Ok (nd_map (fun x => F64.add (F64.mul x rescale_slope)
                                           rescale_intercept) a)
                | None => apply_modality_lut a (with_photometric "MONOCHROME2" ds)
                end
            | None => apply_modality_lut a (with_photometric "MONOCHROME2" ds)
            end) as [a1 |]; [| reflexivity].
  cbn [rbind]. rewrite voi_lut_ignores_polarity. reflexivity.
Qed.

(** C7, as the code behaves: for the same raw samples and metadata that
    differ only in the photometric interpretation, both runs share the
    normalized array [p]; the MONOCHROME2 output is [p] cast to 8 bits and
    the MONOCHROME1 output is [max(p) - p] cast to 8 bits (the inversion
    is taken after normalization and before the cast).  Where [max(p)] is
    255 and a normalized sample is a whole number [k], the two outputs are
    [k] and [255 - k]; for a sample with a fractional part the two
    truncations need not add up to 255. *)
Theorem inversion_before_quantization (raw : ndarray F64.float)
    (out2 : ndarray sample8) :
  _pixel_process apply_modality_lut apply_voi_lut
    (with_photometric "MONOCHROME2" ds) raw = Ok out2 ->
  exists (p : ndarray F64.float) (m : F64.float),
    normalized_samples apply_modality_lut apply_voi_lut
      (with_photometric "MONOCHROME2" ds) raw = Ok p /\
    amax p = Ok m /\
    out2 = nd_map astype_uint8 p /\
    _pixel_process apply_modality_lut apply_voi_lut
      (with_photometric "MONOCHROME1" ds) raw
      = Ok (nd_map astype_uint8 (nd_map (fun x => F64.sub m x) p)) /\
    (m = c255 ->
     forall i k,
       0 <= k <= 255 ->
       nth_error (data p) i = Some (F64.of_Z k) ->
       nth_error (data out2) i = Some (U8 k) /\
       nth_error (data (nd_map astype_uint8 (nd_map (fun x => F64.sub m x) p))) i
         = Some (U8 (255 - k))).
Proof.
  intros H2. rewrite _pixel_process_unfold in H2.
  apply rbind_Ok_inv in H2. destruct H2 as [p [Hp H2]].
  unfold photometric_invert in H2. cbn in H2. injection H2 as <-.
  assert (Hne : data p <> []).
  { unfold normalized_samples in Hp.
    apply rbind_Ok_inv in Hp. destruct Hp as [a1 [_ Hp]].
    apply rbind_Ok_inv in Hp. destruct Hp as [a2 [_ Hp]].
    eapply presentation_normalize_nonempty. exact Hp. }
  destruct (amax_of_nonempty p Hne) as [m Hm].
  exists p, m. split; [exact Hp |]. split; [exact Hm |]. split; [reflexivity |].
  split.
  - rewrite _pixel_process_unfold, normalized_samples_ignore_polarity, Hp.
    cbn [rbind]. unfold photometric_invert. cbn. rewrite Hm. reflexivity.
  - intros -> i k Hk Hi. cbn [nd_map data].
    rewrite !nth_error_map, Hi. cbn [option_map].
    destruct (whole_sample_mirror k Hk) as [E1 E2].
    split; f_equal; assumption.
Qed.

End Inversion.

(** On the row [0, 1, 2] the normalized samples are 0, 127.5 and 255: the
    two whole ones are mirrored exactly. *)
Lemma inversion_before_quantization_witness :
  exists (p : ndarray F64.float) (m : F64.float),
    normalized_samples Samples.lut_unchanged Samples.lut_unchanged
      (with_photometric "MONOCHROME2" (Samples.gray "MONOCHROME2" 1 2 [0; 1; 2]))
      (Samples.row [0; 1; 2]) = Ok p /\
    amax p = Ok m /\
    mk_ndarray [1%nat; 3%nat] [U8 0; U8 127; U8 255] = nd_map astype_uint8 p /\
    _pixel_process Samples.lut_unchanged Samples.lut_unchanged
      (with_photometric "MONOCHROME1" (Samples.gray "MONOCHROME2" 1 2 [0; 1; 2]))
      (Samples.row [0; 1; 2])
      = Ok (nd_map astype_uint8 (nd_map (fun x => F64.sub m x) p)) /\
    (m = c255 ->
     forall i k,
       0 <= k <= 255 ->
       nth_error (data p) i = Some (F64.of_Z k) ->
       nth_error [U8 0; U8 127; U8 255] i = Some (U8 k) /\
       nth_error (data (nd_map astype_uint8 (nd_map (fun x => F64.sub m x) p))) i
         = Some (U8 (255 - k))).
Proof.
  apply (inversion_before_quantization
           Samples.lut_unchanged Samples.lut_unchanged
           (Samples.gray "MONOCHROME2" 1 2 [0; 1; 2])
           (fun _ => eq_refl) (fun _ => eq_refl)
           (Samples.row [0; 1; 2])
           (mk_ndarray [1%nat; 3%nat] [U8 0; U8 127; U8 255])).
  vm_compute. reflexivity.
Defined.

(** C7 fails as stated: on the row [0, 1, 2] the middle sample normalizes
    to 127.5; MONOCHROME2 truncates it to 127 and MONOCHROME1 truncates
    [255 - 127.5] to 127 as well, not to [255 - 127 = 128]. *)
Lemma inversion_symmetry_off_by_one :
  let ds := Samples.gray "MONOCHROME2" 1 2 [0; 1; 2] in
  let raw := Samples.row [0; 1; 2] in
  normalized_samples Samples.lut_unchanged Samples.lut_unchanged
    (with_photometric "MONOCHROME2" ds) raw
    = Ok (mk_ndarray [1%nat; 3%nat]
            [F64.of_Z 0; F64.of_dyadic 255 1; F64.of_Z 255]) /\
  _pixel_process Samples.lut_unchanged Samples.lut_unchanged
    (with_photometric "MONOCHROME2" ds) raw
    = Ok (mk_ndarray [1%nat; 3%nat] [U8 0; U8 127; U8 255]) /\
  _pixel_process Samples.lut_unchanged Samples.lut_unchanged
    (with_photometric "MONOCHROME1" ds) raw
    = Ok (mk_ndarray [1%nat; 3%nat] [U8 255; U8 127; U8 0]) /\
  127 <> 255 - 127.
Proof.
  cbv zeta. repeat split; try (vm_compute; reflexivity).
  lia.
Qed.

(* ================================================================== *)
(** ** The order on paths and the sort *)

Lemma Path_compare_antisym (p q : Path) :
  Path_compare p q = CompOpp (Path_compare q p).
Proof.
  revert q. induction p as [| a p IH]; intros [| b q]; simpl; try reflexivity.
  rewrite (String.compare_antisym a b).
  destruct (String.compare b a); simpl; [apply IH | reflexivity | reflexivity].
Qed.

Lemma Path_leb_total (p q : Path) :
  Path_leb p q = false -> Path_leb q p = true.
Proof.
  unfold Path_leb. rewrite (Path_compare_antisym q p).
  destruct (Path_compare p q); simpl; intros H; try discriminate; reflexivity.
Qed.

Lemma ascii_compare_Lt_trans (a b c : ascii) :
  Ascii.compare a b = Lt -> Ascii.compare b c = Lt -> Ascii.compare a c = Lt.
Proof.
  unfold Ascii.compare. rewrite !N.compare_lt_iff. apply N.lt_trans.
Qed.

Lemma string_compare_Lt_trans (s t u : string) :
  String.compare s t = Lt -> String.compare t u = Lt -> String.compare s u = Lt.
Proof.
  revert t u. induction s as [| a s IH]; intros [| b t] [| c u]; simpl;
    try discriminate; try reflexivity.
  destruct (Ascii.compare a b) eqn:Hab; try discriminate.
  - apply Ascii.compare_eq_iff in Hab. subst b.
    destruct (Ascii.compare a c); try discriminate; [apply IH | reflexivity].
  - intros _. destruct (Ascii.compare b c) eqn:Hbc; try discriminate.
    + apply Ascii.compare_eq_iff in Hbc. subst c. now rewrite Hab.
    + now rewrite (ascii_compare_Lt_trans a b c Hab Hbc).
Qed.

Lemma Path_compare_Eq (p q : Path) : Path_compare p q = Eq -> p = q.
Proof.
  revert q. induction p as [| a p IH]; intros [| b q]; simpl; try discriminate;
    [reflexivity |].
  destruct (String.compare a b) eqn:Hab; try discriminate.
  intros H. apply String.compare_eq_iff in Hab. subst b. f_equal. apply IH. exact H.
Qed.

Lemma Path_compare_Lt_trans (p q r : Path) :
  Path_compare p q = Lt -> Path_compare q r = Lt -> Path_compare p r = Lt.
Proof.
  revert q r. induction p as [| a p IH]; intros [| b q] [| c r]; simpl;
    try discriminate; try reflexivity.
  destruct (String.compare a b) eqn:Hab; try discriminate.
  - apply String.compare_eq_iff in Hab. subst b.
    destruct (String.compare a c); try discriminate; [apply IH | reflexivity].
  - intros _. destruct (String.compare b c) eqn:Hbc; try discriminate.
    + apply String.compare_eq_iff in Hbc. subst c. now rewrite Hab.
    + now rewrite (string_compare_Lt_trans a b c Hab Hbc).
Qed.

Lemma Path_le_trans (p q r : Path) : Path_le p q -> Path_le q r -> Path_le p r.
Proof.
  unfold Path_le, Path_leb.
  destruct (Path_compare p q) eqn:Hpq; try discriminate; intros _.
  - apply Path_compare_Eq in Hpq. subst q. trivial.
  - destruct (Path_compare q r) eqn:Hqr; try discriminate; intros _.
    + apply Path_compare_Eq in Hqr. subst r. now rewrite Hpq.
    + now rewrite (Path_compare_Lt_trans p q r Hpq Hqr).
Qed.

Lemma insert_sorted_perm (p : Path) (l : list Path) :
  Permutation (p :: l) (insert_sorted p l).
Proof.
  induction l as [| q l IH]; simpl; [reflexivity |].
  destruct (Path_leb p q); [reflexivity |].
  rewrite perm_swap. apply perm_skip. exact IH.
Qed.

Lemma sort_paths_perm (l : list Path) : Permutation l (sort_paths l).
Proof.
  induction l as [| p l IH]; simpl; [constructor |].
  rewrite <- insert_sorted_perm. apply perm_skip. exact IH.
Qed.

Lemma insert_sorted_HdRel (a p : Path) (l : list Path) :
  Path_le a p -> HdRel Path_le a l -> HdRel Path_le a (insert_sorted p l).
Proof.
  intros Hap Hal. destruct l as [| q l]; simpl.
  - constructor. exact Hap.
  - destruct (Path_leb p q); constructor.
    + exact Hap.
    + inversion Hal. assumption.
Qed.

Lemma insert_sorted_Sorted (p : Path) (l : list Path) :
  Sorted Path_le l -> Sorted Path_le (insert_sorted p l).
Proof.
  induction l as [| q l IH]; intros Hs; simpl.
  - repeat constructor.
  - destruct (Path_leb p q) eqn:Hpq.
    + constructor; [exact Hs | constructor; exact Hpq].
    + inversion Hs as [| ? ? Hs' Hhd]; subst.
      constructor; [apply IH; exact Hs' |].
      apply insert_sorted_HdRel; [| exact Hhd].
      apply Path_leb_total. exact Hpq.
Qed.

Lemma sort_paths_Sorted (l : list Path) : Sorted Path_le (sort_paths l).
Proof.
  induction l as [| p l IH]; simpl; [constructor |].
  apply insert_sorted_Sorted. exact IH.
Qed.

(** Sorted in the strong sense: every path is below all the later ones. *)
Lemma sort_paths_StronglySorted (l : list Path) :
  StronglySorted Path_le (sort_paths l).
Proof.
  apply Sorted_StronglySorted; [| apply sort_paths_Sorted].
  intros p q r. apply Path_le_trans.
Qed.

Lemma string_compare_refl (s : string) : String.compare s s = Eq.
Proof.
  pose proof (String.compare_antisym s s) as H.
  destruct (String.compare s s); simpl in H; [reflexivity | discriminate | discriminate].
Qed.

Lemma Path_compare_app (d p q : Path) :
  Path_compare (d ++ p)%list (d ++ q)%list = Path_compare p q.
Proof.
  induction d as [| a d IH]; simpl; [reflexivity |].
  rewrite string_compare_refl. exact IH.
Qed.

Lemma Path_leb_app (d p q : Path) :
  Path_leb (d ++ p)%list (d ++ q)%list = Path_leb p q.
Proof. unfold Path_leb. now rewrite Path_compare_app. Qed.

(* ================================================================== *)
(** ** Walking a directory tree *)

Lemma os_walk_dir (top : Path) (entries : list (string * fs_node)) :
  os_walk top (FsDir entries)
  = (top,
     map fst (filter (fun e => is_dir_node (snd e)) entries),
     map fst (filter (fun e => negb (is_dir_node (snd e))) entries))
    :: flat_map (fun e => if is_dir_node (snd e)
                          then os_walk (top ++ [fst e])%list (snd e) else [])
         entries.
Proof.
  cbn [os_walk]. f_equal.
  induction entries as [| [name child] l IH]; [reflexivity |].
  cbn [flat_map fst snd]. rewrite <- IH. reflexivity.
Qed.

Lemma walk_dcm_flat (top : Path) (n : fs_node) :
  walk_dcm top n = flat_map dcm_of_triple (os_walk top n).
Proof. reflexivity. Qed.

Lemma in_dcm_of_triple_here (top p : Path) (entries : list (string * fs_node)) :
  In p (dcm_of_triple
          (top,
           map fst (filter (fun e => is_dir_node (snd e)) entries),
           map fst (filter (fun e => negb (is_dir_node (snd e))) entries)))
  <-> exists name n,
        In (name, n) entries /\ is_dir_node n = false /\
        endswith (lower name) ".dcm" = true /\
        p = Path_join top (Path_of_string name).
Proof.
  unfold dcm_of_triple. rewrite in_map_iff. split.
  - intros [name [Hp Hin]]. apply filter_In in Hin. destruct Hin as [Hin Hend].
    apply in_map_iff in Hin. destruct Hin as [[name' n] [Hname Hin]].
    simpl in Hname. subst name'.
    apply filter_In in Hin. destruct Hin as [Hin Hnd]. simpl in Hnd.
    exists name, n. repeat split; try assumption.
    + now apply negb_true_iff in Hnd.
    + now symmetry.
  - intros [name [n [Hin [Hnd [Hend Hp]]]]].
    exists name. split; [now symmetry |].
    apply filter_In. split; [| exact Hend].
    apply in_map_iff. exists (name, n). split; [reflexivity |].
    apply filter_In. split; [exact Hin |]. simpl. now rewrite Hnd.
Qed.

Lemma in_walk_dcm (n : fs_node) :
  forall (top p : Path) (entries : list (string * fs_node)),
    n = FsDir entries ->
    (In p (walk_dcm top n)
     <-> exists chain name,
           file_under entries chain name /\
           endswith (lower name) ".dcm" = true /\
           p = Path_join (top ++ chain)%list (Path_of_string name)).
Proof.
  induction n as [| | es IH] using fs_node_nested_ind;
    intros top p es' Heq; try discriminate.
  injection Heq as <-.
  rewrite walk_dcm_flat, os_walk_dir. cbn [flat_map].
  rewrite in_app_iff, in_dcm_of_triple_here, in_flat_map.
  split.
  - intros [[name [n [Hin [Hnd [Hend Hp]]]]] | [t [Ht Hpt]]].
    + exists [], name. rewrite app_nil_r.
      repeat split; try assumption. eapply file_here; eassumption.
    + apply in_flat_map in Ht. destruct Ht as [[d child] [Hd Ht]].
      cbn [fst snd] in Ht.
      destruct child as [| sub |]; cbn [is_dir_node] in Ht; try contradiction.
      rewrite Forall_forall in IH. specialize (IH (d, FsDir sub) Hd).
      cbn [snd] in IH.
      destruct (proj1 (IH (top ++ [d])%list p sub eq_refl)) as [chain [name [Hfu [Hend Hp]]]].
      { rewrite walk_dcm_flat. apply in_flat_map. exists t. split; assumption. }
      exists (d :: chain), name. repeat split; try assumption.
      * eapply file_below; eassumption.
      * rewrite Hp. rewrite <- app_assoc. reflexivity.
  - intros [chain [name [Hfu [Hend Hp]]]].
    inversion Hfu as [es0 name' n Hin Hnd | es0 sub d chain' name' Hd Hfu']; subst.
    + left. exists name, n. rewrite app_nil_r. repeat split; assumption.
    + right. rewrite Forall_forall in IH. specialize (IH (d, FsDir sub) Hd).
      cbn [snd] in IH.
      assert (Hp' : In (Path_join (top ++ d :: chain')%list (Path_of_string name))
                       (walk_dcm (top ++ [d])%list (FsDir sub))).
      { apply (IH (top ++ [d])%list _ sub eq_refl).
        exists chain', name. repeat split; try assumption.
        rewrite <- app_assoc. reflexivity. }
      rewrite walk_dcm_flat in Hp'. apply in_flat_map in Hp'.
      destruct Hp' as [t [Ht Hpt]].
      exists t. split; [| exact Hpt].
      apply in_flat_map. exists (d, FsDir sub). split; [exact Hd | exact Ht].
Qed.

(* ================================================================== *)
(** ** Discovery *)

Section DiscoveryFacts.

Variable fs : Path -> option fs_node.

Lemma visit_origin_raises (origin : Path) :
  (exists e, visit_origin fs origin = Raise e) <-> bad_origin fs origin.
Proof.
  unfold visit_origin, bad_origin.
  destruct (fs origin) as [[| entries |] |].
  - destruct (String.eqb_spec (lower (Path_suffix origin)) ".dcm") as [E | E]; simpl.
    + split.
      * intros [e H]. discriminate H.
      * intros [H | [_ H]]; [discriminate H | contradiction].
    + split.
      * intros _. right. split; [reflexivity | exact E].
      * intros _. eexists. reflexivity.
  - split.
    + intros [e H]. discriminate H.
    + intros [H | [H _]]; discriminate H.
  - split.
    + intros [e H]. discriminate H.
    + intros [H | [H _]]; discriminate H.
  - split.
    + intros _. left. reflexivity.
    + intros _. eexists. reflexivity.
Qed.

Lemma visit_origin_finds (origin : Path) (found : list Path) :
  visit_origin fs origin = Ok found ->
  forall p, In p found <-> found_under fs origin p.
Proof.
  unfold visit_origin, found_under.
  destruct (fs origin) as [[| entries |] |] eqn:Hfs.
  - destruct (negb (String.eqb (lower (Path_suffix origin)) ".dcm")); [discriminate |].
    intros H p. injection H as <-. simpl. split.
    + intros [<- | []]. left. split; reflexivity.
    + intros [[_ ->] | [es [chain [name [H _]]]]]; [left; reflexivity | discriminate H].
  - intros H p. injection H as <-.
    rewrite (in_walk_dcm (FsDir entries) origin p entries eq_refl). split.
    + intros [chain [name [Hfu [Hend Hp]]]]. right.
      exists entries, chain, name. repeat split; assumption.
    + intros [[H _] | [es [chain [name [H [Hfu [Hend Hp]]]]]]]; [discriminate H |].
      injection H as <-. exists chain, name. repeat split; assumption.
  - intros H p. injection H as <-. simpl. split; [intros [] |].
    intros [[H _] | [es [chain [name [H _]]]]]; discriminate H.
  - discriminate.
Qed.

Lemma visit_origins_raises (origin_list acc : list Path) :
  (exists e, visit_origins fs origin_list acc = Raise e)
  <-> Exists (bad_origin fs) origin_list.
Proof.
  revert acc. induction origin_list as [| o l IH]; intros acc; simpl.
  - split; [intros [e H]; discriminate H | intros H; inversion H].
  - destruct (visit_origin fs o) as [found | e] eqn:Ho; cbn [rbind].
    + rewrite IH. split.
      * intros H. apply Exists_cons_tl. exact H.
      * intros H. inversion H as [? ? Hbad | ? ? Hrest]; subst; [| exact Hrest].
        apply visit_origin_raises in Hbad. destruct Hbad as [e He]. congruence.
    + split.
      * intros _. apply Exists_cons_hd. apply visit_origin_raises.
        exists e. exact Ho.
      * intros _. exists e. reflexivity.
Qed.

Lemma visit_origins_finds (origin_list acc found : list Path) :
  visit_origins fs origin_list acc = Ok found ->
  forall p, In p found
            <-> In p acc \/ Exists (fun o => found_under fs o p) origin_list.
Proof.
  revert acc. induction origin_list as [| o l IH]; intros acc; simpl.
  - intros H p. injection H as <-. split; [intros H; left; exact H |].
    intros [H | H]; [exact H | inversion H].
  - destruct (visit_origin fs o) as [f | e] eqn:Ho; cbn [rbind]; [| discriminate].
    intros H p. rewrite (IH _ H p), in_app_iff.
    rewrite (visit_origin_finds o f Ho p). split.
    + intros [[H1 | H1] | H1].
      * left. exact H1.
      * right. apply Exists_cons_hd. exact H1.
      * right. apply Exists_cons_tl. exact H1.
    + intros [H1 | H1].
      * left. left. exact H1.
      * inversion H1; subst; [left; right; assumption | right; assumption].
Qed.

Lemma discover_raises (origin_input : origin_arg) :
  (exists e, discover fs origin_input = Raise e)
  <-> Exists (bad_origin fs) (origin_list_of origin_input).
Proof.
  rewrite <- (visit_origins_raises _ []). unfold discover.
  destruct (visit_origins fs (origin_list_of origin_input) []) as [l | e]; cbn [rbind].
  - split; intros [e H]; discriminate H.
  - split; intros _; exists e; reflexivity.
Qed.

Lemma discover_finds (origin_input : origin_arg) (l : list Path) :
  discover fs origin_input = Ok l ->
  StronglySorted Path_le l /\
  forall p, In p l
            <-> Exists (fun o => found_under fs o p) (origin_list_of origin_input).
Proof.
  unfold discover. intros H.
  apply rbind_Ok_inv in H. destruct H as [raw [Hraw H]]. injection H as <-.
  split; [apply sort_paths_StronglySorted |].
  intros p. pose proof (visit_origins_finds _ _ _ Hraw p) as Hin.
  split.
  - intros Hp. apply (Permutation_in p (Permutation_sym (sort_paths_perm raw))) in Hp.
    apply Hin in Hp. destruct Hp as [[] | Hp]. exact Hp.
  - intros Hp. apply (Permutation_in p (sort_paths_perm raw)).
    apply Hin. right. exact Hp.
Qed.

Lemma discover_three_files (s : string) :
  fs (Path_of_string s)
    = Some (FsDir [("b.dcm", FsFile); ("a.dcm", FsFile); ("c.dcm", FsFile)]) ->
  discover fs (OneOrigin s)
    = Ok [(Path_of_string s ++ ["a.dcm"])%list;
          (Path_of_string s ++ ["b.dcm"])%list;
          (Path_of_string s ++ ["c.dcm"])%list].
Proof.
  intros Hfs. unfold discover. cbn [origin_list_of visit_origins].
  unfold visit_origin. rewrite Hfs. cbn [rbind app].
  set (d := Path_of_string s).
  change (walk_dcm d (FsDir [("b.dcm", FsFile); ("a.dcm", FsFile); ("c.dcm", FsFile)]))
    with [(d ++ ["b.dcm"])%list; (d ++ ["a.dcm"])%list; (d ++ ["c.dcm"])%list].
  cbn [visit_origins rbind sort_paths fold_right insert_sorted].
  repeat (rewrite Path_leb_app;
          match goal with
          | |- context [Path_leb [?a] [?b]] =>
              let v := eval vm_compute in (Path_leb [a] [b]) in
              change (Path_leb [a] [b]) with v
          end;
          cbn [insert_sorted]).
  reflexivity.
Qed.

End DiscoveryFacts.

(* ================================================================== *)
(** ** The batch entry point up to dispatch *)

Lemma batch_stops_at_filetype (W : World) (origin : origin_arg)
    (target_root filetype : option string) (anonymous multiprocessing : bool)
    (d : Disk) (e : exn) :
  check_filetype filetype = Raise e ->
  _dicom_convertor W origin target_root filetype anonymous multiprocessing d
    = (Raise e, d).
Proof.
  intros H. unfold _dicom_convertor, tbind, lift. rewrite H. reflexivity.
Qed.

Lemma batch_stops_at_discovery (W : World) (origin : origin_arg)
    (target_root filetype : option string) (anonymous multiprocessing : bool)
    (d : Disk) (ft : string) (e : exn) :
  check_filetype filetype = Ok ft ->
  _get_root_get_dicom_file_list (fs_lookup W) origin target_root = Raise e ->
  _dicom_convertor W origin target_root filetype anonymous multiprocessing d
    = (Raise e, d).
Proof.
  intros H1 H2. unfold _dicom_convertor, tbind, lift. rewrite H1, H2. reflexivity.
Qed.

Lemma resolve_root_returns (origin_input : origin_arg) (target_root : option string) :
  target_root <> None \/ origin_input <> ManyOrigins [] ->
  exists root, resolve_root origin_input target_root = Ok root.
Proof.
  intros H. unfold resolve_root.
  destruct target_root as [t |]; [eexists; reflexivity |].
  destruct origin_input as [s | [| s l]]; try (eexists; reflexivity).
  destruct H as [H | H]; congruence.
Qed.

(** C6: discovery raises exactly when some input path does not exist or
    is a file whose suffix, lowered, is not [.dcm]; the exception leaves
    [_get_root_get_dicom_file_list] and the batch call before any task has
    run (the disk is untouched).  Otherwise the list it returns is sorted
    by path and holds exactly the given files and the files found at any
    depth below the given directories whose lowered name ends with
    [.dcm] (and the function returns it, with the target root, whenever
    a target root is given or there is a first input path to take it
    from); for a directory holding [b.dcm], [a.dcm] and [c.dcm] the list
    is [a.dcm, b.dcm, c.dcm]. *)
Theorem discovery_validates_then_sorts (W : World) (origin_input : origin_arg) :
  let fs := fs_lookup W in
  ((exists e, discover fs origin_input = Raise e)
   <-> Exists (bad_origin fs) (origin_list_of origin_input)) /\
  (forall e target_root filetype ft anonymous multiprocessing d,
     discover fs origin_input = Raise e ->
     check_filetype filetype = Ok ft ->
     _get_root_get_dicom_file_list fs origin_input target_root = Raise e /\
     _dicom_convertor W origin_input target_root filetype anonymous multiprocessing d
       = (Raise e, d)) /\
  (forall l,
     discover fs origin_input = Ok l ->
     StronglySorted Path_le l /\
     forall p, In p l
               <-> Exists (fun o => found_under fs o p) (origin_list_of origin_input)) /\
  (forall target_root root l,
     _get_root_get_dicom_file_list fs origin_input target_root = Ok (root, l) ->
     discover fs origin_input = Ok l) /\
  (forall target_root,
     ~ Exists (bad_origin fs) (origin_list_of origin_input) ->
     target_root <> None \/ origin_input <> ManyOrigins [] ->
     exists root l,
       _get_root_get_dicom_file_list fs origin_input target_root = Ok (root, l)) /\
  (forall s,
     origin_input = OneOrigin s ->
     fs (Path_of_string s)
       = Some (FsDir [("b.dcm", FsFile); ("a.dcm", FsFile); ("c.dcm", FsFile)]) ->
     discover fs origin_input
       = Ok [(Path_of_string s ++ ["a.dcm"])%list;
             (Path_of_string s ++ ["b.dcm"])%list;
             (Path_of_string s ++ ["c.dcm"])%list]).
Proof.
  intros fs. split; [apply discover_raises |].
  split; [| split; [| split; [| split]]].
  - intros e target_root filetype ft anonymous multiprocessing d He Hft.
    assert (Hr : _get_root_get_dicom_file_list fs origin_input target_root = Raise e).
    { unfold _get_root_get_dicom_file_list. rewrite He. reflexivity. }
    split; [exact Hr |].
    eapply batch_stops_at_discovery; eassumption.
  - intros l Hl. apply discover_finds. exact Hl.
  - intros target_root root l H. unfold _get_root_get_dicom_file_list in H.
    apply rbind_Ok_inv in H. destruct H as [l' [Hl' H]].
    apply rbind_Ok_inv in H. destruct H as [r' [_ H]].
    injection H as _ <-. exact Hl'.
  - intros target_root Hgood Hroot.
    destruct (discover fs origin_input) as [l | e] eqn:Hd.
    + destruct (resolve_root_returns origin_input target_root Hroot) as [root Hr].
      exists root, l. unfold _get_root_get_dicom_file_list. rewrite Hd, Hr. reflexivity.
    + exfalso. apply Hgood. apply discover_raises. exists e. exact Hd.
  - intros s -> Hfs. apply discover_three_files. exact Hfs.
Qed.

(** The directory [/d] of the samples. *)
Lemma discovery_validates_then_sorts_witness :
  discover Samples.fs_abc (OneOrigin "/d")
  = Ok [["/"; "d"; "a.dcm"]; ["/"; "d"; "b.dcm"]; ["/"; "d"; "c.dcm"]].
Proof.
  exact (proj2 (proj2 (proj2 (proj2 (proj2
           (discovery_validates_then_sorts Samples.world_ok (OneOrigin "/d"))))))
           "/d" eq_refl eq_refl).
Defined.

(* ================================================================== *)
(** ** Output format tokens *)

Lemma check_filetype_accepts (ft : string) :
  check_filetype (Some ft) = Ok ft <-> In (lower ft) spec_filetypes.
Proof.
  unfold check_filetype.
  destruct (existsb (String.eqb (lower ft)) recognized_filetypes) eqn:E; simpl.
  - split; [intros _ | reflexivity].
    apply existsb_exists in E. destruct E as [t [Hin Ht]].
    apply String.eqb_eq in Ht. rewrite Ht.
    unfold recognized_filetypes in Hin. unfold spec_filetypes. simpl in *.
    intuition.
  - split; [discriminate |]. intros Hin. exfalso.
    assert (Hex : existsb (String.eqb (lower ft)) recognized_filetypes = true).
    { apply existsb_exists. exists (lower ft). split; [| apply String.eqb_refl].
      unfold recognized_filetypes. unfold spec_filetypes in Hin. simpl in *.
      intuition. }
    congruence.
Qed.

(** C4, as the code behaves: the batch operation accepts exactly the
    tokens whose lower-case form is jpg, jpeg, png, bmp, tiff or the
    raw-array token img (an absent token stands for bmp); for every other
    token it raises before discovery: the exception is the format
    exception whatever the input paths are, and nothing has been done to
    the disk. *)
Theorem filetype_checked_before_discovery (W : World) (origin : origin_arg)
    (target_root : option string) (ft : string)
    (anonymous multiprocessing : bool) (d : Disk) :
  (check_filetype (Some ft) = Ok ft <-> In (lower ft) spec_filetypes) /\
  (~ In (lower ft) spec_filetypes ->
   check_filetype (Some ft)
     = Raise (Exception_ "Target file type should be jpg, png, or bmp") /\
   _dicom_convertor W origin target_root (Some ft) anonymous multiprocessing d
     = (Raise (Exception_ "Target file type should be jpg, png, or bmp"), d)) /\
  check_filetype None = Ok "bmp".
Proof.
  split; [apply check_filetype_accepts |]. split; [| reflexivity].
  intros Hnot.
  assert (H : check_filetype (Some ft)
              = Raise (Exception_ "Target file type should be jpg, png, or bmp")).
  { pose proof (check_filetype_accepts ft) as Hacc. unfold check_filetype in *.
    destruct (negb (existsb (String.eqb (lower ft)) recognized_filetypes));
      [reflexivity |].
    exfalso. apply Hnot. apply Hacc. reflexivity. }
  split; [exact H |]. apply batch_stops_at_filetype. exact H.
Qed.

(** The token gif is refused although the input path does not exist. *)
Lemma filetype_checked_before_discovery_witness :
  _dicom_convertor Samples.world_ok (OneOrigin "/nowhere") None (Some "gif")
    false true empty_disk
  = (Raise (Exception_ "Target file type should be jpg, png, or bmp"), empty_disk).
Proof.
  apply (filetype_checked_before_discovery Samples.world_ok (OneOrigin "/nowhere")
           None "gif" false true empty_disk).
  vm_compute. intuition discriminate.
Defined.

(** C4 fails as stated: the token JPG is none of the six tokens, and the
    batch does not raise for it; it converts the three files of [/d] and
    names the output with the token as given. *)
Lemma uppercase_token_accepted :
  ~ In "JPG" spec_filetypes /\
  check_filetype (Some "JPG") = Ok "JPG" /\
  _dicom_convertor Samples.world_ok (OneOrigin "/d") (Some "/out") (Some "JPG")
    false false empty_disk
  = (Ok true,
     mk_Disk [["/"; "out"]; ["/"; "out"]; ["/"; "out"]]
       [("/out/Ser_7.JPG", mk_ndarray [1%nat; 3%nat] [U8 0; U8 127; U8 255]);
        ("/out/Ser_7.JPG", mk_ndarray [1%nat; 3%nat] [U8 0; U8 127; U8 255]);
        ("/out/Ser_7.JPG", mk_ndarray [1%nat; 3%nat] [U8 0; U8 127; U8 255])]).
Proof.
  split; [| split].
  - vm_compute. intuition discriminate.
  - reflexivity.
  - vm_compute. reflexivity.
Qed.

(* ================================================================== *)
(** ** One conversion task *)

Ltac task_cases :=
  unfold _ds_to_file, tbind, lift, tret, do_mkdir, do_imwrite;
  repeat (match goal with
          | |- context [match ?x with _ => _ end] =>
              lazymatch x with
              | context [match _ with _ => _ end] => fail
              | _ => destruct x eqn:?
              end
          end;
          cbv beta; cbn [fst snd] in *).

(** The outcome of a task does not depend on what is on the disk. *)
Lemma _ds_to_file_outcome (W : World) (file_path target_root : Path)
    (filetype : string) (anonymous : bool)
    (patient_dict : option (list (Path * Path))) (d d' : Disk) :
  fst (_ds_to_file W file_path target_root filetype anonymous patient_dict d)
  = fst (_ds_to_file W file_path target_root filetype anonymous patient_dict d').
Proof. task_cases; reflexivity. Qed.

Lemma is_multiframe_spec (pa : ndarray F64.float) :
  is_multiframe pa = true
  <-> List.length (shape pa) = 3%nat /\ nth 2 (shape pa) O <> 3%nat.
Proof.
  unfold is_multiframe. rewrite andb_true_iff, negb_true_iff.
  rewrite Nat.eqb_eq, Nat.eqb_neq. reflexivity.
Qed.

(** A file that decodes to a dataset carrying a SOP class UID. *)
Lemma task_with_sop_class (W : World)
    (file_path target_root : Path) (filetype : string) (anonymous : bool)
    (patient_dict : option (list (Path * Path))) (d : Disk)
    (ds : Dataset) (uid : string) :
  dcmread W file_path = Ok ds ->
  SOPClassUID ds = Some uid ->
  let r := _ds_to_file W file_path target_root filetype anonymous patient_dict d in
  ((exists msg, fst r = Ok (RvMsg msg))
   <-> uid = uid_encapsulated_pdf \/ uid = uid_key_object_selection
       \/ multiframe ds) /\
  (forall msg, fst r = Ok (RvMsg msg) -> snd r = d) /\
  (uid = uid_encapsulated_pdf ->
   r = (Ok (RvMsg (skip_message file_path
                     "Encapsulated PDF Storage is currently not supported")), d)) /\
  (uid = uid_key_object_selection ->
   r = (Ok (RvMsg (skip_message file_path
                     "Key Object Selection Document is currently not supported")), d)) /\
  (uid <> uid_encapsulated_pdf -> uid <> uid_key_object_selection ->
   multiframe ds ->
   r = (Ok (RvMsg (skip_message file_path
                     "Multiframe images are currently not supported")), d)).
Proof.
  intros Hread Huid r.
  assert (Hpdf : uid = uid_encapsulated_pdf ->
                 r = (Ok (RvMsg (skip_message file_path
                        "Encapsulated PDF Storage is currently not supported")), d)).
  { intros ->. unfold r, _ds_to_file, tbind, lift, tret. rewrite Hread.
    unfold _is_unsupported. rewrite Huid. reflexivity. }
  assert (Hko : uid = uid_key_object_selection ->
                r = (Ok (RvMsg (skip_message file_path
                       "Key Object Selection Document is currently not supported")), d)).
  { intros ->. unfold r, _ds_to_file, tbind, lift, tret. rewrite Hread.
    unfold _is_unsupported. rewrite Huid. reflexivity. }
  assert (Hsup : uid <> uid_encapsulated_pdf -> uid <> uid_key_object_selection ->
                 _is_unsupported ds = Ok None).
  { intros N1 N2. unfold _is_unsupported. rewrite Huid.
    apply String.eqb_neq in N1. apply String.eqb_neq in N2.
    rewrite N1, N2. reflexivity. }
  assert (Hmf : uid <> uid_encapsulated_pdf -> uid <> uid_key_object_selection ->
                multiframe ds ->
                r = (Ok (RvMsg (skip_message file_path
                       "Multiframe images are currently not supported")), d)).
  { intros N1 N2 [pa [Hpa Hm]]. apply is_multiframe_spec in Hm.
    unfold r, _ds_to_file, tbind, lift, tret. rewrite Hread, (Hsup N1 N2), Hpa, Hm.
    reflexivity. }
  assert (Hother : uid <> uid_encapsulated_pdf -> uid <> uid_key_object_selection ->
                   ~ multiframe ds ->
                   forall msg, fst r <> Ok (RvMsg msg)).
  { intros N1 N2 Nm msg. unfold r, _ds_to_file. unfold tbind at 1 2. unfold lift at 1 2.
    rewrite Hread, (Hsup N1 N2). unfold tbind at 1. unfold lift at 1.
    destruct (pixel_array ds) as [pa | e] eqn:Hpa; [| discriminate].
    destruct (is_multiframe pa) eqn:Hm.
    - exfalso. apply Nm. exists pa. split; [exact Hpa |].
      apply is_multiframe_spec. exact Hm.
    - task_cases; discriminate. }
  split; [| split; [| split; [| split]]]; try assumption.
  - split.
    + intros [msg Hmsg].
      destruct (String.eqb_spec uid uid_encapsulated_pdf) as [E1 | N1]; [now left |].
      destruct (String.eqb_spec uid uid_key_object_selection) as [E2 | N2];
        [now right; left |].
      right. right.
      destruct (pixel_array ds) as [pa | e] eqn:Hpa.
      * destruct (is_multiframe pa) eqn:Hm.
        -- exists pa. split; [exact Hpa |]. apply is_multiframe_spec. exact Hm.
        -- exfalso. apply (Hother N1 N2) with (msg := msg); [| exact Hmsg].
           intros [pa' [Hpa' Hm']]. rewrite Hpa in Hpa'. injection Hpa' as <-.
           apply is_multiframe_spec in Hm'. congruence.
      * exfalso. apply (Hother N1 N2) with (msg := msg); [| exact Hmsg].
        intros [pa' [Hpa' _]]. rewrite Hpa in Hpa'. discriminate Hpa'.
    + intros [E | [E | Hm]].
      * rewrite (Hpdf E). eexists. reflexivity.
      * rewrite (Hko E). eexists. reflexivity.
      * destruct (String.eqb_spec uid uid_encapsulated_pdf) as [E1 | N1];
          [rewrite (Hpdf E1); eexists; reflexivity |].
        destruct (String.eqb_spec uid uid_key_object_selection) as [E2 | N2];
          [rewrite (Hko E2); eexists; reflexivity |].
        rewrite (Hmf N1 N2 Hm). eexists. reflexivity.
  - intros msg Hmsg.
    destruct (String.eqb_spec uid uid_encapsulated_pdf) as [E1 | N1];
      [rewrite (Hpdf E1); reflexivity |].
    destruct (String.eqb_spec uid uid_key_object_selection) as [E2 | N2];
      [rewrite (Hko E2); reflexivity |].
    destruct (pixel_array ds) as [pa | e] eqn:Hpa.
    + destruct (is_multiframe pa) eqn:Hm.
      * rewrite (Hmf N1 N2); [reflexivity |].
        exists pa. split; [exact Hpa |]. apply is_multiframe_spec. exact Hm.
      * exfalso. apply (Hother N1 N2) with (msg := msg); [| exact Hmsg].
        intros [pa' [Hpa' Hm']]. rewrite Hpa in Hpa'. injection Hpa' as <-.
        apply is_multiframe_spec in Hm'. congruence.
    + exfalso. apply (Hother N1 N2) with (msg := msg); [| exact Hmsg].
      intros [pa' [Hpa' _]]. rewrite Hpa in Hpa'. discriminate Hpa'.
Qed.

(** A file that cannot be decoded, or whose dataset carries no SOP class
    UID, makes the task raise before anything else is looked at. *)
Lemma task_without_sop_class (W : World)
    (file_path target_root : Path) (filetype : string) (anonymous : bool)
    (patient_dict : option (list (Path * Path))) (d : Disk) :
  (forall e, dcmread W file_path = Raise e ->
     _ds_to_file W file_path target_root filetype anonymous patient_dict d
     = (Raise e, d)) /\
  (forall ds, dcmread W file_path = Ok ds -> SOPClassUID ds = None ->
     _ds_to_file W file_path target_root filetype anonymous patient_dict d
     = (Raise AttributeError, d)).
Proof.
  split.
  - intros e Hread. unfold _ds_to_file, tbind, lift. rewrite Hread. reflexivity.
  - intros ds Hread Huid. unfold _ds_to_file, tbind, lift. rewrite Hread.
    unfold _is_unsupported. rewrite Huid. reflexivity.
Qed.

(** C5 fails as stated: a stack of five frames whose dataset carries no
    SOP class UID has three axes of which the last is not of size 3, and
    the task does not return a message for it: reading the UID in line 18
    raises [AttributeError] before the array is looked at. *)
Lemma frames_without_sop_class_not_skipped :
  multiframe MoreSamples.frames_without_uid /\
  dcmread MoreSamples.world_frames_without_uid ["/"; "d"; "a.dcm"]
    = Ok MoreSamples.frames_without_uid /\
  _ds_to_file MoreSamples.world_frames_without_uid ["/"; "d"; "a.dcm"] ["/"; "out"]
    "bmp" false None empty_disk
  = (Raise AttributeError, empty_disk).
Proof.
  split; [| split; reflexivity].
  eexists. split; [reflexivity |]. cbn [shape List.length nth]. split; [reflexivity | lia].
Qed.

(** C5, as the code behaves: the task returns a message instead of [True]
    if and only if the file decodes to a dataset that carries a SOP class
    UID, and this UID is the Encapsulated PDF Storage UID or the Key Object
    Selection Document UID, or the raw sample array has three axes of
    which the last is not of size 3.  Whenever it returns a message the
    disk is as it was (no directory made, no file written), and the
    message names the rejected class, or says that multiframe images are
    not supported.  A dataset without SOP class UID makes the task raise
    [AttributeError], whatever its sample array. *)
Theorem skipped_iff_uid_rejected_or_frames (W : World)
    (file_path target_root : Path) (filetype : string) (anonymous : bool)
    (patient_dict : option (list (Path * Path))) (d : Disk) :
  let r := _ds_to_file W file_path target_root filetype anonymous patient_dict d in
  ((exists msg, fst r = Ok (RvMsg msg))
   <-> exists ds uid,
         dcmread W file_path = Ok ds /\ SOPClassUID ds = Some uid /\
         (uid = uid_encapsulated_pdf \/ uid = uid_key_object_selection
          \/ multiframe ds)) /\
  (forall msg, fst r = Ok (RvMsg msg) -> snd r = d) /\
  (forall ds, dcmread W file_path = Ok ds -> SOPClassUID ds = None ->
     r = (Raise AttributeError, d)) /\
  (forall ds uid, dcmread W file_path = Ok ds -> SOPClassUID ds = Some uid ->
     (uid = uid_encapsulated_pdf ->
      r = (Ok (RvMsg (skip_message file_path
                        "Encapsulated PDF Storage is currently not supported")), d)) /\
     (uid = uid_key_object_selection ->
      r = (Ok (RvMsg (skip_message file_path
                        "Key Object Selection Document is currently not supported")), d)) /\
     (uid <> uid_encapsulated_pdf -> uid <> uid_key_object_selection ->
      multiframe ds ->
      r = (Ok (RvMsg (skip_message file_path
                        "Multiframe images are currently not supported")), d))).
Proof.
  cbv zeta.
  set (r := _ds_to_file W file_path target_root filetype anonymous patient_dict d).
  destruct (task_without_sop_class W file_path target_root filetype anonymous
              patient_dict d) as [Hfail Hnone].
  fold r in Hfail, Hnone.
  assert (Hsome : forall ds uid,
             dcmread W file_path = Ok ds -> SOPClassUID ds = Some uid ->
             ((exists msg, fst r = Ok (RvMsg msg))
              <-> uid = uid_encapsulated_pdf \/ uid = uid_key_object_selection
                  \/ multiframe ds) /\
             (forall msg, fst r = Ok (RvMsg msg) -> snd r = d) /\
             (uid = uid_encapsulated_pdf ->
              r = (Ok (RvMsg (skip_message file_path
                     "Encapsulated PDF Storage is currently not supported")), d)) /\
             (uid = uid_key_object_selection ->
              r = (Ok (RvMsg (skip_message file_path
                     "Key Object Selection Document is currently not supported")), d)) /\
             (uid <> uid_encapsulated_pdf -> uid <> uid_key_object_selection ->
              multiframe ds ->
              r = (Ok (RvMsg (skip_message file_path
                     "Multiframe images are currently not supported")), d))).
  { intros ds uid Hread Huid.
    exact (task_with_sop_class W file_path target_root filetype anonymous
             patient_dict d ds uid Hread Huid). }
  split; [| split; [| split]].
  - split.
    + intros Hmsg.
      destruct (dcmread W file_path) as [ds | e] eqn:Hread.
      * destruct (SOPClassUID ds) as [uid |] eqn:Huid.
        -- exists ds, uid. split; [reflexivity |]. split; [exact Huid |].
           apply (Hsome ds uid eq_refl Huid). exact Hmsg.
        -- destruct Hmsg as [msg Hmsg].
           rewrite (Hnone ds eq_refl Huid) in Hmsg. discriminate Hmsg.
      * destruct Hmsg as [msg Hmsg].
        rewrite (Hfail e eq_refl) in Hmsg. discriminate Hmsg.
    + intros [ds [uid [Hread [Huid H]]]].
      apply (Hsome ds uid Hread Huid). exact H.
  - intros msg Hmsg.
    destruct (dcmread W file_path) as [ds | e] eqn:Hread.
    + destruct (SOPClassUID ds) as [uid |] eqn:Huid.
      * apply (Hsome ds uid eq_refl Huid) with (msg := msg). exact Hmsg.
      * rewrite (Hnone ds eq_refl Huid) in Hmsg. discriminate Hmsg.
    + rewrite (Hfail e eq_refl) in Hmsg. discriminate Hmsg.
  - intros ds Hread Huid. apply (Hnone ds Hread Huid).
  - intros ds uid Hread Huid.
    destruct (Hsome ds uid Hread Huid) as [_ [_ H]]. exact H.
Qed.

(** An encapsulated PDF is skipped and nothing is written. *)
Lemma skipped_iff_uid_rejected_or_frames_witness :
  (exists msg,
     fst (_ds_to_file Samples.world_pdf ["/"; "d"; "a.dcm"] ["/"; "out"] "bmp" false
            None empty_disk) = Ok (RvMsg msg)) /\
  _ds_to_file Samples.world_pdf ["/"; "d"; "a.dcm"] ["/"; "out"] "bmp" false None
    empty_disk
  = (Ok (RvMsg (skip_message ["/"; "d"; "a.dcm"]
                  "Encapsulated PDF Storage is currently not supported")),
     empty_disk).
Proof.
  pose proof (skipped_iff_uid_rejected_or_frames Samples.world_pdf
                ["/"; "d"; "a.dcm"] ["/"; "out"] "bmp" false None empty_disk)
    as [Hiff [_ [_ Hmsg]]].
  split.
  - apply Hiff.
    exists (mk_Dataset (Some uid_encapsulated_pdf) None None None None None
              None None None (Raise AttributeError)), uid_encapsulated_pdf.
    split; [reflexivity |]. split; [reflexivity |]. left. reflexivity.
  - apply (Hmsg (mk_Dataset (Some uid_encapsulated_pdf) None None None None None
                   None None None (Raise AttributeError))
             uid_encapsulated_pdf eq_refl eq_refl).
    reflexivity.
Defined.

(* ================================================================== *)
(** ** Export paths *)

Lemma has_sep_append (a b : string) :
  has_sep (a ++ b) = has_sep a || has_sep b.
Proof.
  induction a as [| c a IH]; simpl; [reflexivity |].
  rewrite IH. apply orb_assoc.
Qed.

Lemma lower_ascii_sep (c : ascii) :
  Ascii.eqb (lower_ascii c) "/"%char = Ascii.eqb c "/"%char.
Proof.
  destruct c as [[] [] [] [] [] [] [] []]; vm_compute; reflexivity.
Qed.

Lemma has_sep_lower (s : string) : has_sep (lower s) = has_sep s.
Proof.
  induction s as [| c s IH]; simpl; [reflexivity |].
  now rewrite lower_ascii_sep, IH.
Qed.

Lemma check_filetype_no_sep (filetype : option string) (ft : string) :
  check_filetype filetype = Ok ft -> has_sep ft = false.
Proof.
  destruct filetype as [ft0 |].
  - intros H.
    assert (Hft : ft0 = ft).
    { revert H. unfold check_filetype.
      destruct (negb (existsb (String.eqb (lower ft0)) recognized_filetypes));
        intros H; [discriminate H | now injection H]. }
    subst ft0. apply check_filetype_accepts in H.
    rewrite <- has_sep_lower.
    unfold spec_filetypes in H. simpl in H.
    destruct H as [<- | [<- | [<- | [<- | [<- | [<- | []]]]]]]; reflexivity.
  - unfold check_filetype. intros H. injection H as <-. reflexivity.
Qed.

Lemma split_on_no_sep (s : string) :
  has_sep s = false -> split_on "/"%char s = [s].
Proof.
  induction s as [| c s IH]; simpl; [reflexivity |].
  intros H. apply orb_false_iff in H. destruct H as [Hc Hs].
  rewrite Hc, (IH Hs). reflexivity.
Qed.

Lemma prefix_sep_no_sep (p s : string) :
  has_sep s = false -> String.prefix (String "/"%char p) s = false.
Proof.
  destruct s as [| c s]; cbn [has_sep String.prefix]; [reflexivity |].
  intros H. apply orb_false_iff in H. destruct H as [Hc _].
  destruct (ascii_dec "/"%char c) as [E | N]; [| reflexivity].
  subst c. discriminate Hc.
Qed.

Lemma Path_of_string_plain (s : string) :
  has_sep s = false -> s <> "" -> s <> "." -> Path_of_string s = [s].
Proof.
  intros Hs N1 N2. unfold Path_of_string.
  rewrite !prefix_sep_no_sep by exact Hs.
  rewrite (split_on_no_sep s Hs). simpl.
  apply String.eqb_neq in N1. apply String.eqb_neq in N2.
  rewrite N1, N2. reflexivity.
Qed.

Lemma export_file_name_proper (ser ins ft : string) :
  export_file_name ser ins ft <> "" /\ export_file_name ser ins ft <> ".".
Proof.
  unfold export_file_name.
  destruct ser as [| c [| c' ser]]; simpl; split; discriminate.
Qed.

Lemma not_root_part_no_sep (s : string) :
  has_sep s = false -> is_root_part s = false.
Proof.
  intros H. unfold is_root_part.
  destruct (String.eqb_spec s "/") as [-> | _]; [discriminate H |].
  destruct (String.eqb_spec s "//") as [-> | _]; [discriminate H | reflexivity].
Qed.

Lemma Path_parent_child (root : Path) (name : string) :
  is_root_part name = false -> Path_parent (root ++ [name])%list = root.
Proof.
  intros H. destruct root as [| r [| r' root]].
  - simpl. now rewrite H.
  - reflexivity.
  - change (Path_parent ((r :: r' :: root) ++ [name])%list)
      with (removelast ((r :: r' :: root) ++ [name])%list).
    apply removelast_last.
Qed.

Lemma split_on_parts_no_sep (s : string) :
  Forall (fun c => has_sep c = false) (split_on "/"%char s).
Proof.
  induction s as [| a s IH]; cbn [split_on].
  - constructor; [reflexivity | constructor].
  - destruct (Ascii.eqb a "/"%char) eqn:Ha.
    + constructor; [reflexivity | exact IH].
    + destruct (split_on "/"%char s) as [| w ws].
      * constructor; [| constructor]. cbn [has_sep]. rewrite Ha. reflexivity.
      * inversion IH as [| ? ? Hw Hws]; subst.
        constructor; [| exact Hws]. cbn [has_sep]. rewrite Ha, Hw. reflexivity.
Qed.

(** A part of [Path(s)] is a root part or holds no separator. *)
Lemma Path_of_string_parts (s c : string) :
  In c (Path_of_string s) -> is_root_part c = true \/ has_sep c = false.
Proof.
  unfold Path_of_string. intros H. apply in_app_or in H. destruct H as [H | H].
  - left.
    destruct (String.prefix "///" s);
      [| destruct (String.prefix "//" s); [| destruct (String.prefix "/" s)]];
      simpl in H; try contradiction; destruct H as [<- | []]; reflexivity.
  - right. apply filter_In in H. destruct H as [H _].
    pose proof (split_on_parts_no_sep s) as Hall.
    rewrite Forall_forall in Hall. apply Hall. exact H.
Qed.

(** A string with a separator that is not a root is never one part of the
    path made from it. *)
Lemma Path_join_not_one_part (root : Path) (s : string) :
  has_sep s = true -> is_root_part s = false ->
  Path_join root (Path_of_string s) <> (root ++ [s])%list.
Proof.
  intros Hs Hr E.
  assert (Hin : In s (Path_of_string s)).
  { unfold Path_join in E. destruct (is_absolute (Path_of_string s)).
    - rewrite E. apply in_or_app. right. left. reflexivity.
    - apply app_inv_head in E. rewrite E. left. reflexivity. }
  apply Path_of_string_parts in Hin. destruct Hin as [H | H]; congruence.
Qed.

Lemma has_char_in_append (c : ascii) (a b : string) :
  has_char c (a ++ b) = has_char c a || has_char c b.
Proof.
  induction a as [| x a IH]; simpl; [reflexivity |].
  rewrite IH. apply orb_assoc.
Qed.

Lemma export_file_name_not_root (ser ins ft : string) :
  is_root_part (export_file_name ser ins ft) = false.
Proof.
  assert (H : has_char "_"%char (export_file_name ser ins ft) = true).
  { unfold export_file_name. rewrite !has_char_in_append.
    replace (has_char "_"%char "_") with true by reflexivity.
    rewrite orb_true_l. apply orb_true_r. }
  unfold is_root_part. apply orb_false_iff.
  split; apply String.eqb_neq; intros E; rewrite E in H; discriminate H.
Qed.

(** C8 fails as stated: the series number is put into the file name as it
    is, and the name is parsed as a path.  With SeriesNumber [/tmp/x] the
    export path is [/tmp/x_7.bmp], outside the target root [/out]; with
    [1/2] it is [/out/1/2_7.bmp], in a subfolder; with [../../etc/x] its
    parent is [/out/../../etc].  The task makes the directory and writes
    the file there. *)
Lemma series_number_with_separator_leaves_root :
  _get_export_file_path (MoreSamples.numbered "/tmp/x" "7")
    ["/"; "d"; "a.dcm"] ["/"; "out"] "bmp" false None
    = Ok ["/"; "tmp"; "x_7.bmp"] /\
  _get_export_file_path (MoreSamples.numbered "1/2" "7")
    ["/"; "d"; "a.dcm"] ["/"; "out"] "bmp" false None
    = Ok ["/"; "out"; "1"; "2_7.bmp"] /\
  _get_export_file_path (MoreSamples.numbered "../../etc/x" "7")
    ["/"; "d"; "a.dcm"] ["/"; "out"] "bmp" false None
    = Ok ["/"; "out"; ".."; ".."; "etc"; "x_7.bmp"] /\
  Path_parent ["/"; "tmp"; "x_7.bmp"] <> ["/"; "out"] /\
  Path_parent ["/"; "out"; "1"; "2_7.bmp"] <> ["/"; "out"] /\
  Path_parent ["/"; "out"; ".."; ".."; "etc"; "x_7.bmp"] <> ["/"; "out"] /\
  _ds_to_file (MoreSamples.world_numbered "/tmp/x" "7") ["/"; "d"; "a.dcm"]
    ["/"; "out"] "bmp" false None empty_disk
  = (Ok RvTrue,
     mk_Disk [["/"; "tmp"]]
       [("/tmp/x_7.bmp", mk_ndarray [1%nat; 3%nat] [U8 0; U8 127; U8 255])]).
Proof.
  repeat split; try (vm_compute; reflexivity); vm_compute; intros H; discriminate H.
Qed.

(** C8, as the code behaves: without the anonymize flag the export path
    is, for every dataset, the target root joined with the path parsed
    from [{SeriesNumber}_{InstanceNumber}.{format}], where an absent
    SeriesNumber is replaced by [Ser] and an absent InstanceNumber by
    [Ins]; the resolution never raises.  For a format token that holds no
    path separator (every validated token), the path is the target root
    followed by that one file name if and only if neither number holds a
    path separator; the file then lies directly under the target root. *)
Theorem export_path_flat_iff_no_separator (ds : Dataset)
    (file_path target_root : Path) (filetype : string)
    (patient_dict : option (list (Path * Path))) :
  let ser := fst (_get_metadata ds) in
  let ins := snd (_get_metadata ds) in
  let name := export_file_name ser ins filetype in
  _get_export_file_path ds file_path target_root filetype false patient_dict
    = Ok (Path_join target_root (Path_of_string name)) /\
  ser = match SeriesNumber ds with Some v => v | None => "Ser" end /\
  ins = match InstanceNumber ds with Some v => v | None => "Ins" end /\
  name = ser ++ "_" ++ ins ++ "." ++ filetype /\
  (forall token, check_filetype token = Ok filetype -> has_sep filetype = false) /\
  (has_sep filetype = false ->
   (_get_export_file_path ds file_path target_root filetype false patient_dict
      = Ok (target_root ++ [name])%list
    <-> has_sep ser = false /\ has_sep ins = false) /\
   (has_sep ser = false -> has_sep ins = false ->
    Path_parent (target_root ++ [name])%list = target_root)).
Proof.
  intros ser ins name.
  assert (H : _get_export_file_path ds file_path target_root filetype false patient_dict
              = Ok (Path_join target_root (Path_of_string name))).
  { reflexivity. }
  split; [exact H |]. split; [reflexivity |]. split; [reflexivity |].
  split; [reflexivity |]. split; [intros token; apply check_filetype_no_sep |].
  intros Hf.
  assert (Hname : has_sep name = has_sep ser || has_sep ins).
  { unfold name, export_file_name. rewrite !has_sep_append, Hf.
    cbn [has_sep Ascii.eqb Bool.eqb]. rewrite !orb_false_r.
    destruct (has_sep ser), (has_sep ins); reflexivity. }
  assert (Hflat : has_sep ser = false -> has_sep ins = false ->
                  Path_join target_root (Path_of_string name)
                  = (target_root ++ [name])%list /\
                  Path_parent (target_root ++ [name])%list = target_root).
  { intros Hs Hi. rewrite Hs, Hi in Hname. cbn [orb] in Hname.
    destruct (export_file_name_proper ser ins filetype) as [N1 N2].
    rewrite (Path_of_string_plain name Hname N1 N2).
    unfold Path_join. cbn [is_absolute].
    rewrite (not_root_part_no_sep name Hname).
    split; [reflexivity |].
    apply Path_parent_child. apply not_root_part_no_sep. exact Hname. }
  split.
  - rewrite H. split.
    + intros E. injection E as E.
      destruct (has_sep name) eqn:Hn.
      * exfalso. apply (Path_join_not_one_part target_root name Hn); [| exact E].
        apply export_file_name_not_root.
      * symmetry in Hname. apply orb_false_iff in Hname. exact Hname.
    + intros [Hs Hi]. f_equal. apply (Hflat Hs Hi).
  - intros Hs Hi. apply (Hflat Hs Hi).
Qed.

(** The grayscale sample has no SeriesNumber and InstanceNumber 7. *)
Lemma export_path_flat_iff_no_separator_witness :
  _get_export_file_path (Samples.gray "MONOCHROME2" 1 2 [0; 1; 2])
    ["/"; "d"; "a.dcm"] ["/"; "out"] "bmp" false None
    = Ok ["/"; "out"; "Ser_7.bmp"] /\
  Path_parent ["/"; "out"; "Ser_7.bmp"] = ["/"; "out"].
Proof.
  pose proof (export_path_flat_iff_no_separator
                (Samples.gray "MONOCHROME2" 1 2 [0; 1; 2])
                ["/"; "d"; "a.dcm"] ["/"; "out"] "bmp" None)
    as [_ [_ [_ [_ [_ H]]]]].
  destruct (H eq_refl) as [Hiff Hparent].
  split.
  - apply Hiff. split; reflexivity.
  - apply Hparent; reflexivity.
Defined.

(* ================================================================== *)
(** ** Dispatch *)

Section Dispatch.

Variable run : Path -> task task_rv.

Hypothesis run_outcome : forall f d d', fst (run f d) = fst (run f d').

Lemma run_sequential_all_return (files : list Path) (d d0 : Disk) :
  Forall (fun f => returned (run f d0)) files ->
  exists rvs, fst (run_sequential run files d) = Ok rvs.
Proof.
  revert d. induction files as [| f files IH]; intros d Hall.
  - exists []. reflexivity.
  - inversion Hall as [| ? ? [rv Hf] Hrest]; subst.
    cbn [run_sequential]. unfold tbind at 1.
    rewrite (run_outcome f d0 d) in Hf.
    destruct (run f d) as [r d1]. cbn [fst] in Hf. subst r.
    unfold tbind at 1.
    destruct (IH d1 Hrest) as [rvs Hrvs].
    destruct (run_sequential run files d1) as [r2 d2]. cbn [fst] in Hrvs. subst r2.
    exists (rv :: rvs). reflexivity.
Qed.

Lemma run_sequential_stops (before after : list Path) (f : Path) (e : exn)
    (d d0 : Disk) :
  Forall (fun f => returned (run f d0)) before ->
  fst (run f d0) = Raise e ->
  run_sequential run (before ++ f :: after) d
  = (Raise e, snd (run f (snd (run_sequential run before d)))).
Proof.
  revert d. induction before as [| b before IH]; intros d Hall Hf.
  - cbn [app run_sequential tret snd]. unfold tbind at 1.
    rewrite (run_outcome f d0 d) in Hf.
    destruct (run f d) as [r d1]. cbn [fst snd] in *. subst r. reflexivity.
  - inversion Hall as [| ? ? [rv Hb] Hrest]; subst.
    cbn [app run_sequential]. unfold tbind, tret.
    rewrite (run_outcome b d0 d) in Hb.
    destruct (run b d) as [r d1]. cbn [fst] in Hb. subst r.
    rewrite (IH d1 Hrest Hf).
    destruct (run_sequential run before d1) as [[rvs | e'] d2]; reflexivity.
Qed.

Lemma run_sequential_returns_iff (files : list Path) (d : Disk) :
  (exists rvs, fst (run_sequential run files d) = Ok rvs)
  <-> Forall (fun f => returned (run f d)) files.
Proof.
  split; [| apply run_sequential_all_return].
  revert d. induction files as [| f files IH]; intros d [rvs H]; [constructor |].
  cbn [run_sequential] in H. unfold tbind at 1 in H.
  destruct (run f d) as [[rv | e] d1] eqn:Hf; cbn [fst] in H; [| discriminate H].
  constructor.
  - exists rv. rewrite Hf. reflexivity.
  - assert (Hrest : Forall (fun f => returned (run f d1)) files).
    { apply IH. unfold tbind in H.
      destruct (run_sequential run files d1) as [[rvs' | e'] d2]; cbn [fst] in H;
        [| discriminate H].
      exists rvs'. reflexivity. }
    eapply Forall_impl; [| exact Hrest].
    intros g [rv' Hg]. exists rv'. rewrite (run_outcome g d d1). exact Hg.
Qed.

Lemma run_submitted_outcomes (files : list Path) (d d0 : Disk) :
  fst (run_submitted run files d) = map (fun f => fst (run f d0)) files.
Proof.
  revert d. induction files as [| f files IH]; intros d; [reflexivity |].
  cbn [run_submitted map].
  rewrite (run_outcome f d0 d).
  destruct (run f d) as [r d1]. specialize (IH d1).
  destruct (run_submitted run files d1) as [rs d2]. cbn [fst] in *.
  now rewrite IH.
Qed.

Lemma collect_results_returns_iff (files : list Path) (d : Disk) :
  (exists rvs, collect_results (map (fun f => fst (run f d)) files) = Ok rvs)
  <-> Forall (fun f => returned (run f d)) files.
Proof.
  induction files as [| f files IH]; cbn [map collect_results].
  - split; [constructor | intros _; exists []; reflexivity].
  - split.
    + intros [rvs H]. apply rbind_Ok_inv in H. destruct H as [rv [Hrv H]].
      apply rbind_Ok_inv in H. destruct H as [rvs' [Hrvs' _]].
      constructor; [exists rv; exact Hrv | apply IH; exists rvs'; exact Hrvs'].
    + intros Hall. inversion Hall as [| ? ? [rv Hrv] Hrest]; subst.
      apply IH in Hrest. destruct Hrest as [rvs Hrvs].
      exists (rv :: rvs). rewrite Hrv, Hrvs. reflexivity.
Qed.

Lemma collect_results_first_raise (before after : list Path) (f : Path)
    (e : exn) (d : Disk) :
  Forall (fun f => returned (run f d)) before ->
  fst (run f d) = Raise e ->
  collect_results (map (fun f => fst (run f d)) (before ++ f :: after)) = Raise e.
Proof.
  induction before as [| b before IH]; intros Hall Hf; cbn [app map collect_results].
  - rewrite Hf. reflexivity.
  - inversion Hall as [| ? ? [rv Hrv] Hrest]; subst.
    rewrite Hrv. cbn [rbind]. rewrite (IH Hrest Hf). reflexivity.
Qed.

(** Tasks that leave the disk alone leave it alone together. *)
Lemma run_sequential_disk (files : list Path) (d : Disk) :
  (forall f d, snd (run f d) = d) -> snd (run_sequential run files d) = d.
Proof.
  intros Hrun. revert d. induction files as [| f files IH]; intros d; [reflexivity |].
  cbn [run_sequential]. unfold tbind at 1.
  pose proof (Hrun f d) as Hf.
  destruct (run f d) as [[rv | e] d1]; cbn [snd] in *; subst d1; [| reflexivity].
  unfold tbind. pose proof (IH d) as Hd.
  destruct (run_sequential run files d) as [[rvs | e] d2]; cbn [snd] in *; subst d2;
    reflexivity.
Qed.

Lemma run_submitted_disk (files : list Path) (d : Disk) :
  (forall f d, snd (run f d) = d) -> snd (run_submitted run files d) = d.
Proof.
  intros Hrun. revert d. induction files as [| f files IH]; intros d; [reflexivity |].
  cbn [run_submitted].
  pose proof (Hrun f d) as Hf.
  destruct (run f d) as [r d1]. cbn [snd] in Hf. subst d1.
  pose proof (IH d) as Hd.
  destruct (run_submitted run files d) as [rs d2]. cbn [snd] in *. exact Hd.
Qed.

End Dispatch.

(** What [_dicom_convertor] does once the format is accepted and the
    files are found. *)
Lemma _dicom_convertor_dispatch (W : World) (origin : origin_arg)
    (target_root filetype : option string) (anonymous multiprocessing : bool)
    (d : Disk) (ft : string) (root : Path) (files : list Path) :
  check_filetype filetype = Ok ft ->
  _get_root_get_dicom_file_list (fs_lookup W) origin target_root = Ok (root, files) ->
  let run := fun f => _ds_to_file W f root ft anonymous None in
  _dicom_convertor W origin target_root filetype anonymous multiprocessing d
  = if multiprocessing then
      match collect_results (fst (run_submitted run files d)) with
      | Ok _ => (Ok true, snd (run_submitted run files d))
      | Raise e => (Raise e, snd (run_submitted run files d))
      end
    else
      match fst (run_sequential run files d) with
      | Ok _ => (Ok true, snd (run_sequential run files d))
      | Raise e => (Raise e, snd (run_sequential run files d))
      end.
Proof.
  intros Hft Hfiles run.
  unfold _dicom_convertor. unfold tbind at 1 2. unfold lift at 1 2.
  rewrite Hft, Hfiles. fold run. unfold tbind, tret.
  destruct multiprocessing.
  - destruct (run_submitted run files d) as [rs d']. cbn [fst snd].
    destruct (collect_results rs); reflexivity.
  - destruct (run_sequential run files d) as [[rvs | e] d']; reflexivity.
Qed.

(* ================================================================== *)
(** ** Failures of single files *)

(** C1, as the code behaves: a file that is skipped returns its message
    and does not stop the batch; an exception of a task is not caught.
    Once the format is accepted and the files are found, the batch call
    returns [True] if and only if no task raises.  If some task raises,
    the batch call raises the exception of the first such file: in
    sequential mode the files after it are not processed (the disk is as
    the failing task left it); with multiprocessing every task is run
    before the exception leaves the call. *)
Theorem batch_returns_true_iff_no_task_raises (W : World) (origin : origin_arg)
    (target_root filetype : option string) (anonymous multiprocessing : bool)
    (d : Disk) (ft : string) (root : Path) (files : list Path) :
  check_filetype filetype = Ok ft ->
  _get_root_get_dicom_file_list (fs_lookup W) origin target_root = Ok (root, files) ->
  let run := fun f => _ds_to_file W f root ft anonymous None in
  let r := _dicom_convertor W origin target_root filetype anonymous multiprocessing d in
  (fst r = Ok true <-> Forall (fun f => returned (run f d)) files) /\
  (forall before f after e,
     files = (before ++ f :: after)%list ->
     Forall (fun f => returned (run f d)) before ->
     fst (run f d) = Raise e ->
     fst r = Raise e /\
     (multiprocessing = false ->
      snd r = snd (run f (snd (run_sequential run before d)))) /\
     (multiprocessing = true ->
      snd r = snd (run_submitted run files d))).
Proof.
  intros Hft Hfiles run r.
  assert (Hout : forall f d1 d2, fst (run f d1) = fst (run f d2)).
  { intros f d1 d2. apply _ds_to_file_outcome. }
  assert (Hr : r = if multiprocessing then
                     match collect_results (fst (run_submitted run files d)) with
                     | Ok _ => (Ok true, snd (run_submitted run files d))
                     | Raise e => (Raise e, snd (run_submitted run files d))
                     end
                   else
                     match fst (run_sequential run files d) with
                     | Ok _ => (Ok true, snd (run_sequential run files d))
                     | Raise e => (Raise e, snd (run_sequential run files d))
                     end).
  { apply (_dicom_convertor_dispatch W origin target_root filetype anonymous
             multiprocessing d ft root files Hft Hfiles). }
  split.
  - rewrite Hr. destruct multiprocessing.
    + rewrite (run_submitted_outcomes run Hout files d d).
      rewrite <- (collect_results_returns_iff run files d).
      destruct (collect_results (map (fun f => fst (run f d)) files)) as [rvs | e];
        cbn [fst]; split; intros H.
      * exists rvs. reflexivity.
      * reflexivity.
      * discriminate H.
      * destruct H as [rvs H]. discriminate H.
    + rewrite <- (run_sequential_returns_iff run Hout files d).
      destruct (fst (run_sequential run files d)) as [rvs | e];
        cbn [fst]; split; intros H.
      * exists rvs. reflexivity.
      * reflexivity.
      * discriminate H.
      * destruct H as [rvs H]. discriminate H.
  - intros before f after e -> Hbefore Hf. rewrite Hr. destruct multiprocessing.
    + rewrite (run_submitted_outcomes run Hout _ d d).
      rewrite (collect_results_first_raise run before after f e d Hbefore Hf).
      cbn [fst snd]. split; [reflexivity |].
      split; [discriminate | reflexivity].
    + rewrite (run_sequential_stops run Hout before after f e d d Hbefore Hf).
      cbn [fst snd]. split; [reflexivity |].
      split; [reflexivity | discriminate].
Qed.

(** A batch in which every file is skipped returns [True]. *)
Lemma batch_returns_true_iff_no_task_raises_witness :
  fst (_dicom_convertor Samples.world_pdf (OneOrigin "/d") (Some "/out") None
         false false empty_disk) = Ok true.
Proof.
  apply (batch_returns_true_iff_no_task_raises Samples.world_pdf (OneOrigin "/d")
           (Some "/out") None false false empty_disk "bmp" ["/"; "out"]
           [["/"; "d"; "a.dcm"]; ["/"; "d"; "b.dcm"]; ["/"; "d"; "c.dcm"]]).
  - reflexivity.
  - vm_compute. reflexivity.
  - repeat constructor; eexists; vm_compute; reflexivity.
Defined.

(** C1 fails as stated: [/d/a.dcm] cannot be decoded and [/d/b.dcm] can
    be converted on its own.  In sequential mode the batch call raises the
    decoder's exception instead of returning [True], and neither [b.dcm]
    nor [c.dcm] has been converted; with multiprocessing both have been
    written and the call raises all the same. *)
Lemma corrupt_file_aborts_batch :
  _ds_to_file Samples.world_a_corrupt ["/"; "d"; "b.dcm"] ["/"; "out"] "bmp"
    false None empty_disk
  = (Ok RvTrue,
     mk_Disk [["/"; "out"]]
       [("/out/Ser_7.bmp", mk_ndarray [1%nat; 3%nat] [U8 0; U8 127; U8 255])]) /\
  _dicom_convertor Samples.world_a_corrupt (OneOrigin "/d") (Some "/out") None
    false false empty_disk
  = (Raise (ExternalError "InvalidDicomError"), empty_disk) /\
  _dicom_convertor Samples.world_a_corrupt (OneOrigin "/d") (Some "/out") None
    false true empty_disk
  = (Raise (ExternalError "InvalidDicomError"),
     mk_Disk [["/"; "out"]; ["/"; "out"]]
       [("/out/Ser_7.bmp", mk_ndarray [1%nat; 3%nat] [U8 0; U8 127; U8 255]);
        ("/out/Ser_7.bmp", mk_ndarray [1%nat; 3%nat] [U8 0; U8 127; U8 255])]) /\
  fst (_dicom_convertor Samples.world_a_corrupt (OneOrigin "/d") (Some "/out") None
         false false empty_disk) <> Ok true.
Proof.
  repeat split; try (vm_compute; reflexivity).
  vm_compute. intros H. discriminate H.
Qed.

(* ================================================================== *)
(** ** The anonymize flag *)

Lemma anonymous_task_stops (W : World) (file_path target_root : Path)
    (filetype : string) (d : Disk) :
  let r := _ds_to_file W file_path target_root filetype true None d in
  fst r <> Ok RvTrue /\ snd r = d.
Proof.
  unfold _ds_to_file, _get_export_file_path. cbv beta iota.
  task_cases; split; try reflexivity; discriminate.
Qed.

(** C10: with the anonymize flag set, the batch hands every task an
    absent mapping ([full_path_dict = None]), on which the lookup of the
    export path raises whatever the file.  Hence no task run with the flag
    returns [True], no task makes a directory or writes a file, and the
    whole batch leaves the disk as it was. *)
Theorem anonymous_mode_never_writes (W : World) :
  (forall ds file_path target_root filetype,
     _get_export_file_path ds file_path target_root filetype true None
       = Raise TypeError) /\
  (forall file_path target_root filetype d,
     fst (_ds_to_file W file_path target_root filetype true None d) <> Ok RvTrue /\
     snd (_ds_to_file W file_path target_root filetype true None d) = d) /\
  (forall origin target_root filetype multiprocessing d ft root files,
     check_filetype filetype = Ok ft ->
     _get_root_get_dicom_file_list (fs_lookup W) origin target_root = Ok (root, files) ->
     let run := fun f => _ds_to_file W f root ft true None in
     _dicom_convertor W origin target_root filetype true multiprocessing d
     = if multiprocessing then
         match collect_results (fst (run_submitted run files d)) with
         | Ok _ => (Ok true, snd (run_submitted run files d))
         | Raise e => (Raise e, snd (run_submitted run files d))
         end
       else
         match fst (run_sequential run files d) with
         | Ok _ => (Ok true, snd (run_sequential run files d))
         | Raise e => (Raise e, snd (run_sequential run files d))
         end) /\
  (forall origin target_root filetype multiprocessing d,
     snd (_dicom_convertor W origin target_root filetype true multiprocessing d) = d).
Proof.
  split; [reflexivity |]. split; [| split].
  2: { intros origin target_root filetype multiprocessing d ft root files Hft Hfiles.
       apply (_dicom_convertor_dispatch W origin target_root filetype true
                multiprocessing d ft root files Hft Hfiles). }
  - intros file_path target_root filetype d.
    apply (anonymous_task_stops W file_path target_root filetype d).
  - intros origin target_root filetype multiprocessing d.
    destruct (check_filetype filetype) as [ft | e] eqn:Hft.
    + destruct (_get_root_get_dicom_file_list (fs_lookup W) origin target_root)
        as [[root files] | e] eqn:Hfiles.
      * rewrite (_dicom_convertor_dispatch W origin target_root filetype true
                   multiprocessing d ft root files Hft Hfiles).
        cbv zeta. set (run := fun f => _ds_to_file W f root ft true None).
        assert (Hrun : forall f d1, snd (run f d1) = d1).
        { intros f d1. apply (anonymous_task_stops W f root ft d1). }
        destruct multiprocessing.
        -- rewrite (run_submitted_disk run files d Hrun).
           destruct (collect_results _); reflexivity.
        -- rewrite (run_sequential_disk run files d Hrun).
           destruct (fst _); reflexivity.
      * rewrite (batch_stops_at_discovery W origin target_root filetype true
                   multiprocessing d ft e Hft Hfiles). reflexivity.
    + rewrite (batch_stops_at_filetype W origin target_root filetype true
                 multiprocessing d e Hft). reflexivity.
Qed.

(** A file that decodes and reaches the lookup: the task raises
    [TypeError] and the batch writes nothing. *)
Lemma anonymous_mode_never_writes_witness :
  _get_export_file_path (Samples.gray "MONOCHROME2" 1 2 [0; 1; 2])
    ["/"; "d"; "a.dcm"] ["/"; "out"] "bmp" true None = Raise TypeError /\
  snd (_dicom_convertor Samples.world_ok (OneOrigin "/d") (Some "/out") None
         true false empty_disk) = empty_disk.
Proof.
  split.
  - apply (proj1 (anonymous_mode_never_writes Samples.world_ok)).
  - apply (proj2 (proj2 (proj2 (anonymous_mode_never_writes Samples.world_ok)))).
Defined.

(* ================================================================== *)
(** ** The pipeline and the batch on the sample inputs *)

(** Center 128, width 256, slope 1, intercept 0: the samples 0, 128 and
    256 come out as 0, 127 and 255. *)
Example window_128_256 :
  _pixel_process Samples.lut_unchanged Samples.lut_unchanged
    (Samples.gray "MONOCHROME2" 128 256 [0; 128; 256]) (Samples.row [0; 128; 256])
  = Ok (mk_ndarray [1%nat; 3%nat] [U8 0; U8 127; U8 255]).
Proof. vm_compute. reflexivity. Qed.

(** A directory with a nested directory and a file of another type, next
    to a single file: the upper-case suffix is found, the text file is
    not. *)
Example discover_tree :
  _get_root_get_dicom_file_list Samples.fs_tree (ManyOrigins ["/d"; "/e.dcm"]) None
  = Ok (["/"],
        [["/"; "d"; "a.dcm"]; ["/"; "d"; "b.dcm"]; ["/"; "d"; "sub"; "x.DCM"];
         ["/"; "e.dcm"]]).
Proof. vm_compute. reflexivity. Qed.

Example discover_rejects_other_suffix :
  _get_root_get_dicom_file_list Samples.fs_tree (ManyOrigins ["/d"; "/e.txt"]) None
  = Raise (Exception_ "Input file type should be a DICOM file").
Proof. vm_compute. reflexivity. Qed.

Example discover_rejects_missing_path :
  _get_root_get_dicom_file_list Samples.fs_tree (OneOrigin "/missing") (Some "/out")
  = Raise (OSError "File or folder '/missing' does not exist").
Proof. vm_compute. reflexivity. Qed.

(** Five frames are skipped and nothing is written. *)
Example frames_are_skipped :
  _ds_to_file
    (mk_World Samples.fs_abc (fun _ => Ok Samples.frames)
       Samples.lut_unchanged Samples.lut_unchanged
       (fun _ => Ok tt) (fun _ _ _ => Ok true))
    ["/"; "d"; "a.dcm"] ["/"; "out"] "bmp" false None empty_disk
  = (Ok (RvMsg (skip_message ["/"; "d"; "a.dcm"]
                  "Multiframe images are currently not supported")),
     empty_disk).
Proof. vm_compute. reflexivity. Qed.

(* ================================================================== *)
(** * Further properties *)

(** ** Comparisons and special values of floats *)

Lemma SFcompare_antisym (x y : F64.float) :
  SFcompare y x = match SFcompare x y with
                  | Some c => Some (CompOpp c)
                  | None => None
                  end.
Proof.
  destruct x as [sx | sx | | sx mx ex], y as [sy | sy | | sy my ey];
    simpl; try reflexivity;
    try (destruct sx; reflexivity); try (destruct sy; reflexivity);
    try (destruct sx, sy; reflexivity).
  destruct sx, sy; simpl; try reflexivity.
  - rewrite (Z.compare_antisym ex ey).
    destruct (ex ?= ey); simpl; try reflexivity.
    rewrite (Pos.compare_cont_antisym mx my Eq). reflexivity.
  - rewrite (Z.compare_antisym ex ey).
    destruct (ex ?= ey); simpl; try reflexivity.
    rewrite (Pos.compare_cont_antisym mx my Eq). reflexivity.
Qed.

(** Two numbers are always comparable. *)
Lemma leb_false_ltb (x y : F64.float) :
  is_number x -> is_number y -> F64.leb x y = false -> F64.ltb y x = true.
Proof.
  unfold is_number, F64.leb, F64.ltb, SFleb, SFltb. intros Hx Hy.
  rewrite (SFcompare_antisym x y).
  destruct (SFcompare x y) as [[| |] |] eqn:Hc; simpl; intros H;
    try discriminate; try reflexivity.
  destruct x, y; simpl in *; try discriminate; destruct s; discriminate.
Qed.

Lemma ltb_leb (x y : F64.float) : F64.ltb x y = true -> F64.leb x y = true.
Proof.
  unfold F64.leb, F64.ltb, SFleb, SFltb.
  destruct (SFcompare x y) as [[| |] |]; intros H; try discriminate; reflexivity.
Qed.

Lemma leb_false_leb (x y : F64.float) :
  is_number x -> is_number y -> F64.leb x y = false -> F64.leb y x = true.
Proof. intros Hx Hy H. apply ltb_leb. now apply leb_false_ltb. Qed.

Lemma is_nan_true (x : F64.float) : F64.is_nan x = true -> x = F64.nan.
Proof. destruct x; simpl; intros H; try discriminate; reflexivity. Qed.

Lemma sub_nan_r (x : F64.float) : F64.sub x F64.nan = F64.nan.
Proof. destruct x; reflexivity. Qed.

Lemma add_nan_r (x : F64.float) : F64.add x F64.nan = F64.nan.
Proof. destruct x; reflexivity. Qed.

Lemma mul_nan_r (x : F64.float) : F64.mul x F64.nan = F64.nan.
Proof. destruct x; reflexivity. Qed.

Lemma fmin_nan_r (acc : F64.float) : F64.fmin acc F64.nan = F64.nan.
Proof. destruct acc; reflexivity. Qed.

Lemma fmax_nan_r (acc : F64.float) : F64.fmax acc F64.nan = F64.nan.
Proof. destruct acc; reflexivity. Qed.

Lemma fold_fmin_nan (l : list F64.float) : fold_left F64.fmin l F64.nan = F64.nan.
Proof. induction l as [| x l IH]; simpl; [reflexivity | exact IH]. Qed.

Lemma fmax_nan_l (x : F64.float) : F64.fmax F64.nan x = F64.nan.
Proof. destruct x; reflexivity. Qed.

Lemma fold_fmax_nan (l : list F64.float) : fold_left F64.fmax l F64.nan = F64.nan.
Proof.
  induction l as [| x l IH]; cbn [fold_left]; [reflexivity |].
  rewrite fmax_nan_l. exact IH.
Qed.

Lemma fold_fmin_has_nan (l : list F64.float) (x : F64.float) :
  In F64.nan (x :: l) -> fold_left F64.fmin l x = F64.nan.
Proof.
  revert x. induction l as [| y l IH]; intros x [H | H]; simpl.
  - now symmetry.
  - destruct H.
  - subst x. apply fold_fmin_nan.
  - destruct H as [H | H].
    + subst y. rewrite fmin_nan_r. apply fold_fmin_nan.
    + apply IH. right. exact H.
Qed.

Lemma fold_fmax_has_nan (l : list F64.float) (x : F64.float) :
  In F64.nan (x :: l) -> fold_left F64.fmax l x = F64.nan.
Proof.
  revert x. induction l as [| y l IH]; intros x [H | H]; cbn [fold_left].
  - now symmetry.
  - destruct H.
  - subst x. rewrite fmax_nan_l. apply fold_fmax_nan.
  - destruct H as [H | H].
    + subst y. rewrite fmax_nan_r. apply fold_fmax_nan.
    + apply IH. right. exact H.
Qed.

Lemma amin_has_nan (a : ndarray F64.float) :
  In F64.nan (data a) -> amin a = Ok F64.nan.
Proof.
  unfold amin. destruct (data a) as [| x l]; [intros [] |].
  intros H. now rewrite fold_fmin_has_nan.
Qed.

Lemma amax_has_nan (a : ndarray F64.float) :
  In F64.nan (data a) -> amax a = Ok F64.nan.
Proof.
  unfold amax. destruct (data a) as [| x l]; [intros [] |].
  intros H. now rewrite fold_fmax_has_nan.
Qed.


Lemma div_eucl_multiple (m : positive) (k : Z) :
  Z.div_eucl (Z.pos m * k) (Z.pos m) = (k, 0).
Proof.
  destruct (Z.div_eucl (Z.pos m * k) (Z.pos m)) as [q r] eqn:E.
  assert (Hq : q = Z.pos m * k / Z.pos m) by (unfold Z.div; now rewrite E).
  assert (Hr : r = (Z.pos m * k) mod Z.pos m) by (unfold Z.modulo; now rewrite E).
  rewrite (Z.mul_comm (Z.pos m) k) in Hq, Hr.
  rewrite Z.div_mul in Hq by discriminate.
  rewrite Z.mod_mul in Hr by discriminate.
  now subst.
Qed.

(** A finite non-zero float divided by itself is exactly 1. *)
Lemma div_same_finite (s : bool) (m : positive) (e : Z) :
  F64.div (S754_finite s m e) (S754_finite s m e) = one.
Proof.
  unfold F64.div, SFdiv, SFdiv_core_binary.
  rewrite !Z.sub_diag.
  change (Z.min (fexp F64.prec F64.emax 0) 0) with (-53).
  change (0 - -53) with 53.
  cbv iota.
  rewrite Z.shiftl_mul_pow2 by lia.
  rewrite div_eucl_multiple.
  assert (Hloc : new_location (Z.pos m) 0 = loc_Exact).
  { unfold new_location. destruct (Z.even (Z.pos m)); reflexivity. }
  rewrite Hloc. destruct s; vm_compute; reflexivity.
Qed.

Lemma fold_fmin_in (l : list F64.float) (x : F64.float) :
  In (fold_left F64.fmin l x) (x :: l).
Proof.
  revert x. induction l as [| y l IH]; intros x; cbn [fold_left].
  - left. reflexivity.
  - destruct (IH (F64.fmin x y)) as [H | H].
    + unfold F64.fmin in H at 1.
      destruct (F64.leb x y || F64.is_nan x); [left | right; left]; exact H.
    + right. right. exact H.
Qed.

Lemma fold_fmax_in (l : list F64.float) (x : F64.float) :
  In (fold_left F64.fmax l x) (x :: l).
Proof.
  revert x. induction l as [| y l IH]; intros x; cbn [fold_left].
  - left. reflexivity.
  - destruct (IH (F64.fmax x y)) as [H | H].
    + unfold F64.fmax in H at 1.
      destruct (F64.leb y x || F64.is_nan x); [left | right; left]; exact H.
    + right. right. exact H.
Qed.

Lemma amin_in (a : ndarray F64.float) (lo : F64.float) :
  amin a = Ok lo -> In lo (data a).
Proof.
  unfold amin. destruct (data a) as [| x l]; [discriminate |].
  intros H. injection H as <-. apply fold_fmin_in.
Qed.

Lemma amax_in (a : ndarray F64.float) (hi : F64.float) :
  amax a = Ok hi -> In hi (data a).
Proof.
  unfold amax. destruct (data a) as [| x l]; [discriminate |].
  intros H. injection H as <-. apply fold_fmax_in.
Qed.

(** ** The pixel pipeline beyond the claims *)

Lemma _pixel_process_tail
    (apply_modality_lut apply_voi_lut :
       ndarray F64.float -> Dataset -> result (ndarray F64.float))
    (ds : Dataset) (a : ndarray F64.float) :
  _pixel_process apply_modality_lut apply_voi_lut ds a
  = (a1 <- modality_step apply_modality_lut ds a ;;
     a2 <- voi_step apply_voi_lut ds a1 ;;
     present_and_quantize ds a2).
Proof. reflexivity. Qed.

Lemma normalize_with_nan (a : ndarray F64.float) :
  In F64.nan (data a) ->
  presentation_normalize a = Ok (nd_map (fun _ => F64.nan) a).
Proof.
  intros H. unfold presentation_normalize.
  rewrite (amin_has_nan a H), (amax_has_nan a H). cbn [rbind].
  unfold nd_map. f_equal. f_equal. apply map_ext. intros x.
  rewrite sub_nan_r. reflexivity.
Qed.

Lemma in_map_const {A B : Type} (c : B) (l : list A) :
  l <> [] -> In c (map (fun _ => c) l).
Proof. destruct l; [congruence | intros _; left; reflexivity]. Qed.

Lemma present_and_quantize_nan (ds : Dataset) (a : ndarray F64.float) :
  In F64.nan (data a) ->
  present_and_quantize ds a = Ok (nd_map (fun _ => U8 0) a).
Proof.
  intros H. unfold present_and_quantize.
  rewrite (normalize_with_nan a H). cbn [rbind].
  assert (Hne : data a <> []) by (destruct (data a); [destruct H | discriminate]).
  unfold photometric_invert.
  destruct (tag_is (PhotometricInterpretation ds) "MONOCHROME1").
  - rewrite amax_has_nan by (cbn [nd_map data]; now apply in_map_const).
    cbn [rbind]. unfold nd_map. cbn [shape data]. rewrite !map_map. reflexivity.
  - cbn [rbind]. unfold nd_map. cbn [shape data]. rewrite map_map. reflexivity.
Qed.

(** X5: one NaN sample spoils the whole image.  If the array handed to
    lines 68-77 holds a NaN, its minimum and maximum are NaN, every
    normalized sample is NaN, and every output sample is the result of
    casting NaN, the byte 0, whatever the photometric interpretation.  On
    the path through rescale slope and intercept and the window tags, a
    NaN among the raw samples has this effect on the whole pipeline. *)
Theorem nan_sample_spoils_image
    (apply_modality_lut apply_voi_lut :
       ndarray F64.float -> Dataset -> result (ndarray F64.float))
    (ds : Dataset) (a : ndarray F64.float) :
  In F64.nan (data a) ->
  amin a = Ok F64.nan /\ amax a = Ok F64.nan /\
  presentation_normalize a = Ok (nd_map (fun _ => F64.nan) a) /\
  present_and_quantize ds a = Ok (nd_map (fun _ => U8 0) a) /\
  (forall slope intercept wc ww c w,
     RescaleSlope ds = Some slope ->
     RescaleIntercept ds = Some intercept ->
     tag_is (VOILUTFunction ds) "SIGMOID" = false ->
     WindowCenter ds = Some wc -> WindowWidth ds = Some ww ->
     resolves_to wc c -> resolves_to ww w ->
     _pixel_process apply_modality_lut apply_voi_lut ds a
       = Ok (nd_map (fun _ => U8 0) a)).
Proof.
  intros H.
  split; [now apply amin_has_nan |]. split; [now apply amax_has_nan |].
  split; [now apply normalize_with_nan |].
  split; [now apply present_and_quantize_nan |].
  intros slope intercept wc ww c w Hs Hi Hsig Hwc Hww Hc Hw.
  assert (Hne : data a <> []) by (destruct (data a); [destruct H | discriminate]).
  rewrite _pixel_process_tail. unfold modality_step. rewrite Hs, Hi. cbn [rbind].
  set (a1 := nd_map (fun x => F64.add (F64.mul x slope) intercept) a).
  assert (H1 : In F64.nan (data a1)).
  { unfold a1. cbn [nd_map data]. apply in_map_iff. exists F64.nan.
    split; [| exact H]. destruct slope, intercept; reflexivity. }
  unfold voi_step. rewrite Hsig, Hwc, Hww.
  rewrite (first_float_resolves _ _ Hc), (first_float_resolves _ _ Hw).
  cbn [rbind]. unfold _get_LUT_value_LINEAR_EXACT.
  rewrite (amin_has_nan a1 H1), (amax_has_nan a1 H1). cbn [rbind].
  assert (Hall : nd_map (LINEAR_EXACT_sample w c F64.nan F64.nan) a1
                 = nd_map (fun _ => F64.nan) a1).
  { unfold nd_map. f_equal. apply map_ext. intros x.
    rewrite LINEAR_EXACT_sample_by_priority. unfold window_sample_by_priority.
    destruct (F64.gtb x (F64.add c (F64.div w two))); [reflexivity |].
    destruct (F64.leb x (F64.sub c (F64.div w two))); [reflexivity |].
    apply add_nan_r. }
  rewrite Hall.
  rewrite present_and_quantize_nan.
  - unfold a1, nd_map. cbn [shape data]. rewrite !map_map. reflexivity.
  - cbn [nd_map data]. apply in_map_const. unfold a1. cbn [nd_map data].
    destruct (data a); [congruence | discriminate].
Qed.

(** The row [1, NaN, 3] comes out as the cast of NaN in all three samples. *)
Lemma nan_sample_spoils_image_witness :
  present_and_quantize (Samples.gray "MONOCHROME1" 1 2 [0; 1; 2]) MoreSamples.nan_row
  = Ok (mk_ndarray [1%nat; 3%nat] [U8 0; U8 0; U8 0]).
Proof.
  apply (nan_sample_spoils_image Samples.lut_unchanged Samples.lut_unchanged
           (Samples.gray "MONOCHROME1" 1 2 [0; 1; 2]) MoreSamples.nan_row).
  right. left. reflexivity.
Defined.

Lemma sub_same_number (x : F64.float) :
  (exists s, x = S754_zero s) \/ (exists s m e, x = S754_finite s m e) ->
  F64.sub x x = S754_zero false.
Proof.
  intros [[s ->] | [s [m [e ->]]]]; unfold F64.sub; simpl.
  - destruct s; reflexivity.
  - rewrite Z.sub_diag. reflexivity.
Qed.

Lemma finite_difference_operands (hi lo : F64.float) (s : bool) (m : positive)
    (e : Z) :
  F64.sub hi lo = S754_finite s m e ->
  (exists s0, lo = S754_zero s0) \/ (exists s0 m0 e0, lo = S754_finite s0 m0 e0).
Proof.
  unfold F64.sub.
  destruct hi as [sh | sh | | sh mh eh], lo as [sl | sl | | sl ml el];
    simpl; intros H; try discriminate H;
    try (left; eexists; reflexivity);
    try (right; do 3 eexists; reflexivity);
    destruct sh, sl; discriminate H.
Qed.

(** X6: as long as the range [max - min] of the array is a finite,
    non-zero float, presentation normalization returns, every sample that
    is the minimum is normalized to zero and quantized to 0, and every
    sample that is the maximum is normalized to exactly 255 and quantized
    to 255; the minimum and the maximum are samples of the array. *)
Theorem normalization_endpoints (a : ndarray F64.float) (lo hi : F64.float)
    (s : bool) (m : positive) (e : Z) :
  amin a = Ok lo ->
  amax a = Ok hi ->
  F64.sub hi lo = S754_finite s m e ->
  In lo (data a) /\ In hi (data a) /\
  exists p,
    presentation_normalize a = Ok p /\
    (forall i, nth_error (data a) i = Some lo ->
       nth_error (data p) i = Some (S754_zero s) /\
       nth_error (data (nd_map astype_uint8 p)) i = Some (U8 0)) /\
    (forall i, nth_error (data a) i = Some hi ->
       nth_error (data p) i = Some c255 /\
       nth_error (data (nd_map astype_uint8 p)) i = Some (U8 255)).
Proof.
  intros Hlo Hhi Hd.
  split; [now apply amin_in |]. split; [now apply amax_in |].
  unfold presentation_normalize. rewrite Hlo, Hhi. cbn [rbind].
  eexists. split; [reflexivity |].
  cbn [nd_map data]. split; intros i Hi.
  - rewrite map_map, !nth_error_map, Hi. cbn [option_map].
    rewrite (sub_same_number lo (finite_difference_operands hi lo s m e Hd)), Hd.
    split; f_equal; destruct s; reflexivity.
  - rewrite map_map, !nth_error_map, Hi. cbn [option_map].
    rewrite Hd, div_same_finite. split; f_equal; vm_compute; reflexivity.
Qed.

(** The row [0, 1, 2]: range 2. *)
Lemma normalization_endpoints_witness :
  exists p,
    presentation_normalize (Samples.row [0; 1; 2]) = Ok p /\
    (forall i, nth_error (data (Samples.row [0; 1; 2])) i = Some (F64.of_Z 0) ->
       nth_error (data p) i = Some (S754_zero false) /\
       nth_error (data (nd_map astype_uint8 p)) i = Some (U8 0)) /\
    (forall i, nth_error (data (Samples.row [0; 1; 2])) i = Some (F64.of_Z 2) ->
       nth_error (data p) i = Some c255 /\
       nth_error (data (nd_map astype_uint8 p)) i = Some (U8 255)).
Proof.
  apply (normalization_endpoints (Samples.row [0; 1; 2]) (F64.of_Z 0) (F64.of_Z 2)
           false 4503599627370496%positive (-51)); vm_compute; reflexivity.
Defined.

(** X7: a zero-size array cannot be normalized: [min()] raises
    [ValueError] in lines 68-77, and on the path through rescale slope and
    intercept and the window tags the whole pipeline raises it (from the
    [min()] of the windowing function). *)
Theorem empty_array_raises_ValueError
    (apply_modality_lut apply_voi_lut :
       ndarray F64.float -> Dataset -> result (ndarray F64.float))
    (ds : Dataset) (a : ndarray F64.float) :
  data a = [] ->
  presentation_normalize a = Raise ValueError /\
  present_and_quantize ds a = Raise ValueError /\
  (forall w c, _get_LUT_value_LINEAR_EXACT a w c = Raise ValueError) /\
  (forall slope intercept wc ww c w,
     RescaleSlope ds = Some slope ->
     RescaleIntercept ds = Some intercept ->
     tag_is (VOILUTFunction ds) "SIGMOID" = false ->
     WindowCenter ds = Some wc -> WindowWidth ds = Some ww ->
     resolves_to wc c -> resolves_to ww w ->
     _pixel_process apply_modality_lut apply_voi_lut ds a = Raise ValueError).
Proof.
  intros He.
  assert (Hmin : amin a = Raise ValueError) by (unfold amin; now rewrite He).
  assert (Hn : presentation_normalize a = Raise ValueError).
  { unfold presentation_normalize. now rewrite Hmin. }
  split; [exact Hn |].
  split; [unfold present_and_quantize; now rewrite Hn |].
  split; [intros w c; unfold _get_LUT_value_LINEAR_EXACT; now rewrite Hmin |].
  intros slope intercept wc ww c w Hs Hi Hsig Hwc Hww Hc Hw.
  rewrite _pixel_process_tail. unfold modality_step. rewrite Hs, Hi. cbn [rbind].
  unfold voi_step. rewrite Hsig, Hwc, Hww.
  rewrite (first_float_resolves _ _ Hc), (first_float_resolves _ _ Hw).
  cbn [rbind]. unfold _get_LUT_value_LINEAR_EXACT, amin.
  cbn [nd_map data]. rewrite He. reflexivity.
Qed.

(** An array of zero rows. *)
Lemma empty_array_raises_ValueError_witness :
  _pixel_process Samples.lut_unchanged Samples.lut_unchanged
    (Samples.gray "MONOCHROME2" 1 2 []) MoreSamples.empty_array
  = Raise ValueError.
Proof.
  apply (empty_array_raises_ValueError Samples.lut_unchanged Samples.lut_unchanged
           (Samples.gray "MONOCHROME2" 1 2 []) MoreSamples.empty_array eq_refl)
    with (slope := F64.of_Z 1) (intercept := F64.of_Z 0)
         (wc := Scalar (F64.of_Z 1)) (ww := Scalar (F64.of_Z 2))
         (c := F64.of_Z 1) (w := F64.of_Z 2);
    try reflexivity; left; reflexivity.
Defined.

(* ================================================================== *)
(** ** The normalized windowing functions *)

Lemma clip_range (x : F64.float) :
  clip (F64.of_Z 0) (F64.of_Z 255) x = F64.nan \/
  within (F64.of_Z 0) (F64.of_Z 255) (clip (F64.of_Z 0) (F64.of_Z 255) x).
Proof.
  unfold clip, within.
  set (t := F64.fmax x (F64.of_Z 0)).
  assert (Ht : t = F64.nan \/ F64.leb (F64.of_Z 0) t = true).
  { unfold t, F64.fmax.
    destruct (F64.leb (F64.of_Z 0) x) eqn:H0; cbn [orb].
    - right. exact H0.
    - destruct (F64.is_nan x) eqn:Hn.
      + left. now apply is_nan_true.
      + right. reflexivity. }
  unfold F64.fmin.
  replace (F64.is_nan (F64.of_Z 255)) with false by reflexivity.
  rewrite orb_false_r.
  destruct (F64.leb (F64.of_Z 255) t) eqn:H255.
  - right. split; reflexivity.
  - destruct Ht as [Ht | Ht]; [left; exact Ht |].
    right. split; [exact Ht |].
    apply leb_false_leb; [reflexivity | | exact H255].
    unfold is_number. destruct t; try reflexivity. discriminate Ht.
Qed.

(** X8: [_get_LUT_value_LINEAR_EXACT_normalized] keeps the shape of its
    input and every sample it returns is either NaN or lies between 0 and
    255; a sample above the window is mapped to exactly 255 whatever the
    window. *)
Theorem LINEAR_EXACT_normalized_in_display_range (a : ndarray F64.float)
    (window level : F64.float) :
  let out := _get_LUT_value_LINEAR_EXACT_normalized a window level in
  shape out = shape a /\
  List.length (data out) = List.length (data a) /\
  (forall y, In y (data out) ->
     y = F64.nan \/ within (F64.of_Z 0) (F64.of_Z 255) y) /\
  (forall i x,
     nth_error (data a) i = Some x ->
     F64.gtb x (F64.add level (F64.div window two)) = true ->
     nth_error (data out) i = Some (F64.of_Z 255)).
Proof.
  cbv zeta. unfold _get_LUT_value_LINEAR_EXACT_normalized. cbn [nd_map shape data].
  split; [reflexivity |]. split; [apply length_map |]. split.
  - intros y Hy. apply in_map_iff in Hy. destruct Hy as [x [<- _]].
    apply clip_range.
  - intros i x Hi Hgt. rewrite nth_error_map, Hi. cbn [option_map]. f_equal.
    unfold LINEAR_EXACT_normalized_sample, piecewise3. rewrite Hgt.
    rewrite orb_true_r. cbn [negb].
    destruct (F64.leb x (F64.sub level (F64.div window two))); reflexivity.
Qed.

Lemma compare_zero_sign (x : F64.float) (s s' : bool) :
  SFcompare x (S754_zero s) = SFcompare x (S754_zero s') /\
  SFcompare (S754_zero s) x = SFcompare (S754_zero s') x.
Proof. destruct x; split; reflexivity. Qed.

Lemma leb_sub_zero (x t : F64.float) :
  F64.leb x (F64.sub t (S754_zero false)) = F64.leb x t.
Proof.
  unfold F64.leb, SFleb.
  destruct t as [s | s | | s m e]; try reflexivity.
  replace (F64.sub (S754_zero s) (S754_zero false))
    with (S754_zero (if s then true else false)) by (destruct s; reflexivity).
  now rewrite (proj1 (compare_zero_sign x (if s then true else false) s)).
Qed.

Lemma gtb_add_zero (x t : F64.float) :
  F64.gtb x (F64.add t (S754_zero false)) = F64.gtb x t.
Proof.
  unfold F64.gtb, F64.ltb, SFltb.
  destruct t as [s | s | | s m e]; try reflexivity.
  replace (F64.add (S754_zero s) (S754_zero false))
    with (S754_zero false) by (destruct s; reflexivity).
  now rewrite (proj2 (compare_zero_sign x false s)).
Qed.

(** X9: with a window width of 1 [_get_LUT_value_LINEAR_normalized] is a
    threshold at [level - 0.5]: every sample that is a number comes out as
    255 if it is greater than [level - 0.5] and as 0 otherwise, so the
    division by [window - 1 = 0] of the in-between formula is never
    reached for a number. *)
Theorem LINEAR_normalized_width_one_is_threshold (level x : F64.float) :
  is_number x ->
  is_number (F64.sub level half) ->
  LINEAR_normalized_sample one level x
  = if F64.gtb x (F64.sub level half) then F64.of_Z 255 else F64.of_Z 0.
Proof.
  intros Hx Ht. unfold LINEAR_normalized_sample, piecewise3.
  replace (F64.div (F64.sub one one) two) with (S754_zero false) by reflexivity.
  rewrite leb_sub_zero, gtb_add_zero.
  destruct (F64.gtb x (F64.sub level half)) eqn:G.
  - rewrite orb_true_r. reflexivity.
  - destruct (F64.leb x (F64.sub level half)) eqn:L; [reflexivity |].
    exfalso. unfold F64.gtb in G.
    rewrite (leb_false_ltb x (F64.sub level half) Hx Ht L) in G. discriminate G.
Qed.

(** Level 128: the samples 127 and 128 fall on the two sides of 127.5. *)
Lemma LINEAR_normalized_width_one_is_threshold_witness :
  LINEAR_normalized_sample one (F64.of_Z 128) (F64.of_Z 127) = F64.of_Z 0 /\
  LINEAR_normalized_sample one (F64.of_Z 128) (F64.of_Z 128) = F64.of_Z 255.
Proof.
  split.
  - rewrite (LINEAR_normalized_width_one_is_threshold (F64.of_Z 128) (F64.of_Z 127));
      reflexivity.
  - rewrite (LINEAR_normalized_width_one_is_threshold (F64.of_Z 128) (F64.of_Z 128));
      reflexivity.
Defined.

(* ================================================================== *)
(** ** Channel reordering is its own inverse *)

Section SwapTwice.

Context {A : Type}.

Lemma firstn_skipn_exact (l1 l2 : list A) (n : nat) :
  List.length l1 = n -> firstn n (l1 ++ l2) = l1 /\ skipn n (l1 ++ l2) = l2.
Proof.
  revert n. induction l1 as [| x l1 IH]; intros n Hn; simpl in Hn; subst n.
  - split; reflexivity.
  - destruct (IH (List.length l1) eq_refl) as [H1 H2]. simpl.
    rewrite H1, H2. split; reflexivity.
Qed.

Lemma swap_blocks_0_2_twice (b : nat) (chunk : list A) :
  (3 * b <= List.length chunk)%nat ->
  swap_blocks_0_2 b (swap_blocks_0_2 b chunk) = chunk.
Proof.
  intros Hlen.
  set (b0 := firstn b chunk).
  set (b1 := firstn b (skipn b chunk)).
  set (b2 := firstn b (skipn b (skipn b chunk))).
  set (r3 := skipn b (skipn b (skipn b chunk))).
  assert (L0 : List.length b0 = b).
  { unfold b0. rewrite length_firstn. lia. }
  assert (L1 : List.length b1 = b).
  { unfold b1. rewrite length_firstn, length_skipn. lia. }
  assert (L2 : List.length b2 = b).
  { unfold b2. rewrite length_firstn, !length_skipn. lia. }
  assert (Hc : chunk = (b0 ++ b1 ++ b2 ++ r3)%list).
  { unfold b0, b1, b2, r3. now rewrite !firstn_skipn. }
  assert (Hs : swap_blocks_0_2 b chunk = (b2 ++ b1 ++ b0 ++ r3)%list) by reflexivity.
  rewrite Hs. unfold swap_blocks_0_2.
  destruct (firstn_skipn_exact b2 (b1 ++ b0 ++ r3) b L2) as [F1 S1].
  rewrite F1, S1.
  destruct (firstn_skipn_exact b1 (b0 ++ r3) b L1) as [F2 S2].
  rewrite F2, S2.
  destruct (firstn_skipn_exact b0 r3 b L0) as [F3 S3].
  rewrite F3, S3. now rewrite <- Hc.
Qed.

Lemma map_chunks_twice (f : list A -> list A) (sz n : nat) (l : list A) :
  (forall c, List.length c = sz -> List.length (f c) = sz /\ f (f c) = c) ->
  (n * sz <= List.length l)%nat ->
  map_chunks n sz f (map_chunks n sz f l) = l.
Proof.
  intros Hf. revert l. induction n as [| n IH]; intros l Hl; [reflexivity |].
  cbn [map_chunks].
  assert (Lc : List.length (firstn sz l) = sz).
  { rewrite length_firstn. simpl in Hl. lia. }
  destruct (Hf (firstn sz l) Lc) as [Lf Hff].
  destruct (firstn_skipn_exact (f (firstn sz l))
              (map_chunks n sz f (skipn sz l)) sz Lf) as [F S].
  rewrite F, S, Hff, IH.
  - apply firstn_skipn.
  - rewrite length_skipn. simpl in Hl. lia.
Qed.

(** X10: reordering the channels twice gives the array back: on an array
    whose buffer holds what its shape announces, a second application of
    line 171 to the result of the first returns the original array (and a
    first application that raises [IndexError] left nothing to undo). *)
Theorem swap_axis2_0_2_twice (a b : ndarray A) :
  List.length (data a) = size_of (shape a) ->
  swap_axis2_0_2 a = Ok b ->
  swap_axis2_0_2 b = Ok a.
Proof.
  intros Hwf. unfold swap_axis2_0_2.
  destruct a as [sh dat]. cbn [shape data] in *.
  destruct sh as [| d0 [| d1 [| d2 rest]]]; try discriminate.
  destruct (3 <=? d2)%nat eqn:Hd; [| discriminate].
  intros H. injection H as <-. cbn [shape data]. rewrite Hd.
  f_equal. f_equal.
  apply Nat.leb_le in Hd.
  apply map_chunks_twice.
  - intros c Hc. split; [now rewrite swap_blocks_0_2_length |].
    apply swap_blocks_0_2_twice. rewrite Hc. nia.
  - rewrite Hwf. cbn [size_of fold_right]. fold (size_of rest). nia.
Qed.

End SwapTwice.

(** The reordered RGB sample, reordered again. *)
Lemma swap_axis2_0_2_twice_witness :
  swap_axis2_0_2
    (mk_ndarray [1%nat; 2%nat; 3%nat] [U8 255; U8 51; U8 0; U8 153; U8 204; U8 102])
  = Ok (mk_ndarray [1%nat; 2%nat; 3%nat] [U8 0; U8 51; U8 255; U8 102; U8 204; U8 153]).
Proof.
  apply (swap_axis2_0_2_twice
           (mk_ndarray [1%nat; 2%nat; 3%nat]
              [U8 0; U8 51; U8 255; U8 102; U8 204; U8 153])); reflexivity.
Defined.

(* ================================================================== *)
(** ** Discovery beyond the claims *)

Lemma Path_le_antisym (p q : Path) : Path_le p q -> Path_le q p -> p = q.
Proof.
  unfold Path_le, Path_leb. rewrite (Path_compare_antisym q p).
  destruct (Path_compare p q) eqn:H; simpl; intros H1 H2; try discriminate.
  now apply Path_compare_Eq.
Qed.

Lemma sorted_perm_unique (l1 l2 : list Path) :
  StronglySorted Path_le l1 -> StronglySorted Path_le l2 ->
  Permutation l1 l2 -> l1 = l2.
Proof.
  revert l2. induction l1 as [| a l1 IH]; intros l2 S1 S2 HP.
  - apply Permutation_nil in HP. now subst.
  - destruct l2 as [| b l2].
    + apply Permutation_sym, Permutation_nil in HP. discriminate HP.
    + inversion S1 as [| ? ? S1' F1]; subst.
      inversion S2 as [| ? ? S2' F2]; subst.
      assert (Hab : a = b).
      { assert (Ha : In a (b :: l2)).
        { apply (Permutation_in a HP). left. reflexivity. }
        assert (Hb : In b (a :: l1)).
        { apply (Permutation_in b (Permutation_sym HP)). left. reflexivity. }
        destruct Ha as [Ha | Ha]; [now symmetry |].
        destruct Hb as [Hb | Hb]; [exact Hb |].
        rewrite Forall_forall in F1, F2.
        apply Path_le_antisym; [apply F1; exact Hb | apply F2; exact Ha]. }
      subst b. f_equal. apply IH; try assumption.
      apply (Permutation_cons_inv HP).
Qed.

Lemma sort_paths_of_perm (l1 l2 : list Path) :
  Permutation l1 l2 -> sort_paths l1 = sort_paths l2.
Proof.
  intros HP. apply sorted_perm_unique; try apply sort_paths_StronglySorted.
  rewrite <- (sort_paths_perm l1), <- (sort_paths_perm l2). exact HP.
Qed.

Section DiscoveryMore.

Variable fs : Path -> option fs_node.

Lemma good_origin_visits (o : Path) :
  ~ bad_origin fs o -> visit_origin fs o = Ok (contribution fs o).
Proof.
  intros Hgood. unfold contribution.
  destruct (visit_origin fs o) as [f | e] eqn:H; [reflexivity |].
  exfalso. apply Hgood. apply visit_origin_raises. exists e. exact H.
Qed.

Lemma visit_origins_good (l acc : list Path) :
  Forall (fun o => ~ bad_origin fs o) l ->
  visit_origins fs l acc = Ok (acc ++ flat_map (contribution fs) l)%list.
Proof.
  revert acc. induction l as [| o l IH]; intros acc Hall; cbn [visit_origins flat_map].
  - now rewrite app_nil_r.
  - inversion Hall as [| ? ? Ho Hrest]; subst.
    rewrite (good_origin_visits o Ho). cbn [rbind].
    rewrite (IH _ Hrest), app_assoc. reflexivity.
Qed.

Lemma visit_origins_first_bad (before after acc : list Path) (o : Path) (e : exn) :
  Forall (fun p => ~ bad_origin fs p) before ->
  visit_origin fs o = Raise e ->
  visit_origins fs (before ++ o :: after) acc = Raise e.
Proof.
  revert acc. induction before as [| b before IH]; intros acc Hall Ho;
    cbn [app visit_origins].
  - rewrite Ho. reflexivity.
  - inversion Hall as [| ? ? Hb Hrest]; subst.
    rewrite (good_origin_visits b Hb). cbn [rbind]. now apply IH.
Qed.

Lemma discover_good (l : list string) :
  Forall (fun o => ~ bad_origin fs o) (map Path_of_string l) ->
  discover fs (ManyOrigins l)
  = Ok (sort_paths (flat_map (contribution fs) (map Path_of_string l))).
Proof.
  intros H. unfold discover. cbn [origin_list_of].
  rewrite (visit_origins_good _ [] H). reflexivity.
Qed.

Lemma discover_Ok_good (origin_input : origin_arg) (r : list Path) :
  discover fs origin_input = Ok r ->
  Forall (fun o => ~ bad_origin fs o) (origin_list_of origin_input).
Proof.
  intros H. apply Forall_Exists_neg. intros Hex.
  apply discover_raises in Hex. destruct Hex as [e He]. congruence.
Qed.

(** X3: the list of files does not depend on the order in which the
    input paths are given: if discovery returns for a list of paths, it
    returns the same list of files for every rearrangement of them. *)
Theorem discover_order_independent (l1 l2 : list string) (r : list Path) :
  Permutation l1 l2 ->
  discover fs (ManyOrigins l1) = Ok r ->
  discover fs (ManyOrigins l2) = Ok r.
Proof.
  intros HP H1.
  pose proof (discover_Ok_good _ _ H1) as G1. cbn [origin_list_of] in G1.
  assert (HPm : Permutation (map Path_of_string l1) (map Path_of_string l2)).
  { apply Permutation_map. exact HP. }
  assert (G2 : Forall (fun o => ~ bad_origin fs o) (map Path_of_string l2)).
  { rewrite Forall_forall in *. intros o Ho. apply G1.
    apply (Permutation_in o (Permutation_sym HPm)). exact Ho. }
  rewrite (discover_good l1 G1) in H1. rewrite (discover_good l2 G2).
  rewrite <- H1. f_equal. apply sort_paths_of_perm.
  apply Permutation_flat_map. apply Permutation_sym. exact HPm.
Qed.

(** X4: discovery over two lists of paths put together returns the sorted
    merge of what it returns for each: nothing is dropped and nothing is
    deduplicated, so a path given twice contributes its files twice. *)
Theorem discover_of_concatenation (l1 l2 : list string) (r1 r2 : list Path) :
  discover fs (ManyOrigins l1) = Ok r1 ->
  discover fs (ManyOrigins l2) = Ok r2 ->
  discover fs (ManyOrigins (l1 ++ l2)) = Ok (sort_paths (r1 ++ r2)) /\
  Permutation (sort_paths (r1 ++ r2)) (r1 ++ r2) /\
  List.length (sort_paths (r1 ++ r2)) = (List.length r1 + List.length r2)%nat.
Proof.
  intros H1 H2.
  pose proof (discover_Ok_good _ _ H1) as G1. cbn [origin_list_of] in G1.
  pose proof (discover_Ok_good _ _ H2) as G2. cbn [origin_list_of] in G2.
  rewrite (discover_good l1 G1) in H1. injection H1 as <-.
  rewrite (discover_good l2 G2) in H2. injection H2 as <-.
  assert (G : Forall (fun o => ~ bad_origin fs o) (map Path_of_string (l1 ++ l2))).
  { rewrite map_app. apply Forall_app. split; assumption. }
  split; [| split].
  - rewrite (discover_good _ G). f_equal. apply sort_paths_of_perm.
    rewrite map_app, flat_map_app.
    apply Permutation_app; apply sort_paths_perm.
  - apply Permutation_sym, sort_paths_perm.
  - rewrite <- (Permutation_length (sort_paths_perm _)). apply length_app.
Qed.

(** X2: the input paths are checked in the order given and the first bad
    one decides the exception: a missing path raises [OSError] naming
    that path, a file with another suffix raises the DICOM-file
    exception, whatever paths come after it and whatever the earlier
    paths held. *)
Theorem discovery_stops_at_first_bad_path (origin_input : origin_arg)
    (target_root : option string) (before after : list Path) (o : Path) :
  origin_list_of origin_input = (before ++ o :: after)%list ->
  Forall (fun p => ~ bad_origin fs p) before ->
  (fs o = None ->
   _get_root_get_dicom_file_list fs origin_input target_root
   = Raise (OSError ("File or folder '" ++ Path_str o ++ "' does not exist"))) /\
  (fs o = Some FsFile -> lower (Path_suffix o) <> ".dcm" ->
   _get_root_get_dicom_file_list fs origin_input target_root
   = Raise (Exception_ "Input file type should be a DICOM file")).
Proof.
  intros Hl Hbefore.
  assert (Hgen : forall e, visit_origin fs o = Raise e ->
                 _get_root_get_dicom_file_list fs origin_input target_root = Raise e).
  { intros e He. unfold _get_root_get_dicom_file_list, discover.
    rewrite Hl, (visit_origins_first_bad before after [] o e Hbefore He).
    reflexivity. }
  split.
  - intros Hfs. apply Hgen. unfold visit_origin. rewrite Hfs. reflexivity.
  - intros Hfs Hsuf. apply Hgen. unfold visit_origin. rewrite Hfs.
    apply String.eqb_neq in Hsuf. rewrite Hsuf. reflexivity.
Qed.

End DiscoveryMore.

(** The sample tree with its two inputs exchanged. *)
Lemma discover_order_independent_witness :
  discover Samples.fs_tree (ManyOrigins ["/e.dcm"; "/d"])
  = Ok [["/"; "d"; "a.dcm"]; ["/"; "d"; "b.dcm"]; ["/"; "d"; "sub"; "x.DCM"];
        ["/"; "e.dcm"]].
Proof.
  apply (discover_order_independent Samples.fs_tree ["/d"; "/e.dcm"] ["/e.dcm"; "/d"]).
  - apply perm_swap.
  - vm_compute. reflexivity.
Defined.

(** The sample directory given twice. *)
Lemma discover_of_concatenation_witness :
  discover Samples.fs_abc (ManyOrigins ["/d"; "/d"])
  = Ok [["/"; "d"; "a.dcm"]; ["/"; "d"; "a.dcm"]; ["/"; "d"; "b.dcm"];
        ["/"; "d"; "b.dcm"]; ["/"; "d"; "c.dcm"]; ["/"; "d"; "c.dcm"]].
Proof.
  apply (discover_of_concatenation Samples.fs_abc ["/d"] ["/d"]
           [["/"; "d"; "a.dcm"]; ["/"; "d"; "b.dcm"]; ["/"; "d"; "c.dcm"]]
           [["/"; "d"; "a.dcm"]; ["/"; "d"; "b.dcm"]; ["/"; "d"; "c.dcm"]]);
    vm_compute; reflexivity.
Defined.

(** A good directory, then a missing path, then a file of another type:
    the missing path is the one reported. *)
Lemma discovery_stops_at_first_bad_path_witness :
  _get_root_get_dicom_file_list Samples.fs_tree
    (ManyOrigins ["/d"; "/missing"; "/e.txt"]) None
  = Raise (OSError "File or folder '/missing' does not exist").
Proof.
  apply (discovery_stops_at_first_bad_path Samples.fs_tree
           (ManyOrigins ["/d"; "/missing"; "/e.txt"]) None
           [["/"; "d"]] [["/"; "e.txt"]] ["/"; "missing"]).
  - reflexivity.
  - constructor; [| constructor].
    intros [H | [H _]]; vm_compute in H; discriminate H.
  - reflexivity.
Defined.

(* ================================================================== *)
(** ** The batch beyond the claims *)

(** X1: an empty list of input paths.  With a target root the batch has
    nothing to do and returns [True]; without one, the target root is
    taken from the first input path, and the batch raises [IndexError]
    (after the format has been checked). *)
Theorem batch_on_empty_input_list (W : World) (filetype : option string)
    (ft : string) (anonymous multiprocessing : bool) (d : Disk) :
  check_filetype filetype = Ok ft ->
  _dicom_convertor W (ManyOrigins []) None filetype anonymous multiprocessing d
    = (Raise IndexError, d) /\
  forall t,
    _dicom_convertor W (ManyOrigins []) (Some t) filetype anonymous multiprocessing d
    = (Ok true, d).
Proof.
  intros Hft. split.
  - apply (batch_stops_at_discovery W (ManyOrigins []) None filetype anonymous
             multiprocessing d ft IndexError Hft). reflexivity.
  - intros t.
    rewrite (_dicom_convertor_dispatch W (ManyOrigins []) (Some t) filetype anonymous
               multiprocessing d ft (Path_of_string t) [] Hft eq_refl).
    destruct multiprocessing; reflexivity.
Qed.

Lemma batch_on_empty_input_list_witness :
  _dicom_convertor Samples.world_ok (ManyOrigins []) None (Some "png") false true
    empty_disk
  = (Raise IndexError, empty_disk).
Proof.
  apply (batch_on_empty_input_list Samples.world_ok (Some "png") "png" false true
           empty_disk eq_refl).
Defined.

Lemma run_sequential_as_collect (run : Path -> task task_rv) (files : list Path)
    (d d0 : Disk) :
  (forall f d1 d2, fst (run f d1) = fst (run f d2)) ->
  fst (run_sequential run files d)
  = collect_results (map (fun f => fst (run f d0)) files).
Proof.
  intros Hout. revert d. induction files as [| f files IH]; intros d; [reflexivity |].
  cbn [run_sequential map collect_results]. unfold tbind, tret.
  rewrite (Hout f d0 d).
  destruct (run f d) as [[rv | e] d1]; cbn [fst rbind]; [| reflexivity].
  rewrite <- (IH d1).
  destruct (run_sequential run files d1) as [[rvs | e] d2]; reflexivity.
Qed.


(* ================================================================== *)
(** ** A conversion task, step by step *)

Lemma _ds_to_file_steps (W : World) (file_path target_root : Path)
    (filetype : string) (anonymous : bool)
    (patient_dict : option (list (Path * Path))) (d : Disk) :
  _ds_to_file W file_path target_root filetype anonymous patient_dict d
  = match prepare W file_path target_root filetype anonymous patient_dict with
    | Raise e => (Raise e, d)
    | Ok (inl msg) => (Ok (RvMsg msg), d)
    | Ok (inr (img, path)) =>
        match mkdir W (Path_parent path) with
        | Raise e => (Raise e, d)
        | Ok _ =>
            let d1 := mk_Disk (dirs_made d ++ [Path_parent path]) (files_written d) in
            match imwrite W (Path_str path) img (imwrite_params filetype) with
            | Raise e => (Raise e, d1)
            | Ok false => (Ok RvTrue, d1)
            | Ok true =>
                (Ok RvTrue,
                 mk_Disk (dirs_made d1) (files_written d1 ++ [(Path_str path, img)]))
            end
        end
    end.
Proof.
  unfold _ds_to_file, prepare, imwrite_params, tbind, lift, tret, do_mkdir, do_imwrite.
  destruct (dcmread W file_path) as [ds | e]; [| reflexivity]. cbn [rbind].
  destruct (_is_unsupported ds) as [[name |] | e]; try reflexivity. cbn [rbind].
  destruct (pixel_array ds) as [pa | e]; [| reflexivity]. cbn [rbind].
  destruct (is_multiframe pa); [reflexivity |].
  destruct (_pixel_process (apply_modality_lut W) (apply_voi_lut W) ds pa)
    as [img | e]; [| reflexivity]. cbn [rbind].
  destruct (channel_fixup ds img) as [img' | e]; [| reflexivity]. cbn [rbind].
  destruct (_get_export_file_path ds file_path target_root filetype anonymous
              patient_dict) as [path | e]; [| reflexivity]. cbn [rbind].
  destruct (mkdir W (Path_parent path)) as [u | e]; [| reflexivity].
  cbv zeta.
  destruct (String.eqb filetype "jpg");
    match goal with
    | |- context [imwrite W ?n ?i ?p] => destruct (imwrite W n i p) as [[|] | e]
    end; reflexivity.
Qed.

Lemma prepare_with_imwrite (W : World)
    (writer : string -> ndarray sample8 -> list Z -> result bool)
    (file_path target_root : Path) (filetype : string) (anonymous : bool)
    (patient_dict : option (list (Path * Path))) :
  prepare (with_imwrite W writer) file_path target_root filetype anonymous patient_dict
  = prepare W file_path target_root filetype anonymous patient_dict.
Proof. reflexivity. Qed.

(** What one task may add to the files on the disk: nothing, or one file
    when it returns [True]. *)
Lemma task_file_effect (W : World) (file_path target_root : Path)
    (filetype : string) (anonymous : bool)
    (patient_dict : option (list (Path * Path))) (d : Disk) :
  let r := _ds_to_file W file_path target_root filetype anonymous patient_dict d in
  files_written (snd r) = files_written d \/
  (fst r = Ok RvTrue /\
   exists name img, files_written (snd r) = (files_written d ++ [(name, img)])%list).
Proof.
  cbv zeta. rewrite _ds_to_file_steps.
  destruct (prepare W file_path target_root filetype anonymous patient_dict)
    as [[msg | [img path]] | e]; try (left; reflexivity).
  destruct (mkdir W (Path_parent path)) as [u | e]; [| left; reflexivity].
  cbv zeta.
  destruct (imwrite W (Path_str path) img (imwrite_params filetype)) as [[|] | e];
    try (left; reflexivity).
  right. split; [reflexivity |]. exists (Path_str path), img. reflexivity.
Qed.

Section FilesOfRuns.

Variable run : Path -> task task_rv.

Hypothesis run_effect :
  forall f d,
    files_written (snd (run f d)) = files_written d \/
    exists name img,
      files_written (snd (run f d)) = (files_written d ++ [(name, img)])%list.

Lemma run_effect_added (f : Path) (d : Disk) :
  exists added,
    files_written (snd (run f d)) = (files_written d ++ added)%list /\
    (List.length added <= 1)%nat.
Proof.
  destruct (run_effect f d) as [H | [name [img H]]].
  - exists []. rewrite app_nil_r. split; [exact H | simpl; lia].
  - exists [(name, img)]. split; [exact H | simpl; lia].
Qed.

Lemma run_sequential_added (files : list Path) (d : Disk) :
  exists added,
    files_written (snd (run_sequential run files d)) = (files_written d ++ added)%list /\
    (List.length added <= List.length files)%nat.
Proof.
  revert d. induction files as [| f files IH]; intros d.
  - exists []. rewrite app_nil_r. split; [reflexivity | simpl; lia].
  - cbn [run_sequential]. unfold tbind, tret.
    destruct (run_effect_added f d) as [a1 [H1 L1]].
    destruct (run f d) as [[rv | e] d1]; cbn [snd] in H1.
    + destruct (IH d1) as [a2 [H2 L2]].
      destruct (run_sequential run files d1) as [[rvs | e] d2]; cbn [snd] in *;
        exists (a1 ++ a2)%list; rewrite H2, H1, <- app_assoc, length_app;
        (split; [reflexivity | simpl; lia]).
    + cbn [snd]. exists a1. split; [exact H1 | simpl; lia].
Qed.

Lemma run_submitted_added (files : list Path) (d : Disk) :
  exists added,
    files_written (snd (run_submitted run files d)) = (files_written d ++ added)%list /\
    (List.length added <= List.length files)%nat.
Proof.
  revert d. induction files as [| f files IH]; intros d.
  - exists []. rewrite app_nil_r. split; [reflexivity | simpl; lia].
  - cbn [run_submitted].
    destruct (run_effect_added f d) as [a1 [H1 L1]].
    destruct (run f d) as [r d1]. cbn [snd] in H1.
    destruct (IH d1) as [a2 [H2 L2]].
    destruct (run_submitted run files d1) as [rs d2]. cbn [snd] in *.
    exists (a1 ++ a2)%list. rewrite H2, H1, <- app_assoc, length_app.
    split; [reflexivity | simpl; lia].
Qed.

End FilesOfRuns.

Lemma last_write_of_last (name : string) (img : ndarray sample8)
    (writes : list (string * ndarray sample8)) :
  last_write name (writes ++ [(name, img)])%list = Some img.
Proof.
  induction writes as [| [n i] writes IH]; cbn [app last_write].
  - rewrite String.eqb_refl. reflexivity.
  - rewrite IH. reflexivity.
Qed.

Lemma nodup_app_length (l l' : list string) :
  (List.length (nodup string_dec (l ++ l'))
   <= List.length (nodup string_dec l) + List.length l')%nat.
Proof.
  induction l as [| x l IH]; cbn [app nodup].
  - cbn [List.length Nat.add].
    induction l' as [| y l' IH']; cbn [nodup List.length]; [lia |].
    destruct (in_dec string_dec y l'); cbn [List.length]; lia.
  - destruct (in_dec string_dec x (l ++ l')) as [Hin | Hnin];
      destruct (in_dec string_dec x l) as [Hin' | Hnin']; cbn [List.length]; try lia.
    exfalso. apply Hnin. apply in_or_app. left. exact Hin'.
Qed.

Lemma names_after_writes (d d' : Disk) (added : list (string * ndarray sample8))
    (n : nat) :
  files_written d' = (files_written d ++ added)%list ->
  (List.length added <= n)%nat ->
  (List.length (files_written d') <= List.length (files_written d) + n)%nat /\
  (List.length (names_on_disk d') <= List.length (names_on_disk d) + n)%nat.
Proof.
  intros H L. unfold names_on_disk. rewrite H, length_app, map_app. split; [lia |].
  pose proof (nodup_app_length (map fst (files_written d)) (map fst added)) as Hn.
  rewrite length_map in Hn. lia.
Qed.

(** X13: a task performs a write only when it returns [True], and then
    exactly one: the file of that name holds the image of this write,
    whatever it held before.  Hence a batch over the discovered files
    performs at most one write per discovered input, in either mode, and
    leaves at most that many new file names. *)
Theorem at_most_one_write_per_input (W : World) (origin : origin_arg)
    (target_root filetype : option string) (anonymous multiprocessing : bool)
    (d : Disk) (ft : string) (root : Path) (files : list Path) :
  check_filetype filetype = Ok ft ->
  _get_root_get_dicom_file_list (fs_lookup W) origin target_root = Ok (root, files) ->
  (forall f d1,
     let r := _ds_to_file W f root ft anonymous None d1 in
     files_written (snd r) = files_written d1 \/
     (fst r = Ok RvTrue /\
      exists name img,
        files_written (snd r) = (files_written d1 ++ [(name, img)])%list /\
        file_on_disk (snd r) name = Some img)) /\
  let after :=
    snd (_dicom_convertor W origin target_root filetype anonymous multiprocessing d) in
  (List.length (files_written after)
   <= List.length (files_written d) + List.length files)%nat /\
  (List.length (names_on_disk after)
   <= List.length (names_on_disk d) + List.length files)%nat.
Proof.
  intros Hft Hfiles.
  split.
  { intros f d1.
    destruct (task_file_effect W f root ft anonymous None d1)
      as [H | [Hrv [name [img H]]]]; [left; exact H | right].
    split; [exact Hrv |]. exists name, img. split; [exact H |].
    unfold file_on_disk. rewrite H. apply last_write_of_last. }
  cbv zeta.
  rewrite (_dicom_convertor_dispatch W origin target_root filetype anonymous
             multiprocessing d ft root files Hft Hfiles).
  cbv zeta. set (run := fun f => _ds_to_file W f root ft anonymous None).
  assert (Heff : forall f d1,
             files_written (snd (run f d1)) = files_written d1 \/
             exists name img,
               files_written (snd (run f d1)) = (files_written d1 ++ [(name, img)])%list).
  { intros f d1.
    destruct (task_file_effect W f root ft anonymous None d1) as [H | [_ H]];
      [left | right]; exact H. }
  destruct multiprocessing.
  - destruct (run_submitted_added run Heff files d) as [added [H L]].
    apply (names_after_writes d _ added); [| exact L].
    destruct (collect_results (fst (run_submitted run files d))); exact H.
  - destruct (run_sequential_added run Heff files d) as [added [H L]].
    apply (names_after_writes d _ added); [| exact L].
    destruct (fst (run_sequential run files d)); exact H.
Qed.

(** Three inputs, at most three writes and three names. *)
Lemma at_most_one_write_per_input_witness :
  let after :=
    snd (_dicom_convertor Samples.world_ok (OneOrigin "/d") (Some "/out") None
           false true empty_disk) in
  (List.length (files_written after) <= 0 + 3)%nat /\
  (List.length (names_on_disk after) <= 0 + 3)%nat.
Proof.
  apply (at_most_one_write_per_input Samples.world_ok (OneOrigin "/d") (Some "/out")
           None false true empty_disk "bmp" ["/"; "out"]
           [["/"; "d"; "a.dcm"]; ["/"; "d"; "b.dcm"]; ["/"; "d"; "c.dcm"]]).
  - reflexivity.
  - vm_compute. reflexivity.
Defined.

(** The three inputs of [/d] carry the same numbers: three writes land on
    the one path [/out/Ser_7.bmp], each replacing the file of the one
    before, and one file is left. *)
Example three_writes_one_file :
  let after :=
    snd (_dicom_convertor Samples.world_ok (OneOrigin "/d") (Some "/out") None
           false true empty_disk) in
  map fst (files_written after)
    = ["/out/Ser_7.bmp"; "/out/Ser_7.bmp"; "/out/Ser_7.bmp"] /\
  names_on_disk after = ["/out/Ser_7.bmp"] /\
  file_on_disk after "/out/Ser_7.bmp"
    = Some (mk_ndarray [1%nat; 3%nat] [U8 0; U8 127; U8 255]).
Proof. cbv zeta. repeat split; vm_compute; reflexivity. Qed.

Section RunsCompared.

Variables run run' : Path -> task task_rv.

Lemma run_sequential_ext (files : list Path) (d : Disk) :
  (forall f d1, run f d1 = run' f d1) ->
  run_sequential run files d = run_sequential run' files d.
Proof.
  intros H. revert d. induction files as [| f files IH]; intros d; [reflexivity |].
  cbn [run_sequential]. unfold tbind, tret. rewrite (H f d).
  destruct (run' f d) as [[rv | e] d1]; [| reflexivity]. now rewrite IH.
Qed.

Lemma run_submitted_ext (files : list Path) (d : Disk) :
  (forall f d1, run f d1 = run' f d1) ->
  run_submitted run files d = run_submitted run' files d.
Proof.
  intros H. revert d. induction files as [| f files IH]; intros d; [reflexivity |].
  cbn [run_submitted]. rewrite (H f d).
  destruct (run' f d) as [r d1]. now rewrite IH.
Qed.

Lemma run_sequential_keeps_files (files : list Path) (d : Disk) :
  (forall f d1, files_written (snd (run f d1)) = files_written d1) ->
  files_written (snd (run_sequential run files d)) = files_written d.
Proof.
  intros H. revert d. induction files as [| f files IH]; intros d; [reflexivity |].
  cbn [run_sequential]. unfold tbind, tret.
  pose proof (H f d) as Hf.
  destruct (run f d) as [[rv | e] d1]; cbn [snd] in *; [| exact Hf].
  pose proof (IH d1) as Hr.
  destruct (run_sequential run files d1) as [[rvs | e] d2]; cbn [snd] in *; congruence.
Qed.

Lemma run_submitted_keeps_files (files : list Path) (d : Disk) :
  (forall f d1, files_written (snd (run f d1)) = files_written d1) ->
  files_written (snd (run_submitted run files d)) = files_written d.
Proof.
  intros H. revert d. induction files as [| f files IH]; intros d; [reflexivity |].
  cbn [run_submitted].
  pose proof (H f d) as Hf.
  destruct (run f d) as [r d1]. cbn [snd] in Hf.
  pose proof (IH d1) as Hr.
  destruct (run_submitted run files d1) as [rs d2]. cbn [snd] in *. congruence.
Qed.

End RunsCompared.

Lemma failed_write_task (W : World) (file_path target_root : Path)
    (filetype : string) (anonymous : bool)
    (patient_dict : option (list (Path * Path))) (d d' : Disk) :
  (forall n i p, imwrite W n i p = Ok false) ->
  fst (_ds_to_file W file_path target_root filetype anonymous patient_dict d)
  = fst (_ds_to_file (with_imwrite W (fun _ _ _ => Ok true)) file_path target_root
           filetype anonymous patient_dict d') /\
  files_written
    (snd (_ds_to_file W file_path target_root filetype anonymous patient_dict d))
  = files_written d.
Proof.
  intros Hw. rewrite !_ds_to_file_steps, prepare_with_imwrite.
  cbn [with_imwrite mkdir imwrite].
  destruct (prepare W file_path target_root filetype anonymous patient_dict)
    as [[msg | [img path]] | e]; try (split; reflexivity).
  destruct (mkdir W (Path_parent path)) as [u | e]; [| split; reflexivity].
  cbv zeta. rewrite Hw. split; reflexivity.
Qed.



Lemma imwrite_params_other (filetype : string) :
  filetype <> "jpg" -> imwrite_params filetype = [].
Proof.
  intros H. unfold imwrite_params. apply String.eqb_neq in H. now rewrite H.
Qed.

Lemma task_depends_on_writer_at_params (W : World)
    (writer : string -> ndarray sample8 -> list Z -> result bool)
    (file_path target_root : Path) (filetype : string) (anonymous : bool)
    (patient_dict : option (list (Path * Path))) (d : Disk) :
  (forall n i, writer n i (imwrite_params filetype)
               = imwrite W n i (imwrite_params filetype)) ->
  _ds_to_file (with_imwrite W writer) file_path target_root filetype anonymous
    patient_dict d
  = _ds_to_file W file_path target_root filetype anonymous patient_dict d.
Proof.
  intros H. rewrite !_ds_to_file_steps, prepare_with_imwrite.
  cbn [with_imwrite mkdir imwrite].
  destruct (prepare W file_path target_root filetype anonymous patient_dict)
    as [[msg | [img path]] | e]; try reflexivity.
  destruct (mkdir W (Path_parent path)) as [u | e]; [| reflexivity].
  cbv zeta. now rewrite H.
Qed.

(** X15: JPEG quality 90 is requested for the token [jpg] and for no
    other: for every other format (jpeg and JPG included) the writer is
    called without parameters, so a task behaves the same under any two
    writers that agree on calls without parameters; for [jpg] only the
    calls with the quality parameter matter. *)
Theorem jpeg_quality_only_for_jpg (W : World)
    (writer : string -> ndarray sample8 -> list Z -> result bool)
    (file_path target_root : Path) (filetype : string) (anonymous : bool)
    (patient_dict : option (list (Path * Path))) (d : Disk) :
  (filetype <> "jpg" ->
   (forall n i, writer n i [] = imwrite W n i []) ->
   _ds_to_file (with_imwrite W writer) file_path target_root filetype anonymous
     patient_dict d
   = _ds_to_file W file_path target_root filetype anonymous patient_dict d) /\
  (filetype = "jpg" ->
   (forall n i, writer n i [IMWRITE_JPEG_QUALITY; 90]
                = imwrite W n i [IMWRITE_JPEG_QUALITY; 90]) ->
   _ds_to_file (with_imwrite W writer) file_path target_root filetype anonymous
     patient_dict d
   = _ds_to_file W file_path target_root filetype anonymous patient_dict d).
Proof.
  split.
  - intros Hft H. apply task_depends_on_writer_at_params.
    rewrite (imwrite_params_other filetype Hft). exact H.
  - intros -> H. apply task_depends_on_writer_at_params. exact H.
Qed.

(** A writer that fails whenever a quality is requested: the token jpeg
    is written all the same, the token jpg is not. *)
Lemma jpeg_quality_only_for_jpg_witness :
  _ds_to_file MoreSamples.world_no_quality ["/"; "d"; "a.dcm"] ["/"; "out"] "jpeg"
    false None empty_disk
  = _ds_to_file Samples.world_ok ["/"; "d"; "a.dcm"] ["/"; "out"] "jpeg"
      false None empty_disk /\
  files_written
    (snd (_ds_to_file MoreSamples.world_no_quality ["/"; "d"; "a.dcm"] ["/"; "out"]
            "jpg" false None empty_disk)) = [].
Proof.
  split; [| vm_compute; reflexivity].
  apply (proj1 (jpeg_quality_only_for_jpg Samples.world_ok
           (fun _ _ params => match params with [] => Ok true | _ => Ok false end)
           ["/"; "d"; "a.dcm"] ["/"; "out"] "jpeg" false None empty_disk)).
  - apply String.eqb_neq. reflexivity.
  - reflexivity.
Defined.

(* ================================================================== *)
(** ** The entry point [dicom2bmp] *)

(** X16: [dicom2bmp] never fails on the format.  A missing input path
    makes it raise [OSError] naming the path; when discovery finds no
    dataset file it returns [True] and nothing has been done to the disk
    (not even the target directory is made); and it requests no writer
    parameters, so it behaves the same under any two writers that agree
    on calls without parameters. *)
Theorem dicom2bmp_outcomes (W : World) (origin : origin_arg)
    (target_root : option string) (anonymous multiprocessing : bool) (d : Disk) :
  (forall s,
     origin = OneOrigin s ->
     fs_lookup W (Path_of_string s) = None ->
     dicom2bmp W origin target_root anonymous multiprocessing d
     = (Raise (OSError ("File or folder '" ++ Path_str (Path_of_string s)
                          ++ "' does not exist")), d)) /\
  (forall e,
     _get_root_get_dicom_file_list (fs_lookup W) origin target_root = Raise e ->
     dicom2bmp W origin target_root anonymous multiprocessing d = (Raise e, d)) /\
  (forall root,
     _get_root_get_dicom_file_list (fs_lookup W) origin target_root = Ok (root, []) ->
     dicom2bmp W origin target_root anonymous multiprocessing d = (Ok true, d)) /\
  (forall writer,
     (forall n i, writer n i [] = imwrite W n i []) ->
     dicom2bmp (with_imwrite W writer) origin target_root anonymous multiprocessing d
     = dicom2bmp W origin target_root anonymous multiprocessing d).
Proof.
  unfold dicom2bmp.
  assert (Hft : check_filetype (Some "bmp") = Ok "bmp") by reflexivity.
  split; [| split; [| split]].
  - intros s -> Hfs.
    apply (batch_stops_at_discovery W (OneOrigin s) target_root (Some "bmp") anonymous
             multiprocessing d "bmp" _ Hft).
    unfold _get_root_get_dicom_file_list, discover. cbn [origin_list_of visit_origins].
    unfold visit_origin. rewrite Hfs. reflexivity.
  - intros e He.
    apply (batch_stops_at_discovery W origin target_root (Some "bmp") anonymous
             multiprocessing d "bmp" e Hft He).
  - intros root Hroot.
    rewrite (_dicom_convertor_dispatch W origin target_root (Some "bmp") anonymous
               multiprocessing d "bmp" root [] Hft Hroot).
    destruct multiprocessing; reflexivity.
  - intros writer Hw.
    destruct (_get_root_get_dicom_file_list (fs_lookup W) origin target_root)
      as [[root files] | e] eqn:Hfiles.
    + rewrite (_dicom_convertor_dispatch W origin target_root (Some "bmp") anonymous
                 multiprocessing d "bmp" root files Hft Hfiles).
      rewrite (_dicom_convertor_dispatch (with_imwrite W writer) origin target_root
                 (Some "bmp") anonymous multiprocessing d "bmp" root files Hft Hfiles).
      cbv zeta.
      set (run := fun f => _ds_to_file W f root "bmp" anonymous None).
      set (run' := fun f => _ds_to_file (with_imwrite W writer) f root "bmp"
                              anonymous None).
      assert (Hrun : forall f d1, run' f d1 = run f d1).
      { intros f d1. apply task_depends_on_writer_at_params. exact Hw. }
      rewrite (run_submitted_ext run' run files d Hrun).
      rewrite (run_sequential_ext run' run files d Hrun). reflexivity.
    + rewrite (batch_stops_at_discovery W origin target_root (Some "bmp") anonymous
                 multiprocessing d "bmp" e Hft Hfiles).
      rewrite (batch_stops_at_discovery (with_imwrite W writer) origin target_root
                 (Some "bmp") anonymous multiprocessing d "bmp" e Hft Hfiles).
      reflexivity.
Qed.

(** The repository's own call shape, on a path that does not exist. *)
Lemma dicom2bmp_outcomes_witness :
  dicom2bmp Samples.world_ok (OneOrigin "/DICOM_files") (Some "/BMP_files") false true
    empty_disk
  = (Raise (OSError "File or folder '/DICOM_files' does not exist"), empty_disk).
Proof.
  apply (dicom2bmp_outcomes Samples.world_ok (OneOrigin "/DICOM_files")
           (Some "/BMP_files") false true empty_disk); reflexivity.
Defined.

(* ================================================================== *)
(** ** Export paths do not collide *)

Lemma split_at_char_unique (c : ascii) (a a' r r' : string) :
  has_char c a = false -> has_char c a' = false ->
  a ++ String c r = a' ++ String c r' -> a = a' /\ r = r'.
Proof.
  revert a'. induction a as [| x a IH]; intros [| y a']; simpl; intros Ha Ha' H.
  - injection H as ->. split; reflexivity.
  - injection H as <- _. apply orb_false_iff in Ha'. destruct Ha' as [Hy _].
    rewrite Ascii.eqb_refl in Hy. discriminate Hy.
  - injection H as -> _. apply orb_false_iff in Ha. destruct Ha as [Hx _].
    rewrite Ascii.eqb_refl in Hx. discriminate Hx.
  - injection H as -> H.
    apply orb_false_iff in Ha. apply orb_false_iff in Ha'.
    destruct (IH a' (proj2 Ha) (proj2 Ha') H) as [-> ->]. split; reflexivity.
Qed.

Lemma list_ascii_of_string_app (a b : string) :
  list_ascii_of_string (a ++ b)
  = (list_ascii_of_string a ++ list_ascii_of_string b)%list.
Proof. induction a as [| x a IH]; simpl; [reflexivity | now rewrite IH]. Qed.

Lemma append_cancel_r (a b c : string) : a ++ c = b ++ c -> a = b.
Proof.
  intros H. apply (f_equal list_ascii_of_string) in H.
  rewrite !list_ascii_of_string_app in H. apply app_inv_tail in H.
  apply (f_equal string_of_list_ascii) in H.
  now rewrite !string_of_list_ascii_of_string in H.
Qed.

Lemma export_file_name_inj (ser ins ser' ins' ft : string) :
  has_char "_"%char ser = false -> has_char "_"%char ser' = false ->
  export_file_name ser ins ft = export_file_name ser' ins' ft ->
  ser = ser' /\ ins = ins'.
Proof.
  unfold export_file_name. intros Hs Hs' H.
  change ("_" ++ ins ++ "." ++ ft) with (String "_"%char (ins ++ "." ++ ft)) in H.
  change ("_" ++ ins' ++ "." ++ ft) with (String "_"%char (ins' ++ "." ++ ft)) in H.
  destruct (split_at_char_unique _ _ _ _ _ Hs Hs' H) as [-> H2].
  split; [reflexivity |]. eapply append_cancel_r. exact H2.
Qed.

Lemma has_sep_export_file_name (ser ins ft : string) :
  has_sep ser = false -> has_sep ins = false -> has_sep ft = false ->
  has_sep (export_file_name ser ins ft) = false.
Proof.
  intros Hs Hi Hf. unfold export_file_name.
  rewrite !has_sep_append, Hs, Hi, Hf. reflexivity.
Qed.

Lemma export_path_plain (ds : Dataset) (file_path target_root : Path)
    (filetype : string) (patient_dict : option (list (Path * Path))) :
  has_sep (fst (_get_metadata ds)) = false ->
  has_sep (snd (_get_metadata ds)) = false ->
  has_sep filetype = false ->
  _get_export_file_path ds file_path target_root filetype false patient_dict
  = Ok (target_root
          ++ [export_file_name (fst (_get_metadata ds)) (snd (_get_metadata ds))
                filetype])%list.
Proof.
  intros Hs Hi Hf.
  pose proof (has_sep_export_file_name _ _ _ Hs Hi Hf) as Hname.
  destruct (export_file_name_proper (fst (_get_metadata ds)) (snd (_get_metadata ds))
              filetype) as [N1 N2].
  change (_get_export_file_path ds file_path target_root filetype false patient_dict)
    with (Ok (Path_join target_root
                (Path_of_string
                   (export_file_name (fst (_get_metadata ds))
                      (snd (_get_metadata ds)) filetype)))).
  rewrite (Path_of_string_plain _ Hname N1 N2).
  unfold Path_join. cbn [is_absolute].
  now rewrite (not_root_part_no_sep _ Hname).
Qed.

(** X14: export paths do not collide for distinct series and instance
    numbers.  When the two numbers (or their placeholders) hold no path
    separator and the series number holds no underscore, two datasets
    exported to the same root in the same format get the same path if
    and only if they agree on both numbers; the source file plays no
    part, so distinct files that agree on both numbers are written to
    one and the same path. *)
Theorem export_paths_collide_iff_same_numbers (ds1 ds2 : Dataset)
    (file_path1 file_path2 target_root : Path) (filetype : string)
    (pd1 pd2 : option (list (Path * Path))) :
  has_sep (fst (_get_metadata ds1)) = false ->
  has_sep (snd (_get_metadata ds1)) = false ->
  has_sep (fst (_get_metadata ds2)) = false ->
  has_sep (snd (_get_metadata ds2)) = false ->
  has_char "_"%char (fst (_get_metadata ds1)) = false ->
  has_char "_"%char (fst (_get_metadata ds2)) = false ->
  has_sep filetype = false ->
  (_get_export_file_path ds1 file_path1 target_root filetype false pd1
   = _get_export_file_path ds2 file_path2 target_root filetype false pd2
   <-> _get_metadata ds1 = _get_metadata ds2).
Proof.
  intros Hs1 Hi1 Hs2 Hi2 Hu1 Hu2 Hf.
  rewrite (export_path_plain ds1 file_path1 target_root filetype pd1 Hs1 Hi1 Hf).
  rewrite (export_path_plain ds2 file_path2 target_root filetype pd2 Hs2 Hi2 Hf).
  split.
  - intros H. injection H as H. apply app_inv_head in H. injection H as H.
    destruct (export_file_name_inj _ _ _ _ _ Hu1 Hu2 H) as [E1 E2].
    unfold _get_metadata in *. cbn [fst snd] in E1, E2.
    f_equal; assumption.
  - intros ->. reflexivity.
Qed.

(** Two files of series 3 with instance numbers 1 and 2 are kept apart;
    the placeholder [Ser] and the number 7 of the grayscale sample give
    one path for every file. *)
Lemma export_paths_collide_iff_same_numbers_witness :
  (_get_export_file_path Samples.rgb ["/"; "d"; "a.dcm"] ["/"; "out"] "bmp" false None
   = _get_export_file_path (Samples.gray "MONOCHROME2" 1 2 [0]) ["/"; "d"; "b.dcm"]
       ["/"; "out"] "bmp" false None
   <-> _get_metadata Samples.rgb = _get_metadata (Samples.gray "MONOCHROME2" 1 2 [0])).
Proof.
  apply (export_paths_collide_iff_same_numbers Samples.rgb
           (Samples.gray "MONOCHROME2" 1 2 [0])
           ["/"; "d"; "a.dcm"] ["/"; "d"; "b.dcm"] ["/"; "out"] "bmp" None None);
    reflexivity.
Defined.
